(** * The persistence and chat-session layer of the study-aid page

    A shallow embedding of the [StorageManager] class (the store over
    [localStorage] with its project-grouped "lib" mirror), of
    [FileSystemManager.sanitizeFileName], and of the session logic of the
    [ChatInterface] class, followed by the properties of the
    specification that concern them.

    Conventions of the embedding.
    - A JavaScript object used as a record is a Rocq record; a property
      that may be missing is an [option] ([None]: the object has no value
      for it).  A document object also names the own properties it holds
      with the value [undefined], which object spread copies and
      [JSON.stringify] drops.
    - An object used as a dictionary is a [gmap] of its own properties,
      keyed by strings.  Reading a key that is no own property finds the
      member inherited from [Object.prototype] if the key names one
      ([constructor], [__proto__], [toString], ...), and writing the key
      [__proto__] where it is no own property sets the prototype and
      writes no property: see [member] and [setMember].
    - A timestamp is produced by [new Date().toISOString()] everywhere in
      the source; it is held by its time value, the number of milliseconds
      since the epoch, an integer.  [new Date(s) - new Date(s')] on two such
      strings is the difference of the two integers.
    - Strings are sequences of 8-bit characters.  The character class of
      the file-name rule only ever keeps ASCII letters, digits, '-' and
      '_', so that any other character, whatever its encoding, falls on
      the replaced side.
    - [localStorage] holds text.  A key holds nothing, the empty text, text
      that [JSON.parse] rejects, or the [JSON.stringify] image of a value of
      the shape the store writes under that key; the last is held by the
      value itself.
    - The wall clock, [Math.random] and the storage quota are inputs from
      the environment: three oracles indexed by the number of readings
      taken so far.
    - Calls that only touch the DOM ([renderMessages], [addMessageToChat],
      [refreshSessionSelect], [showToast]) leave the modelled state alone
      and are left out; the elements they use are taken to exist. *)

From Stdlib Require Import ZArith Lia String Ascii.
From stdpp Require Import gmap strings list fin_maps.

Local Open Scope string_scope.
Local Open Scope list_scope.

(** ** Outcomes of a call: it returns, or it throws, and in both cases
    the state it has reached stays. *)

Inductive Exn : Type :=
  | QuotaExceededError
  | SyntaxError
  | TypeError.

Inductive Outcome (S A : Type) : Type :=
  | Returns (a : A) (s : S)
  | Throws (e : Exn) (s : S).

Arguments Returns {S A} a s.
Arguments Throws {S A} e s.

Definition M (S A : Type) : Type := S -> Outcome S A.

Definition ret {S A} (a : A) : M S A := fun s => Returns a s.

Definition bind {S A B} (c : M S A) (k : A -> M S B) : M S B :=
  fun s => match c s with
           | Returns a s' => k a s'
           | Throws e s' => Throws e s'
           end.

Definition throw {S A} (e : Exn) : M S A := fun s => Throws e s.

(** [try { c } catch (error) { h }] *)
Definition tryCatch {S A} (c : M S A) (h : M S A) : M S A :=
  fun s => match c s with
           | Returns a s' => Returns a s'
           | Throws _ s' => h s'
           end.

Definition gets {S A} (f : S -> A) : M S A := fun s => Returns (f s) s.
Definition modify {S} (f : S -> S) : M S unit := fun s => Returns tt (f s).

Notation "'let*' x ':=' c 'in' k" := (bind c (fun x => k))
  (at level 10, x name, c at level 99, k at level 200).
Notation "c ';;' k" := (bind c (fun _ => k))
  (at level 100, k at level 200, right associativity).

(** The state a call ends in, and the value it returns (if it does). *)
Definition finalState {S A} (o : Outcome S A) : S :=
  match o with Returns _ s => s | Throws _ s => s end.

Definition returned {S A} (o : Outcome S A) : option A :=
  match o with Returns a _ => Some a | Throws _ _ => None end.

(** ** JavaScript truthiness of a string-or-missing value *)

(** [x || y] where both are strings, [null] or [undefined]: the empty
    string is falsy as well. *)
Definition truthy (x : option string) : bool :=
  match x with
  | Some s => negb (String.eqb s "")
  | None => false
  end.

Definition orElse (x y : option string) : option string :=
  if truthy x then x else y.

(** [x || y || null] *)
Definition orNull (x : option string) : option string :=
  if truthy x then x else None.

(** ** Entities *)

(** A document object.  [d_rest] holds every other own property ([type],
    [content], [sourceFiles], [aiType], ...), each by its JSON text.
    [d_undefined] names the own properties whose value is [undefined]
    (["title"], or a name that [d_rest] has no text for): an object built
    by a caller can have some, an object read from [localStorage] has
    none, since JSON text has no [undefined].  A name listed there counts
    only as long as the object has no value under it: a value written
    over an [undefined] wins. *)
Record Document : Type := {
  d_id : option string;
  d_title : option string;
  d_createdAt : option Z;
  d_updatedAt : option Z;
  d_rest : gmap string string;
  d_undefined : list string
}.

Inductive MessageType : Type := user | ai | context.

Record Message : Type := {
  m_id : string;
  m_type : MessageType;
  m_content : string;
  m_timestamp : Z;
  m_selectedText : option string
}.

(** A chat session, as [createNewSession] builds it: the six properties
    are always there; [docId] is a string or [null]. *)
Record ChatSession : Type := {
  s_id : string;
  s_title : string;
  s_docId : option string;
  s_messages : list Message;
  s_createdAt : Z;
  s_updatedAt : Z
}.

Record UploadedFile : Type := {
  f_id : option string;
  f_name : string;
  f_rest : gmap string string
}.

Record Settings : Type := {
  theme : string;
  language : string;
  autoSave : bool;
  exportFormat : string
}.

(** Entries of the lib mirror: the entity spread, then [contentType] and
    [fileName]. *)
Record DocMirror : Type := {
  dm_doc : Document;
  dm_contentType : string;
  dm_fileName : string
}.

Record ChatMirror : Type := {
  cm_chat : ChatSession;
  cm_contentType : string;
  cm_fileName : string
}.

Record Project : Type := {
  p_name : string;
  p_docs : gmap string DocMirror;
  p_chats : gmap string ChatMirror;
  p_files : gmap string UploadedFile
}.

(** The data object of [exportData] and of a backup: what the four
    read-all methods gave ([None]: [null]).  Its JSON text is held by the
    object itself. *)
Record StoreData : Type := {
  x_documents : option (list Document);
  x_chats : option (list ChatSession);
  x_uploadedFiles : option (list UploadedFile);
  x_settings : option Settings
}.

Record ExportData : Type := {
  x_data : StoreData;
  x_exportedAt : Z
}.

Record Backup : Type := {
  b_version : string;
  b_timestamp : Z;
  b_data : option StoreData        (* [None]: the object has no [data] *)
}.

(** ** localStorage *)

Inductive Item (A : Type) : Type :=
  | Absent              (* getItem gives null *)
  | EmptyText           (* the empty string *)
  | Malformed           (* JSON.parse throws on it *)
  | Text (a : A).       (* JSON.stringify a *)

Arguments Absent {A}.
Arguments EmptyText {A}.
Arguments Malformed {A}.
Arguments Text {A} a.

(** The five keys the store uses. *)
Record LocalStorage : Type := {
  ai_elearning_documents : Item (list Document);
  ai_elearning_chats : Item (list ChatSession);
  ai_elearning_files : Item (list UploadedFile);
  ai_elearning_settings : Item Settings;
  ai_elearning_lib : Item (gmap string Project)
}.

Definition emptyStorage : LocalStorage :=
  {| ai_elearning_documents := Absent;
     ai_elearning_chats := Absent;
     ai_elearning_files := Absent;
     ai_elearning_settings := Absent;
     ai_elearning_lib := Absent |}.

(** ** The environment of the page *)

Record Env : Type := {
  clock : nat -> Z;              (* the n-th reading of the wall clock, in ms *)
  random36 : nat -> string;      (* the n-th Math.random().toString(36).substr(2) *)
  quotaOk : nat -> bool;         (* does the n-th localStorage.setItem go through *)
  toLocaleTimeString : Z -> string
}.

Record World : Type := {
  env : Env;
  ticks : nat;                   (* clock readings taken *)
  draws : nat;                   (* random numbers drawn *)
  writes : nat;                  (* setItem calls made *)
  localStorage : LocalStorage;
  currentDocument : option Document  (* window.documentEditor.getCurrentDocument() *)
}.

Definition withStorage (f : LocalStorage -> LocalStorage) (w : World) : World :=
  {| env := env w; ticks := ticks w; draws := draws w; writes := writes w;
     localStorage := f (localStorage w); currentDocument := currentDocument w |}.

(** [new Date()] / [Date.now()] *)
Definition now : M World Z :=
  fun w => Returns (clock (env w) (ticks w))
    {| env := env w; ticks := S (ticks w); draws := draws w; writes := writes w;
       localStorage := localStorage w; currentDocument := currentDocument w |}.

Definition mathRandom36 : M World string :=
  fun w => Returns (random36 (env w) (draws w))
    {| env := env w; ticks := ticks w; draws := S (draws w); writes := writes w;
       localStorage := localStorage w; currentDocument := currentDocument w |}.

(** [localStorage.setItem(key, text)]: [put] writes the key. *)
Definition setItem (put : LocalStorage -> LocalStorage) : M World unit :=
  fun w =>
    let w' := {| env := env w; ticks := ticks w; draws := draws w;
                 writes := S (writes w);
                 localStorage := localStorage w;
                 currentDocument := currentDocument w |} in
    if quotaOk (env w) (writes w)
    then Returns tt (withStorage put w')
    else Throws QuotaExceededError w'.

(** [raw ? JSON.parse(raw) : null], which throws on malformed text. *)
Definition parseOrNull {A} (raw : Item A) : M World (option A) :=
  match raw with
  | Absent | EmptyText => ret None
  | Malformed => throw SyntaxError
  | Text a => ret (Some a)
  end.

(** ** StorageManager *)

Module StorageManager.

Definition setDocuments (v : Item (list Document)) (ls : LocalStorage) : LocalStorage :=
  {| ai_elearning_documents := v;
     ai_elearning_chats := ai_elearning_chats ls;
     ai_elearning_files := ai_elearning_files ls;
     ai_elearning_settings := ai_elearning_settings ls;
     ai_elearning_lib := ai_elearning_lib ls |}.

Definition setChats (v : Item (list ChatSession)) (ls : LocalStorage) : LocalStorage :=
  {| ai_elearning_documents := ai_elearning_documents ls;
     ai_elearning_chats := v;
     ai_elearning_files := ai_elearning_files ls;
     ai_elearning_settings := ai_elearning_settings ls;
     ai_elearning_lib := ai_elearning_lib ls |}.

Definition setFiles (v : Item (list UploadedFile)) (ls : LocalStorage) : LocalStorage :=
  {| ai_elearning_documents := ai_elearning_documents ls;
     ai_elearning_chats := ai_elearning_chats ls;
     ai_elearning_files := v;
     ai_elearning_settings := ai_elearning_settings ls;
     ai_elearning_lib := ai_elearning_lib ls |}.

Definition setSettings (v : Item Settings) (ls : LocalStorage) : LocalStorage :=
  {| ai_elearning_documents := ai_elearning_documents ls;
     ai_elearning_chats := ai_elearning_chats ls;
     ai_elearning_files := ai_elearning_files ls;
     ai_elearning_settings := v;
     ai_elearning_lib := ai_elearning_lib ls |}.

Definition setLib (v : Item (gmap string Project)) (ls : LocalStorage) : LocalStorage :=
  {| ai_elearning_documents := ai_elearning_documents ls;
     ai_elearning_chats := ai_elearning_chats ls;
     ai_elearning_files := ai_elearning_files ls;
     ai_elearning_settings := ai_elearning_settings ls;
     ai_elearning_lib := v |}.

(** *** Number.prototype.toString(36) on an integer *)

Definition digit36 (d : Z) : ascii :=
  nth (Z.to_nat d) (list_ascii_of_string "0123456789abcdefghijklmnopqrstuvwxyz") "0"%char.

Fixpoint digits36 (fuel : nat) (n : Z) (acc : string) : string :=
  match fuel with
  | O => acc
  | S fuel' =>
      let acc' := String (digit36 (n mod 36)) acc in
      if (n <? 36)%Z then acc' else digits36 fuel' (n / 36) acc'
  end.

Definition toString36 (n : Z) : string :=
  if (n <? 0)%Z
  then String "-"%char (digits36 (S (Z.to_nat (Z.log2 (- n)))) (- n) EmptyString)
  else digits36 (S (Z.to_nat (Z.log2 n))) n EmptyString.

(** [Date.now().toString(36) + Math.random().toString(36).substr(2)] *)
Definition generateId : M World string :=
  let* t := now in
  let* r := mathRandom36 in
  ret (toString36 t +:+ r).

(** *** Documents *)

Definition getDocuments : M World (option (list Document)) :=
  tryCatch
    (let* raw := gets (fun w => ai_elearning_documents (localStorage w)) in
     parseOrNull raw)
    (ret (Some [])).

Definition saveDocuments (documents : list Document) : M World bool :=
  tryCatch (setItem (setDocuments (Text documents)) ;; ret true) (ret false).

(** [a === b] on two ids *)
Definition strictEq (a b : option string) : bool :=
  match a, b with
  | Some x, Some y => String.eqb x y
  | None, None => true
  | _, _ => false
  end.

(** [findIndex]: [None] stands for -1. *)
Fixpoint findIndex {A} (p : A -> bool) (l : list A) : option nat :=
  match l with
  | [] => None
  | x :: l' => if p x then Some O else option_map S (findIndex p l')
  end.

(** Is [name] among the own properties that hold [undefined]? *)
Definition holdsUndefined (name : string) (names : list string) : bool :=
  existsb (String.eqb name) names.

(** One property of [{ ...a, ...b }]: every own property of [b] wins,
    the ones that hold [undefined] included; a property that [b] does not
    have is kept from [a]. *)
Definition pick {A} (name : string) (undefinedInB : list string) (a b : option A)
  : option A :=
  match b with
  | Some _ => b
  | None => if holdsUndefined name undefinedInB then None else a
  end.

Definition spread (a b : Document) : Document :=
  {| d_id := pick "id" (d_undefined b) (d_id a) (d_id b);
     d_title := pick "title" (d_undefined b) (d_title a) (d_title b);
     d_createdAt := pick "createdAt" (d_undefined b) (d_createdAt a) (d_createdAt b);
     d_updatedAt := pick "updatedAt" (d_undefined b) (d_updatedAt a) (d_updatedAt b);
     d_rest := d_rest b
               ∪ filter (fun kv => holdsUndefined kv.1 (d_undefined b) = false) (d_rest a);
     d_undefined := d_undefined b ++ d_undefined a |}.

(** What [JSON.parse] gives back of the [JSON.stringify] image of a
    document object: the properties that hold [undefined] are gone.  The
    store stringifies whole arrays and the whole lib; the model applies
    [stringify] to the one object that a save puts into them, the others
    having come out of [JSON.parse]. *)
Definition stringify (doc : Document) : Document :=
  {| d_id := d_id doc; d_title := d_title doc;
     d_createdAt := d_createdAt doc; d_updatedAt := d_updatedAt doc;
     d_rest := d_rest doc; d_undefined := [] |}.

(** *** Objects used as dictionaries *)

(** The names every object inherits from [Object.prototype]. *)
Definition inheritedNames : list string :=
  ["constructor"; "__proto__"; "hasOwnProperty"; "isPrototypeOf";
   "propertyIsEnumerable"; "toString"; "toLocaleString"; "valueOf";
   "__defineGetter__"; "__defineSetter__"; "__lookupGetter__"; "__lookupSetter__"].

Definition inherited (k : string) : bool := existsb (String.eqb k) inheritedNames.

(** [o[k]] on an object that [JSON.parse] or an object literal made: an
    own property, else the member inherited under that name (a function,
    or the prototype itself under [__proto__]; truthy, and without
    [docs] or [chats]), else [undefined]. *)
Inductive Member (A : Type) : Type :=
  | Own (a : A)
  | Inherited
  | NoMember.

Arguments Own {A} a.
Arguments Inherited {A}.
Arguments NoMember {A}.

Definition member {A} (o : gmap string A) (k : string) : Member A :=
  match o !! k with
  | Some a => Own a
  | None => if inherited k then Inherited else NoMember
  end.

(** [o[k] = v] with [v] an object: the own property is written, except
    under the key [__proto__] where [o] has no own property of that name:
    there the inherited setter makes [v] the prototype of [o] and no
    property is written. *)
Definition setMember {A} (k : string) (v : A) (o : gmap string A) : gmap string A :=
  match o !! k with
  | Some _ => <[k := v]> o
  | None => if String.eqb k "__proto__" then o else <[k := v]> o
  end.

(** *** The lib mirror *)

Definition getLibRoot : M World (gmap string Project) :=
  tryCatch
    (let* raw := gets (fun w => ai_elearning_lib (localStorage w)) in
     let* parsed := parseOrNull raw in
     ret (default ∅ parsed))
    (ret ∅).

Definition setLibRoot (root : gmap string Project) : M World unit :=
  setItem (setLib (Text root)).

(** [if (!root[projectId]) root[projectId] = { name, docs, chats, files }]:
    an inherited member is truthy, so that nothing is created under its
    name. *)
Definition ensureProject (root : gmap string Project) (projectId : string)
  : gmap string Project :=
  match member root projectId with
  | Own _ | Inherited => root
  | NoMember =>
      <[projectId := {| p_name := projectId; p_docs := ∅; p_chats := ∅; p_files := ∅ |}]> root
  end.

(** The class [[a-z0-9-_]] under the flag [i]. *)
Definition inClass (c : ascii) : bool :=
  let n := nat_of_ascii c in
  ((97 <=? n)%nat && (n <=? 122)%nat) || ((65 <=? n)%nat && (n <=? 90)%nat)
  || ((48 <=? n)%nat && (n <=? 57)%nat) || (n =? 45)%nat || (n =? 95)%nat.

(** [s.replace(/[^a-z0-9-_]+/gi, '_')]: every maximal run of characters
    outside the class becomes one underscore.  [inRun] tells that the
    character before was outside the class. *)
Fixpoint replaceRuns (inRun : bool) (s : string) : string :=
  match s with
  | EmptyString => EmptyString
  | String c s' =>
      if inClass c then String c (replaceRuns false s')
      else if inRun then replaceRuns true s'
      else String "_"%char (replaceRuns true s')
  end.

(** The property key an id turns into. *)
Definition keyOf (id : option string) : string := default "undefined" id.

Definition putDoc (k : string) (m : DocMirror) (p : Project) : Project :=
  {| p_name := p_name p; p_docs := setMember k m (p_docs p);
     p_chats := p_chats p; p_files := p_files p |}.

Definition putChat (k : string) (m : ChatMirror) (p : Project) : Project :=
  {| p_name := p_name p; p_docs := p_docs p;
     p_chats := setMember k m (p_chats p); p_files := p_files p |}.

Definition dropDoc (k : string) (p : Project) : Project :=
  {| p_name := p_name p; p_docs := delete k (p_docs p);
     p_chats := p_chats p; p_files := p_files p |}.

Definition dropChat (k : string) (p : Project) : Project :=
  {| p_name := p_name p; p_docs := p_docs p;
     p_chats := delete k (p_chats p); p_files := p_files p |}.

(** [doc.title || 'document'] and [chat.title || 'chat'] *)
Definition titleOr (fallback : string) (title : option string) : string :=
  match title with
  | Some t => if String.eqb t "" then fallback else t
  | None => fallback
  end.

Definition docFileName (doc : Document) : string :=
  replaceRuns false (titleOr "document" (d_title doc)) +:+ ".md".

Definition chatFileName (chat : ChatSession) : string :=
  replaceRuns false (titleOr "chat" (Some (s_title chat))) +:+ ".json".

(** [root[projectId].docs[doc.id] = { ...doc, contentType, fileName }]
    between [ensureProject] and [setLibRoot].  Under an inherited member
    [root[projectId].docs] is [undefined], and the assignment throws a
    TypeError before anything is written. *)
Definition libSaveDoc (projectId : string) (doc : Document) : M World unit :=
  let* root := getLibRoot in
  let root := ensureProject root projectId in
  let entry := {| dm_doc := stringify doc; dm_contentType := "markdown";
                  dm_fileName := docFileName doc |} in
  match member root projectId with
  | Own _ => setLibRoot (alter (putDoc (keyOf (d_id doc)) entry) projectId root)
  | Inherited | NoMember => throw TypeError
  end.

(** [if (root[projectId] && root[projectId].docs[docId]) { delete ...;
    this.setLibRoot(root) }]: under an inherited [root[projectId]] the
    second operand reads a property of [undefined] and throws; an
    inherited [docs[docId]] is truthy, [delete] then removes nothing and
    the lib is written back. *)
Definition libDeleteDoc (projectId : string) (docId : string) : M World unit :=
  let* root := getLibRoot in
  match member root projectId with
  | Own p =>
      match member (p_docs p) docId with
      | Own _ | Inherited => setLibRoot (alter (dropDoc docId) projectId root)
      | NoMember => ret tt
      end
  | Inherited => throw TypeError
  | NoMember => ret tt
  end.

Definition libSaveChat (projectId : string) (chat : ChatSession) : M World unit :=
  let* root := getLibRoot in
  let root := ensureProject root projectId in
  let entry := {| cm_chat := chat; cm_contentType := "json";
                  cm_fileName := chatFileName chat |} in
  match member root projectId with
  | Own _ => setLibRoot (alter (putChat (s_id chat) entry) projectId root)
  | Inherited | NoMember => throw TypeError
  end.

Definition libDeleteChat (projectId : string) (chatId : string) : M World unit :=
  let* root := getLibRoot in
  match member root projectId with
  | Own p =>
      match member (p_chats p) chatId with
      | Own _ | Inherited => setLibRoot (alter (dropChat chatId) projectId root)
      | NoMember => ret tt
      end
  | Inherited => throw TypeError
  | NoMember => ret tt
  end.

(** [root[projectId] || null]: the project, the inherited member, or
    [null] ([NoMember]). *)
Definition getLibProject (projectId : string) : M World (Member Project) :=
  let* root := getLibRoot in
  ret (member root projectId).

(** [if (projectId) ...]: the call is made for a truthy project id. *)
Definition whenTruthy (x : option string) (f : string -> M World unit) : M World unit :=
  match x with
  | Some s => if String.eqb s "" then ret tt else f s
  | None => ret tt
  end.

(** [{ ...document, id: document.id || this.generateId(),
       createdAt: document.createdAt || new Date().toISOString(),
       updatedAt: new Date().toISOString() }] *)
Definition normalized (document : Document) : M World Document :=
  let* id := (if truthy (d_id document) then ret (d_id document)
              else let* g := generateId in ret (Some g)) in
  let* createdAt := (match d_createdAt document with
                     | Some c => ret (Some c)
                     | None => let* t := now in ret (Some t)
                     end) in
  let* updatedAt := now in
  ret {| d_id := id; d_title := d_title document;
         d_createdAt := createdAt; d_updatedAt := Some updatedAt;
         d_rest := d_rest document; d_undefined := d_undefined document |}.

Definition saveDocument (document : Document) (projectId : option string)
  : M World bool :=
  let* got := getDocuments in
  let documents := default [] got in
  let existingIndex := findIndex (fun doc => strictEq (d_id doc) (d_id document)) documents in
  let* normalized := normalized document in
  let documents := match existingIndex with
                   | Some i => alter (fun old => stringify (spread old normalized)) i documents
                   | None => documents ++ [stringify normalized]
                   end in
  whenTruthy projectId (fun p => libSaveDoc p normalized) ;;
  saveDocuments documents.

Definition getDocument (id : string) : M World (option Document) :=
  let* got := getDocuments in
  match got with
  | Some documents => ret (List.find (fun doc => strictEq (d_id doc) (Some id)) documents)
  | None => throw TypeError
  end.

Definition deleteDocument (id : string) (projectId : option string) : M World bool :=
  let* got := getDocuments in
  let documents := default [] got in
  let filteredDocuments := List.filter (fun doc => negb (strictEq (d_id doc) (Some id))) documents in
  saveDocuments filteredDocuments ;;
  whenTruthy projectId (fun p => libDeleteDoc p id) ;;
  ret true.

(** *** Chats *)

Definition getChats : M World (option (list ChatSession)) :=
  tryCatch
    (let* raw := gets (fun w => ai_elearning_chats (localStorage w)) in
     parseOrNull raw)
    (ret (Some [])).

Definition saveChats (chats : list ChatSession) : M World bool :=
  tryCatch (setItem (setChats (Text chats)) ;; ret true) (ret false).

(** [{ ...a, ...b }] on chat sessions: [b] carries all six properties. *)
Definition spreadChat (a b : ChatSession) : ChatSession :=
  {| s_id := s_id b; s_title := s_title b; s_docId := s_docId b;
     s_messages := s_messages b; s_createdAt := s_createdAt b;
     s_updatedAt := s_updatedAt b |}.

(** [{ ...chatSession, id: chatSession.id || this.generateId(),
       createdAt: chatSession.createdAt || new Date().toISOString(),
       updatedAt: new Date().toISOString() }]; a session's [createdAt] is
    always there. *)
Definition normalizedChat (chatSession : ChatSession) : M World ChatSession :=
  let* id := (if String.eqb (s_id chatSession) "" then generateId
              else ret (s_id chatSession)) in
  let* updatedAt := now in
  ret {| s_id := id; s_title := s_title chatSession;
         s_docId := s_docId chatSession;
         s_messages := s_messages chatSession;
         s_createdAt := s_createdAt chatSession;
         s_updatedAt := updatedAt |}.

Definition saveChatSession (chatSession : ChatSession) (projectId : option string)
  : M World bool :=
  let* got := getChats in
  let chats := default [] got in
  let existingIndex := findIndex (fun chat => String.eqb (s_id chat) (s_id chatSession)) chats in
  let* normalized := normalizedChat chatSession in
  let chats := match existingIndex with
               | Some i => alter (fun old => spreadChat old normalized) i chats
               | None => chats ++ [normalized]
               end in
  let proj := orNull (orElse projectId (s_docId normalized)) in
  whenTruthy proj (fun p => libSaveChat p normalized) ;;
  saveChats chats.

Definition deleteChatSession (id : string) (projectId : option string) : M World bool :=
  let* got := getChats in
  let chats := default [] got in
  let filteredChats := List.filter (fun chat => negb (String.eqb (s_id chat) id)) chats in
  saveChats filteredChats ;;
  whenTruthy projectId (fun p => libDeleteChat p id) ;;
  ret true.

(** *** Uploaded files and settings *)

Definition getUploadedFiles : M World (option (list UploadedFile)) :=
  tryCatch
    (let* raw := gets (fun w => ai_elearning_files (localStorage w)) in
     parseOrNull raw)
    (ret (Some [])).

Definition saveUploadedFiles (files : list UploadedFile) : M World bool :=
  tryCatch (setItem (setFiles (Text files)) ;; ret true) (ret false).

Definition getSettings : M World (option Settings) :=
  tryCatch
    (let* raw := gets (fun w => ai_elearning_settings (localStorage w)) in
     parseOrNull raw)
    (ret None).

Definition saveSettings (settings : Settings) : M World bool :=
  tryCatch (setItem (setSettings (Text settings)) ;; ret true) (ret false).

Definition defaultSettings : Settings :=
  {| theme := "light"; language := "en"; autoSave := true; exportFormat := "docx" |}.

(** [if (!x) seed]: an array or an object is truthy, [null] is not. *)
Definition unlessPresent {A B} (x : option A) (seed : M World B) : M World unit :=
  match x with
  | Some _ => ret tt
  | None => seed ;; ret tt
  end.

Definition initializeStorage : M World unit :=
  let* documents := getDocuments in
  unlessPresent documents (saveDocuments []) ;;
  let* chats := getChats in
  unlessPresent chats (saveChats []) ;;
  let* files := getUploadedFiles in
  unlessPresent files (saveUploadedFiles []) ;;
  let* settings := getSettings in
  unlessPresent settings (saveSettings defaultSettings) ;;
  let* raw := gets (fun w => ai_elearning_lib (localStorage w)) in
  match raw with
  | Absent | EmptyText => setItem (setLib (Text ∅))
  | Malformed | Text _ => ret tt
  end.

(** *** Clearing, export and import *)

(** [localStorage.removeItem(key)]: it never throws. *)
Definition removeItem (drop : LocalStorage -> LocalStorage) : M World unit :=
  modify (withStorage drop).

(** [if (x) save(x)]: an array or an object is truthy, [null] is not. *)
Definition whenPresent {A B} (x : option A) (save : A -> M World B) : M World unit :=
  match x with
  | Some a => save a ;; ret tt
  | None => ret tt
  end.

Definition clearAllData : M World bool :=
  tryCatch
    (removeItem (setDocuments Absent) ;;
     removeItem (setChats Absent) ;;
     removeItem (setFiles Absent) ;;
     removeItem (setSettings Absent) ;;
     initializeStorage ;;
     ret true)
    (ret false).

Definition exportData : M World ExportData :=
  let* documents := getDocuments in
  let* chats := getChats in
  let* uploadedFiles := getUploadedFiles in
  let* settings := getSettings in
  let* exportedAt := now in
  ret {| x_data := {| x_documents := documents; x_chats := chats;
                      x_uploadedFiles := uploadedFiles; x_settings := settings |};
         x_exportedAt := exportedAt |}.

(** The four [if (data.x) this.saveX(data.x)] lines that [importData] and
    [restoreFromBackup] share. *)
Definition saveAll (data : StoreData) : M World unit :=
  whenPresent (x_documents data) saveDocuments ;;
  whenPresent (x_chats data) saveChats ;;
  whenPresent (x_uploadedFiles data) saveUploadedFiles ;;
  whenPresent (x_settings data) saveSettings.

(** [importData(jsonData)]: the argument is text; [JSON.parse] throws on
    what is no JSON, and reading a property of [null] throws as well. *)
Definition importData (jsonData : Item ExportData) : M World bool :=
  tryCatch
    (let* data := (match jsonData with
                   | Text data => ret data
                   | Absent => throw TypeError
                   | EmptyText | Malformed => throw SyntaxError
                   end) in
     saveAll (x_data data) ;;
     ret true)
    (ret false).

Definition createBackup : M World Backup :=
  let* timestamp := now in
  let* documents := getDocuments in
  let* chats := getChats in
  let* uploadedFiles := getUploadedFiles in
  let* settings := getSettings in
  ret {| b_version := "1.0"; b_timestamp := timestamp;
         b_data := Some {| x_documents := documents; x_chats := chats;
                           x_uploadedFiles := uploadedFiles;
                           x_settings := settings |} |}.

(** [restoreFromBackup(backup)].  The [Error] thrown on another version
    never leaves the method; the model throws the exception its [catch]
    discards under the name [TypeError], as for a backup without
    [data]. *)
Definition restoreFromBackup (backup : Backup) : M World bool :=
  tryCatch
    ((if String.eqb (b_version backup) "1.0" then ret tt else throw TypeError) ;;
     let* data := (match b_data backup with
                   | Some data => ret data
                   | None => throw TypeError
                   end) in
     saveAll data ;;
     ret true)
    (ret false).

Definition getChatSession (id : string) : M World (option ChatSession) :=
  let* got := getChats in
  match got with
  | Some chats => ret (List.find (fun chat => String.eqb (s_id chat) id) chats)
  | None => throw TypeError
  end.

End StorageManager.

(** ** FileSystemManager.sanitizeFileName *)

Module FileSystemManager.

Fixpoint mapChars (f : ascii -> ascii) (s : string) : string :=
  match s with
  | EmptyString => EmptyString
  | String c s' => String (f c) (mapChars f s')
  end.

Definition toLowerCase (c : ascii) : ascii :=
  let n := nat_of_ascii c in
  if (65 <=? n)%nat && (n <=? 90)%nat then ascii_of_nat (n + 32) else c.

(** [name.replace(/[^a-z0-9-_]/gi, '_').toLowerCase()]: character by
    character, then lower case. *)
Definition sanitizeFileName (name : string) : string :=
  mapChars toLowerCase
    (mapChars (fun c => if StorageManager.inClass c then c else "_"%char) name).

End FileSystemManager.

(** ** ChatInterface *)

(** The fields of the chat interface that the session logic uses.  The
    array in [messages] is the one [currentSession.messages] points to
    after every load, switch and save; the model keeps it once, in
    [messages], and [s_messages] of the current session is the array as of
    its last assignment, which [saveChatSession] renews before the
    session is handed to the store. *)
Record ChatState : Type := {
  currentSession : option ChatSession;
  messages : list Message;
  sessions : list ChatSession;
  associatedDocId : option string
}.

(** The page: the chat interface, and the world the store lives in. *)
Record Page : Type := {
  chat : ChatState;
  world : World
}.

Module ChatInterface.

Definition liftW {A} (c : M World A) : M Page A :=
  fun p => match c (world p) with
           | Returns a w => Returns a {| chat := chat p; world := w |}
           | Throws e w => Throws e {| chat := chat p; world := w |}
           end.

Definition this {A} (f : ChatState -> A) : M Page A := gets (fun p => f (chat p)).

Definition assign (f : ChatState -> ChatState) : M Page unit :=
  modify (fun p => {| chat := f (chat p); world := world p |}).

Definition setCurrentSession (v : option ChatSession) : M Page unit :=
  assign (fun c => {| currentSession := v; messages := messages c;
                      sessions := sessions c; associatedDocId := associatedDocId c |}).

Definition setMessages (v : list Message) : M Page unit :=
  assign (fun c => {| currentSession := currentSession c; messages := v;
                      sessions := sessions c; associatedDocId := associatedDocId c |}).

Definition setSessions (v : list ChatSession) : M Page unit :=
  assign (fun c => {| currentSession := currentSession c; messages := messages c;
                      sessions := v; associatedDocId := associatedDocId c |}).

Definition setAssociatedDocId (v : option string) : M Page unit :=
  assign (fun c => {| currentSession := currentSession c; messages := messages c;
                      sessions := sessions c; associatedDocId := v |}).

(** [Date.now().toString(36) + Math.random().toString(36).substr(2)] *)
Definition generateMessageId : M World string :=
  let* t := now in
  let* r := mathRandom36 in
  ret (StorageManager.toString36 t +:+ r).

(** [this.messages.push(message)], as [sendMessage] does for the user's
    message and for the answer. *)
Definition pushMessage (message : Message) : M Page unit :=
  let* msgs := this messages in
  setMessages (msgs ++ [message]).

Definition saveChatSession : M Page unit :=
  let* cur := this currentSession in
  match cur with
  | Some s =>
      let* msgs := this messages in
      let* t := liftW now in
      let* assoc := this associatedDocId in
      let s' := {| s_id := s_id s; s_title := s_title s;
                   s_docId := orNull (orElse assoc (s_docId s));
                   s_messages := msgs;
                   s_createdAt := s_createdAt s; s_updatedAt := t |} in
      setCurrentSession (Some s') ;;
      liftW (StorageManager.saveChatSession s' None) ;;
      let* got := liftW StorageManager.getChats in
      setSessions (default [] got)
  | None => ret tt
  end.

Definition dquote : string := String (ascii_of_nat 34) EmptyString.

(** [`${x}`] of a string-or-undefined value *)
Definition interpolate (x : option string) : string := default "undefined" x.

Definition createNewSession (forceNew : bool) : M Page unit :=
  let* cur := this currentSession in
  let* msgs := this messages in
  if negb forceNew && bool_decide (is_Some cur) && (length msgs <=? 1)%nat
  then ret tt
  else
    let* doc := liftW (gets currentDocument) in
    let* timestamp := liftW now in
    let* id := liftW StorageManager.generateId in
    let* title :=
      (match doc with
       | Some d =>
           match d_title d with
           | Some t =>
               ret ("Chat: " +:+ substring 0 30 t
                    +:+ (if (30 <? String.length t)%nat then "..." else ""))
           | None => throw TypeError
           end
       | None =>
           let* t := liftW now in
           let* fmt := liftW (gets (fun w => toLocaleTimeString (env w))) in
           ret ("New Chat " +:+ fmt t)
       end) in
    let* assoc := this associatedDocId in
    setCurrentSession
      (Some {| s_id := id; s_title := title;
               s_docId := match doc with Some d => d_id d | None => orNull assoc end;
               s_messages := [];
               s_createdAt := timestamp; s_updatedAt := timestamp |}) ;;
    setMessages [] ;;
    let* mid := liftW generateMessageId in
    let welcomeMessage :=
      {| m_id := mid; m_type := ai;
         m_content :=
           match doc with
           | Some d =>
               "Hello! I'm ready to help you understand " +:+ dquote
               +:+ interpolate (d_title d) +:+ dquote
               +:+ ". Select any text in your document and ask me questions about it!"
           | None =>
               "Hello! I'm your AI learning assistant. Upload a document and select any text to ask me questions about it!"
           end;
         m_timestamp := timestamp; m_selectedText := None |} in
    pushMessage welcomeMessage ;;
    saveChatSession.

(** [new Date(b.updatedAt) - new Date(a.updatedAt)] *)
Definition byRecency (a b : ChatSession) : Z := (s_updatedAt b - s_updatedAt a)%Z.

(** [Array.prototype.sort(cmp)] is a stable sort: insertion from the
    right, each element going past those that must come before it. *)
Fixpoint insertSorted {A} (cmp : A -> A -> Z) (x : A) (l : list A) : list A :=
  match l with
  | [] => [x]
  | y :: l' => if (0 <? cmp x y)%Z then y :: insertSorted cmp x l' else x :: l
  end.

Definition sort {A} (cmp : A -> A -> Z) (l : list A) : list A :=
  foldr (insertSorted cmp) [] l.

(** [s.docId === currentDoc.id]: a session's [docId] is a string or
    [null], a document's [id] a string or [undefined], and [null] is not
    strictly equal to [undefined]. *)
Definition sameDoc (docId id : option string) : bool :=
  match docId, id with
  | Some a, Some b => String.eqb a b
  | _, _ => false
  end.

Definition loadChatSessions : M Page unit :=
  let* got := liftW StorageManager.getChats in
  setSessions (default [] got) ;;
  let* loaded := this sessions in
  if (0 <? length loaded)%nat then
    let* currentDoc := liftW (gets currentDocument) in
    let sorted := sort byRecency loaded in
    setSessions sorted ;;
    let sessionToLoad := head sorted in
    let* sessionToLoad :=
      (match currentDoc with
       | Some d =>
           let docSessions := List.filter (fun s => sameDoc (s_docId s) (d_id d)) sorted in
           setAssociatedDocId (d_id d) ;;
           ret (if (0 <? length docSessions)%nat
                then head (sort byRecency docSessions)
                else sessionToLoad)
       | None => ret sessionToLoad
       end) in
    setCurrentSession sessionToLoad ;;
    setMessages (match sessionToLoad with Some s => s_messages s | None => [] end)
  else createNewSession false.

Definition switchSession (sessionId : string) : M Page unit :=
  if String.eqb sessionId "" then ret tt
  else
    let* got := liftW StorageManager.getChats in
    let sessions := default [] got in
    match List.find (fun s => String.eqb (s_id s) sessionId) sessions with
    | None => ret tt
    | Some found =>
        let* cur := this currentSession in
        (match cur with Some _ => saveChatSession | None => ret tt end) ;;
        setCurrentSession (Some found) ;;
        setMessages (s_messages found) ;;
        setAssociatedDocId (orNull (s_docId found))
    end.

(** The listener of the [document:displayed] event; [detailId] is
    [e.detail.id] when the event carries one. *)
Definition onDocumentDisplayed (detailId : option string) : M Page unit :=
  setAssociatedDocId (orNull detailId) ;;
  let* cur := this currentSession in
  match cur with
  | Some s =>
      let* assoc := this associatedDocId in
      setCurrentSession
        (Some {| s_id := s_id s; s_title := s_title s; s_docId := assoc;
                 s_messages := s_messages s;
                 s_createdAt := s_createdAt s; s_updatedAt := s_updatedAt s |}) ;;
      saveChatSession
  | None => ret tt
  end.

Definition clearChatHistory : M Page unit :=
  setMessages [] ;;
  createNewSession true.

(** [confirmed] is the answer of the [confirm] dialog. *)
Definition clearCurrentChat (confirmed : bool) : M Page unit :=
  let* cur := this currentSession in
  match cur with
  | None => ret tt
  | Some s =>
      if confirmed then
        liftW (StorageManager.deleteChatSession (s_id s) None) ;;
        createNewSession true
      else ret tt
  end.

Definition deleteChatSession (sessionId : string) (confirmed : bool) : M Page unit :=
  if String.eqb sessionId "" then ret tt
  else
    let* got := liftW StorageManager.getChats in
    let sessions := default [] got in
    match List.find (fun s => String.eqb (s_id s) sessionId) sessions with
    | None => ret tt
    | Some sessionToDelete =>
        if confirmed then
          liftW (StorageManager.deleteChatSession sessionId None) ;;
          let* cur := this currentSession in
          match cur with
          | Some s =>
              if String.eqb (s_id s) sessionId then createNewSession true else ret tt
          | None => ret tt
          end
        else ret tt
    end.

End ChatInterface.

(** ** Vocabulary of the properties *)

(** The storage takes every write: no [setItem] goes over the quota. *)
Definition storageAvailable (w : World) : Prop :=
  forall n, quotaOk (env w) n = true.

(** The four collections of [storageKeys], and their read-all methods
    under one name. *)
Inductive Collection : Type := Documents | Chats | UploadedFiles | SettingsKey.

Inductive Contents : Type :=
  | DocumentList (l : list Document)
  | ChatList (l : list ChatSession)
  | FileList (l : list UploadedFile)
  | SettingsObject (s : Settings).

Definition getAll (c : Collection) : M World (option Contents) :=
  match c with
  | Documents => let* r := StorageManager.getDocuments in ret (DocumentList <$> r)
  | Chats => let* r := StorageManager.getChats in ret (ChatList <$> r)
  | UploadedFiles => let* r := StorageManager.getUploadedFiles in ret (FileList <$> r)
  | SettingsKey => let* r := StorageManager.getSettings in ret (SettingsObject <$> r)
  end.

Definition isEmptyList (x : Contents) : bool :=
  match x with
  | DocumentList [] | ChatList [] | FileList [] => true
  | _ => false
  end.

Definition isAbsent {A} (i : Item A) : bool :=
  match i with Absent => true | _ => false end.

(** [localStorage.getItem] of the collection's key gives [null]. *)
Definition neverWritten (c : Collection) (w : World) : bool :=
  match c with
  | Documents => isAbsent (ai_elearning_documents (localStorage w))
  | Chats => isAbsent (ai_elearning_chats (localStorage w))
  | UploadedFiles => isAbsent (ai_elearning_files (localStorage w))
  | SettingsKey => isAbsent (ai_elearning_settings (localStorage w))
  end.

(** What [initializeStorage] seeds a collection with. *)
Definition seeded (c : Collection) : Contents :=
  match c with
  | Documents => DocumentList []
  | Chats => ChatList []
  | UploadedFiles => FileList []
  | SettingsKey => SettingsObject StorageManager.defaultSettings
  end.

Definition afterBootstrap (w : World) : World :=
  finalState (StorageManager.initializeStorage w).

(** The reading of "uninitialized versus empty" that covers all four
    collections. *)
Definition emptyListAfterBootstrapEverywhere : Prop :=
  forall (c : Collection) (w : World),
    storageAvailable w -> neverWritten c w = true ->
    returned (getAll c w) = Some None /\
    exists x, returned (getAll c (afterBootstrap w)) = Some (Some x)
              /\ isEmptyList x = true.

(** A concrete environment: a clock that advances by one millisecond per
    reading, a random source that counts up in base 36, a store that takes
    every write. *)
Definition sampleEnv : Env :=
  {| clock := fun n => (1700000000000 + Z.of_nat n)%Z;
     random36 := fun n => StorageManager.toString36 (Z.of_nat n + 46656);
     quotaOk := fun _ => true;
     toLocaleTimeString := fun _ => "10:15:00 AM" |}.

(** A page opened for the first time, with no document on display. *)
Definition freshWorld : World :=
  {| env := sampleEnv; ticks := 0; draws := 0; writes := 0;
     localStorage := emptyStorage; currentDocument := None |}.

(** *** What the store reads and leaves *)

(** What a read-all method makes of the text under its key: [null] for
    no text, the empty list when [JSON.parse] throws. *)
Definition readList {A} (i : Item (list A)) : option (list A) :=
  match i with
  | Absent | EmptyText => None
  | Malformed => Some []
  | Text l => Some l
  end.

(** [getSettings] answers [null] when [JSON.parse] throws. *)
Definition readSettings (i : Item Settings) : option Settings :=
  match i with
  | Text s => Some s
  | _ => None
  end.

(** The world after a [setItem] that went through. *)
Definition wrote (put : LocalStorage -> LocalStorage) (w : World) : World :=
  {| env := env w; ticks := ticks w; draws := draws w; writes := S (writes w);
     localStorage := put (localStorage w); currentDocument := currentDocument w |}.

(** The storage [initializeStorage] leaves when every write goes through. *)
Definition seedList {A} (i : Item (list A)) : Item (list A) :=
  match readList i with Some _ => i | None => Text [] end.

Definition bootstrapped (ls : LocalStorage) : LocalStorage :=
  {| ai_elearning_documents := seedList (ai_elearning_documents ls);
     ai_elearning_chats := seedList (ai_elearning_chats ls);
     ai_elearning_files := seedList (ai_elearning_files ls);
     ai_elearning_settings :=
       match readSettings (ai_elearning_settings ls) with
       | Some _ => ai_elearning_settings ls
       | None => Text StorageManager.defaultSettings
       end;
     ai_elearning_lib :=
       match ai_elearning_lib ls with
       | Absent | EmptyText => Text ∅
       | other => other
       end |}.

(** What the read-all methods give, with [|| []] applied. *)
Definition storedDocuments (w : World) : list Document :=
  match returned (StorageManager.getDocuments w) with
  | Some (Some l) => l
  | _ => []
  end.

Definition storedChats (w : World) : list ChatSession :=
  match returned (StorageManager.getChats w) with
  | Some (Some l) => l
  | _ => []
  end.

(** The lib mirror, as [getLibRoot] reads it. *)
Definition libRoot (w : World) : gmap string Project :=
  match returned (StorageManager.getLibRoot w) with
  | Some root => root
  | None => ∅
  end.

(** The entry of a document, or of a chat, in the mirror of a project. *)
Definition docMirror (projectId key : string) (w : World) : option DocMirror :=
  match libRoot w !! projectId with
  | Some p => p_docs p !! key
  | None => None
  end.

Definition chatMirror (projectId key : string) (w : World) : option ChatMirror :=
  match libRoot w !! projectId with
  | Some p => p_chats p !! key
  | None => None
  end.

(** What [getLibRoot] makes of the text under the lib key. *)
Definition readLib (i : Item (gmap string Project)) : gmap string Project :=
  match i with
  | Text root => root
  | _ => ∅
  end.

(** The world after one reading of the clock, and after one id has been
    generated. *)
Definition ticked (w : World) : World :=
  {| env := env w; ticks := S (ticks w); draws := draws w; writes := writes w;
     localStorage := localStorage w; currentDocument := currentDocument w |}.

Definition drew (w : World) : World :=
  {| env := env w; ticks := ticks w; draws := S (draws w); writes := writes w;
     localStorage := localStorage w; currentDocument := currentDocument w |}.

(** *** Sample data *)

Definition welcomeOf (id : string) (t : Z) : Message :=
  {| m_id := id; m_type := ai;
     m_content := "Hello! I'm your AI learning assistant. Upload a document and select any text to ask me questions about it!";
     m_timestamp := t; m_selectedText := None |}.

Definition question (id : string) (t : Z) : Message :=
  {| m_id := id; m_type := user; m_content := "What does this paragraph mean?";
     m_timestamp := t; m_selectedText := Some "the mitochondria" |}.

(** S1 is bound to document D1, S2 to document D2 and updated later. *)
Definition S1 : ChatSession :=
  {| s_id := "s1"; s_title := "Chat: Biology notes"; s_docId := Some "D1";
     s_messages := [welcomeOf "m1" 1000];
     s_createdAt := 1000; s_updatedAt := 1000 |}.

Definition S2 : ChatSession :=
  {| s_id := "s2"; s_title := "Chat: History notes"; s_docId := Some "D2";
     s_messages := [welcomeOf "m2" 2000];
     s_createdAt := 2000; s_updatedAt := 2000 |}.

Definition D1 : Document :=
  {| d_id := Some "D1"; d_title := Some "Biology notes";
     d_createdAt := Some 500%Z; d_updatedAt := Some 500%Z;
     d_rest := {[ "type" := "summary" ]}; d_undefined := [] |}.

(** A page whose store holds the given chats, with the given document on
    display. *)
Definition worldWith (stored : list ChatSession) (shown : option Document) : World :=
  {| env := sampleEnv; ticks := 0; draws := 0; writes := 0;
     localStorage := StorageManager.setChats (Text stored) (bootstrapped emptyStorage);
     currentDocument := shown |}.

Definition idle : ChatState :=
  {| currentSession := None; messages := []; sessions := [];
     associatedDocId := None |}.

(** The chat interface with [s] loaded. *)
Definition holding (s : ChatSession) : ChatState :=
  {| currentSession := Some s; messages := s_messages s; sessions := [];
     associatedDocId := s_docId s |}.

(** The update-or-append step of the two save methods. *)
Definition upsert {A} (p : A -> bool) (merge : A -> A) (n : A) (l : list A) : list A :=
  match StorageManager.findIndex p l with
  | Some i => alter merge i l
  | None => l ++ [n]
  end.

Definition upsertChat (l : list ChatSession) (id : string) (n : ChatSession)
  : list ChatSession :=
  upsert (fun chat => String.eqb (s_id chat) id)
         (fun old => StorageManager.spreadChat old n) n l.

Definition upsertDocument (l : list Document) (id : option string) (n : Document)
  : list Document :=
  upsert (fun doc => StorageManager.strictEq (d_id doc) id)
         (fun old => StorageManager.stringify (StorageManager.spread old n))
         (StorageManager.stringify n) l.

Definition chatEntry (n : ChatSession) : ChatMirror :=
  {| cm_chat := n; cm_contentType := "json";
     cm_fileName := StorageManager.chatFileName n |}.

Definition docEntry (n : Document) : DocMirror :=
  {| dm_doc := StorageManager.stringify n; dm_contentType := "markdown";
     dm_fileName := StorageManager.docFileName n |}.

(** *** Names inherited from [Object.prototype] *)

(** The key, if there is one, is no name that every object inherits. *)
Definition plainKey (x : option string) : bool :=
  match x with
  | Some k => negb (StorageManager.inherited k)
  | None => true
  end.

(** Reading [root[p]] does not land on an inherited member: [p] names a
    project of the lib, or nothing at all. *)
Definition notInherited (root : gmap string Project) (p : string) : Prop :=
  StorageManager.member root p <> StorageManager.Inherited.

(** The project id of a call, when it is used, does not land on an
    inherited member of the lib. *)
Definition usable (proj : option string) (w : World) : Prop :=
  forall p, proj = Some p -> p <> "" -> notInherited (libRoot w) p.

(** A project id under which the lib functions throw. *)
Definition unusable (proj : option string) (w : World) : Prop :=
  exists p, proj = Some p /\ p <> ""
            /\ StorageManager.member (libRoot w) p = StorageManager.Inherited.

(** The lib key after a save that mirrors under [proj] (when truthy). *)
Definition libAfterChat (proj : option string) (n : ChatSession) (w : World)
  : Item (gmap string Project) :=
  match proj with
  | Some p =>
      if String.eqb p "" then ai_elearning_lib (localStorage w)
      else Text (alter (StorageManager.putChat (s_id n) (chatEntry n)) p
                   (StorageManager.ensureProject (libRoot w) p))
  | None => ai_elearning_lib (localStorage w)
  end.

Definition libAfterDoc (proj : option string) (n : Document) (w : World)
  : Item (gmap string Project) :=
  match proj with
  | Some p =>
      if String.eqb p "" then ai_elearning_lib (localStorage w)
      else Text (alter (StorageManager.putDoc (StorageManager.keyOf (d_id n)) (docEntry n)) p
                   (StorageManager.ensureProject (libRoot w) p))
  | None => ai_elearning_lib (localStorage w)
  end.

(** What does not change when the clock is read or an id is drawn. *)
Definition sameStore (w w' : World) : Prop :=
  env w' = env w /\ localStorage w' = localStorage w
  /\ writes w' = writes w /\ currentDocument w' = currentDocument w.

(** The wall clock never runs backwards. *)
Definition clockMonotone (e : Env) : Prop :=
  forall i j, i <= j -> (clock e i <= clock e j)%Z.

(** Two time stamps whose base-36 numerals have as many digits, as any
    two of the years 1972 to 2059 have (eight). *)
Definition sameDigits (a b : Z) : Prop :=
  exists k : nat,
    (36 ^ Z.of_nat k <= a < 36 ^ Z.of_nat (S k))%Z
    /\ (36 ^ Z.of_nat k <= b < 36 ^ Z.of_nat (S k))%Z.

(** The id [generateId] would hand out in a given world. *)
Definition nextId (w : World) : string :=
  StorageManager.toString36 (clock (env w) (ticks w)) +:+ random36 (env w) (draws w).

(** "Every character outside the class replaced with an underscore", the
    letter case kept: the rule as the specification words it. *)
Definition replaceEachCharacter (s : string) : string :=
  FileSystemManager.mapChars
    (fun c => if StorageManager.inClass c then c else "_"%char) s.

(** A document titled as in the specification's example. *)
Definition introDoc : Document :=
  {| d_id := Some "D7"; d_title := Some "Intro: Chapter 1!";
     d_createdAt := Some 1699999999000%Z; d_updatedAt := None;
     d_rest := {[ "type" := "summary" ]}; d_undefined := [] |}.

(** A document object that carries no id. *)
Definition draft : Document :=
  {| d_id := None; d_title := Some "Draft"; d_createdAt := None;
     d_updatedAt := None; d_rest := ∅; d_undefined := [] |}.

(** A document object with an id and no [createdAt]. *)
Definition undated : Document :=
  {| d_id := Some "D8"; d_title := Some "Undated"; d_createdAt := None;
     d_updatedAt := None; d_rest := ∅; d_undefined := [] |}.

Definition hasId (i : string) (doc : Document) : bool :=
  StorageManager.strictEq (d_id doc) (Some i).

(** Every character of a string is in the class, respectively outside. *)
Fixpoint allChars (p : ascii -> bool) (s : string) : bool :=
  match s with
  | EmptyString => true
  | String c s' => p c && allChars p s'
  end.

(** The string is empty or starts with a character of the class. *)
Definition startsKept (s : string) : bool :=
  match s with
  | EmptyString => true
  | String c _ => StorageManager.inClass c
  end.

(** The session [loadChatSessions] settles on, given the document on
    display and the stored sessions sorted by recency. *)
Definition sessionToLoad (currentDoc : option Document) (sorted : list ChatSession)
  : option ChatSession :=
  match currentDoc with
  | Some d =>
      let docSessions :=
        List.filter (fun s => ChatInterface.sameDoc (s_docId s) (d_id d)) sorted in
      if (0 <? length docSessions)%nat
      then head (ChatInterface.sort ChatInterface.byRecency docSessions)
      else head sorted
  | None => head sorted
  end.

(** The [docId] that [ChatInterface.saveChatSession] gives the current
    session, [this.associatedDocId || this.currentSession.docId || null]:
    the store mirrors the session under it. *)
Definition groupingKey (ch : ChatState) (s : ChatSession) : option string :=
  orNull (orElse (associatedDocId ch) (s_docId s)).

(** The current session as [ChatInterface.saveChatSession] hands it to the
    store: the messages in memory, the time of the save, the document the
    chat is associated with. *)
Definition syncedSession (ch : ChatState) (s : ChatSession) (t : Z) : ChatSession :=
  {| s_id := s_id s; s_title := s_title s;
     s_docId := orNull (orElse (associatedDocId ch) (s_docId s));
     s_messages := messages ch;
     s_createdAt := s_createdAt s; s_updatedAt := t |}.

(** The same environment with a storage that is full: every [setItem]
    throws. *)
Definition fullEnv : Env :=
  {| clock := clock sampleEnv; random36 := random36 sampleEnv;
     quotaOk := fun _ => false;
     toLocaleTimeString := toLocaleTimeString sampleEnv |}.

Definition fullWorldWith (stored : list ChatSession) : World :=
  {| env := fullEnv; ticks := 0; draws := 0; writes := 0;
     localStorage := StorageManager.setChats (Text stored) (bootstrapped emptyStorage);
     currentDocument := None |}.

(** A session bound to no document. *)
Definition S3 : ChatSession :=
  {| s_id := "s3"; s_title := "New Chat 10:15:00 AM"; s_docId := None;
     s_messages := [welcomeOf "m5" 3000];
     s_createdAt := 3000; s_updatedAt := 3000 |}.

(** *** More vocabulary: what a delete leaves, ids of a collection *)

Definition withoutId (id : string) (l : list Document) : list Document :=
  List.filter (fun doc => negb (StorageManager.strictEq (d_id doc) (Some id))) l.

(** The lib key after [libDeleteDoc]. *)
Definition libWithoutDoc (proj : option string) (id : string) (w : World)
  : Item (gmap string Project) :=
  match proj with
  | Some p =>
      if String.eqb p "" then ai_elearning_lib (localStorage w)
      else match docMirror p id w with
           | Some _ => Text (alter (StorageManager.dropDoc id) p (libRoot w))
           | None => ai_elearning_lib (localStorage w)
           end
  | None => ai_elearning_lib (localStorage w)
  end.

(** A storage that is full: every [setItem] throws. *)
Definition storageFull (w : World) : Prop :=
  forall n, quotaOk (env w) n = false.

(** A world over the full storage that holds the given documents. *)
Definition fullWorldWithDocuments (stored : list Document) : World :=
  {| env := fullEnv; ticks := 0; draws := 0; writes := 0;
     localStorage := StorageManager.setDocuments (Text stored) (bootstrapped emptyStorage);
     currentDocument := None |}.

(** A world over the sample environment that holds the given documents. *)
Definition worldWithDocuments (stored : list Document) : World :=
  {| env := sampleEnv; ticks := 0; draws := 0; writes := 0;
     localStorage := StorageManager.setDocuments (Text stored) (bootstrapped emptyStorage);
     currentDocument := None |}.

(** An exercise and the solution that refers to it. *)
Definition exercise : Document :=
  {| d_id := Some "E1"; d_title := Some "Exercises"; d_createdAt := Some 100%Z;
     d_updatedAt := Some 100%Z; d_rest := {[ "type" := "exercise" ]};
     d_undefined := [] |}.

Definition solution : Document :=
  {| d_id := Some "L1"; d_title := Some "Solutions"; d_createdAt := Some 200%Z;
     d_updatedAt := Some 200%Z;
     d_rest := {[ "type" := "solution"; "parentExerciseId" := "E1" ]};
     d_undefined := [] |}.

(** An edit of the exercise that only carries the id and new content. *)
Definition exercisePatch : Document :=
  {| d_id := Some "E1"; d_title := None; d_createdAt := None;
     d_updatedAt := None; d_rest := {[ "content" := "1. Define osmosis." ]};
     d_undefined := [] |}.

(** The record a document object is merged into, if any, and the value
    a property has after the merge: the object's if it has one, none if
    the object holds the property as undefined, else the old record's. *)
Definition oldRecord (i : string) (w : World) : option Document :=
  List.find (hasId i) (storedDocuments w).

Definition mergedRest (old : option Document) (document : Document) (k : string)
  : option string :=
  match d_rest document !! k with
  | Some v => Some v
  | None =>
      if StorageManager.holdsUndefined k (d_undefined document) then None
      else match old with Some o => d_rest o !! k | None => None end
  end.

Definition mergedTitle (old : option Document) (document : Document) : option string :=
  match d_title document with
  | Some t => Some t
  | None =>
      if StorageManager.holdsUndefined "title" (d_undefined document) then None
      else match old with Some o => d_title o | None => None end
  end.

(** The mirror entries as read from the text under the lib key. *)
Definition docMirrorIn (lib : Item (gmap string Project)) (projectId key : string)
  : option DocMirror :=
  match readLib lib !! projectId with
  | Some p => p_docs p !! key
  | None => None
  end.

Definition chatMirrorIn (lib : Item (gmap string Project)) (projectId key : string)
  : option ChatMirror :=
  match readLib lib !! projectId with
  | Some p => p_chats p !! key
  | None => None
  end.

(** *** Clearing, exporting and restoring the store *)

(** A method that leaves the environment of the page as it found it,
    whether it returns or throws. *)
Definition keepsEnv {A} (c : M World A) : Prop :=
  forall w, env (finalState (c w)) = env w.

(** The storage after the four [removeItem] calls of [clearAllData]. *)
Definition cleared (ls : LocalStorage) : LocalStorage :=
  {| ai_elearning_documents := Absent; ai_elearning_chats := Absent;
     ai_elearning_files := Absent; ai_elearning_settings := Absent;
     ai_elearning_lib := ai_elearning_lib ls |}.

(** What the four read-all methods answer on a storage. *)
Definition snapshot (ls : LocalStorage) : StoreData :=
  {| x_documents := readList (ai_elearning_documents ls);
     x_chats := readList (ai_elearning_chats ls);
     x_uploadedFiles := readList (ai_elearning_files ls);
     x_settings := readSettings (ai_elearning_settings ls) |}.

(** The text under a key after [if (x) save(x)] went through. *)
Definition overwritten {A} (x : option A) (i : Item A) : Item A :=
  match x with Some a => Text a | None => i end.

(** The storage after the four conditional saves of [importData] and
    [restoreFromBackup] went through. *)
Definition restored (data : StoreData) (ls : LocalStorage) : LocalStorage :=
  {| ai_elearning_documents := overwritten (x_documents data) (ai_elearning_documents ls);
     ai_elearning_chats := overwritten (x_chats data) (ai_elearning_chats ls);
     ai_elearning_files := overwritten (x_uploadedFiles data) (ai_elearning_files ls);
     ai_elearning_settings := overwritten (x_settings data) (ai_elearning_settings ls);
     ai_elearning_lib := ai_elearning_lib ls |}.

(** The answer of a read-all method after a restore: the value of the
    backup, or the one in place where the backup holds [null]. *)
Definition restoredRead {A} (saved inPlace : option A) : option A :=
  match saved with Some _ => saved | None => inPlace end.

Definition storedFiles (w : World) : list UploadedFile :=
  match returned (StorageManager.getUploadedFiles w) with
  | Some (Some l) => l
  | _ => []
  end.

Definition storedSettings (w : World) : option Settings :=
  match returned (StorageManager.getSettings w) with
  | Some s => s
  | None => None
  end.

(** The world after a [setItem] that threw. *)
Definition refused (w : World) : World :=
  {| env := env w; ticks := ticks w; draws := draws w; writes := S (writes w);
     localStorage := localStorage w; currentDocument := currentDocument w |}.

(** A backup of another version, and one without data. *)
Definition oldBackup : Backup :=
  {| b_version := "0.9"; b_timestamp := 0%Z;
     b_data := Some {| x_documents := Some []; x_chats := None;
                       x_uploadedFiles := None; x_settings := None |} |}.

(** *** Chat sessions in the store *)

(** A session with the [updatedAt] the store stamps on it. *)
Definition stamped (c : ChatSession) (t : Z) : ChatSession :=
  {| s_id := s_id c; s_title := s_title c; s_docId := s_docId c;
     s_messages := s_messages c; s_createdAt := s_createdAt c; s_updatedAt := t |}.

(** The project a chat is mirrored under: [projectId || docId || null]. *)
Definition mirrorProject (projectId : option string) (c : ChatSession) : option string :=
  orNull (orElse projectId (s_docId c)).

(** The stored session of an id, as [find] gives it. *)
Definition storedSession (id : string) (w : World) : option ChatSession :=
  List.find (fun chat => String.eqb (s_id chat) id) (storedChats w).

(** The lib key after [libDeleteChat]. *)
Definition libWithoutChat (proj : option string) (id : string) (w : World)
  : Item (gmap string Project) :=
  match proj with
  | Some p =>
      if String.eqb p "" then ai_elearning_lib (localStorage w)
      else match chatMirror p id w with
           | Some _ => Text (alter (StorageManager.dropChat id) p (libRoot w))
           | None => ai_elearning_lib (localStorage w)
           end
  | None => ai_elearning_lib (localStorage w)
  end.

Definition withoutChat (id : string) (l : list ChatSession) : list ChatSession :=
  List.filter (fun chat => negb (String.eqb (s_id chat) id)) l.

(** *** The chat interface and the document on display *)

(** The chat state with another [associatedDocId]. *)
Definition associatedWith (v : option string) (ch : ChatState) : ChatState :=
  {| currentSession := currentSession ch; messages := messages ch;
     sessions := sessions ch; associatedDocId := v |}.

(** The [docId] a session made by [createNewSession] ends up with:
    [doc ? doc.id : this.associatedDocId || null] at its creation, then
    [this.associatedDocId || this.currentSession.docId || null] in
    [saveChatSession]. *)
Definition boundTo (assoc : option string) (doc : option Document) : option string :=
  orNull (orElse assoc (match doc with Some d => d_id d | None => orNull assoc end)).

(** Two documents and a session bound to the second. *)
Definition D2 : Document :=
  {| d_id := Some "D2"; d_title := Some "Genetics"; d_createdAt := Some 500%Z;
     d_updatedAt := Some 500%Z; d_rest := ∅; d_undefined := [] |}.

(** The document on display, if any, has a title: [createNewSession]
    reads [doc.title.substring]. *)
Definition titled (w : World) : Prop :=
  forall d, currentDocument w = Some d -> d_title d <> None.

(** The session [createNewSession] leaves current. *)
Definition createdSession (ch : ChatState) (w : World) (title : string) (m : Message)
    (t : Z) : ChatSession :=
  {| s_id := nextId (ticked w); s_title := title;
     s_docId := boundTo (associatedDocId ch) (currentDocument w);
     s_messages := [m];
     s_createdAt := clock (env w) (ticks w); s_updatedAt := t |}.

(** The chat state with no message in memory. *)
Definition withoutMessages (ch : ChatState) : ChatState :=
  {| currentSession := currentSession ch; messages := [];
     sessions := sessions ch; associatedDocId := associatedDocId ch |}.

(** *** File names *)

(** The characters a sanitised file name is made of: [[a-z0-9-_]]. *)
Definition lowerSafe (c : ascii) : bool :=
  let n := nat_of_ascii c in
  ((97 <=? n)%nat && (n <=? 122)%nat) || ((48 <=? n)%nat && (n <=? 57)%nat)
  || (n =? 45)%nat || (n =? 95)%nat.

(** One character through [sanitizeFileName]. *)
Definition sanitizeChar (c : ascii) : ascii :=
  FileSystemManager.toLowerCase (if StorageManager.inClass c then c else "_"%char).

(** The clock reading a save of a document that carries an id stamps
    updatedAt with: the first reading of the save when the object has a
    createdAt, the second when createdAt took the first. *)
Definition stampTick (document : Document) (w : World) : nat :=
  match d_createdAt document with
  | Some _ => ticks w
  | None => S (ticks w)
  end.

(** A patch that holds its title as undefined, as
    [{ id: 'E1', title: undefined }] does. *)
Definition untitledPatch : Document :=
  {| d_id := Some "E1"; d_title := None; d_createdAt := None;
     d_updatedAt := None; d_rest := ∅; d_undefined := ["title"] |}.

(** An environment whose clock stands still and whose random source
    repeats itself, and a bootstrapped store in it. *)
Definition frozenEnv : Env :=
  {| clock := fun _ => 1700000000000%Z;
     random36 := fun _ => "k2j4";
     quotaOk := fun _ => true;
     toLocaleTimeString := fun _ => "10:15:00 AM" |}.

Definition frozenWorld : World :=
  {| env := frozenEnv; ticks := 0; draws := 0; writes := 0;
     localStorage := StorageManager.setDocuments (Text []) emptyStorage;
     currentDocument := None |}.

(** Splits a conjunction into its parts. *)
Ltac conjs := repeat match goal with |- _ /\ _ => split end.

(** ** How the reads and writes of the store run *)

Lemma storageAvailable_sample : storageAvailable freshWorld.
Proof. intros n. reflexivity. Qed.

Lemma bind_Returns {S A B} (c : M S A) (k : A -> M S B) s a s' :
  c s = Returns a s' -> bind c k s = k a s'.
Proof. intros H. unfold bind. rewrite H. reflexivity. Qed.

Lemma getDocuments_run w :
  StorageManager.getDocuments w
  = Returns (readList (ai_elearning_documents (localStorage w))) w.
Proof.
  unfold StorageManager.getDocuments, tryCatch, bind, gets.
  destruct (ai_elearning_documents (localStorage w)); reflexivity.
Qed.

Lemma getChats_run w :
  StorageManager.getChats w
  = Returns (readList (ai_elearning_chats (localStorage w))) w.
Proof.
  unfold StorageManager.getChats, tryCatch, bind, gets.
  destruct (ai_elearning_chats (localStorage w)); reflexivity.
Qed.

Lemma getUploadedFiles_run w :
  StorageManager.getUploadedFiles w
  = Returns (readList (ai_elearning_files (localStorage w))) w.
Proof.
  unfold StorageManager.getUploadedFiles, tryCatch, bind, gets.
  destruct (ai_elearning_files (localStorage w)); reflexivity.
Qed.

Lemma getSettings_run w :
  StorageManager.getSettings w
  = Returns (readSettings (ai_elearning_settings (localStorage w))) w.
Proof.
  unfold StorageManager.getSettings, tryCatch, bind, gets.
  destruct (ai_elearning_settings (localStorage w)); reflexivity.
Qed.

Lemma setItem_run put w :
  storageAvailable w -> setItem put w = Returns tt (wrote put w).
Proof. intros Hq. unfold setItem. rewrite Hq. reflexivity. Qed.

Lemma storageAvailable_wrote put w :
  storageAvailable w -> storageAvailable (wrote put w).
Proof. intros Hq n. apply Hq. Qed.

Lemma saveDocuments_run l w :
  storageAvailable w ->
  StorageManager.saveDocuments l w
  = Returns true (wrote (StorageManager.setDocuments (Text l)) w).
Proof.
  intros Hq. unfold StorageManager.saveDocuments, tryCatch.
  rewrite (bind_Returns _ _ _ _ _ (setItem_run _ _ Hq)). reflexivity.
Qed.

Lemma saveChats_run l w :
  storageAvailable w ->
  StorageManager.saveChats l w
  = Returns true (wrote (StorageManager.setChats (Text l)) w).
Proof.
  intros Hq. unfold StorageManager.saveChats, tryCatch.
  rewrite (bind_Returns _ _ _ _ _ (setItem_run _ _ Hq)). reflexivity.
Qed.

Lemma saveUploadedFiles_run l w :
  storageAvailable w ->
  StorageManager.saveUploadedFiles l w
  = Returns true (wrote (StorageManager.setFiles (Text l)) w).
Proof.
  intros Hq. unfold StorageManager.saveUploadedFiles, tryCatch.
  rewrite (bind_Returns _ _ _ _ _ (setItem_run _ _ Hq)). reflexivity.
Qed.

Lemma saveSettings_run v w :
  storageAvailable w ->
  StorageManager.saveSettings v w
  = Returns true (wrote (StorageManager.setSettings (Text v)) w).
Proof.
  intros Hq. unfold StorageManager.saveSettings, tryCatch.
  rewrite (bind_Returns _ _ _ _ _ (setItem_run _ _ Hq)). reflexivity.
Qed.

(** One seeding step of [initializeStorage]: it returns, in a world that
    takes writes as before, with the key seeded if the read was [null]
    and every other key as it was. *)
Lemma seed_step {A B} (x : option A) (seed : M World B)
    (put : LocalStorage -> LocalStorage) (w : World) :
  storageAvailable w ->
  (forall w0, storageAvailable w0 -> exists b, seed w0 = Returns b (wrote put w0)) ->
  exists w', StorageManager.unlessPresent x seed w = Returns tt w'
             /\ storageAvailable w'
             /\ localStorage w'
                = match x with Some _ => localStorage w | None => put (localStorage w) end.
Proof.
  intros Hq Hseed. destruct x as [a|]; cbn.
  - exists w. auto.
  - destruct (Hseed w Hq) as [b Hb]. exists (wrote put w).
    rewrite (bind_Returns _ _ _ _ _ Hb). auto using storageAvailable_wrote.
Qed.

Lemma initializeStorage_run w :
  storageAvailable w ->
  exists w', StorageManager.initializeStorage w = Returns tt w'
             /\ localStorage w' = bootstrapped (localStorage w).
Proof.
  intros Hq. unfold StorageManager.initializeStorage.
  rewrite (bind_Returns _ _ _ _ _ (getDocuments_run w)).
  destruct (seed_step (readList (ai_elearning_documents (localStorage w)))
              (StorageManager.saveDocuments [])
              (StorageManager.setDocuments (Text [])) w Hq) as (w1 & E1 & Hq1 & L1).
  { intros w0 H0. eexists. apply saveDocuments_run, H0. }
  rewrite (bind_Returns _ _ _ _ _ E1).
  rewrite (bind_Returns _ _ _ _ _ (getChats_run w1)).
  destruct (seed_step (readList (ai_elearning_chats (localStorage w1)))
              (StorageManager.saveChats [])
              (StorageManager.setChats (Text [])) w1 Hq1) as (w2 & E2 & Hq2 & L2).
  { intros w0 H0. eexists. apply saveChats_run, H0. }
  rewrite (bind_Returns _ _ _ _ _ E2).
  rewrite (bind_Returns _ _ _ _ _ (getUploadedFiles_run w2)).
  destruct (seed_step (readList (ai_elearning_files (localStorage w2)))
              (StorageManager.saveUploadedFiles [])
              (StorageManager.setFiles (Text [])) w2 Hq2) as (w3 & E3 & Hq3 & L3).
  { intros w0 H0. eexists. apply saveUploadedFiles_run, H0. }
  rewrite (bind_Returns _ _ _ _ _ E3).
  rewrite (bind_Returns _ _ _ _ _ (getSettings_run w3)).
  destruct (seed_step (readSettings (ai_elearning_settings (localStorage w3)))
              (StorageManager.saveSettings StorageManager.defaultSettings)
              (StorageManager.setSettings (Text StorageManager.defaultSettings))
              w3 Hq3) as (w4 & E4 & Hq4 & L4).
  { intros w0 H0. eexists. apply saveSettings_run, H0. }
  rewrite (bind_Returns _ _ _ _ _ E4).
  unfold bind at 1, gets.
  assert (L : localStorage w4
              = StorageManager.setSettings
                  (match readSettings (ai_elearning_settings (localStorage w)) with
                   | Some _ => ai_elearning_settings (localStorage w)
                   | None => Text StorageManager.defaultSettings
                   end)
                  (StorageManager.setFiles (seedList (ai_elearning_files (localStorage w)))
                     (StorageManager.setChats (seedList (ai_elearning_chats (localStorage w)))
                        (StorageManager.setDocuments
                           (seedList (ai_elearning_documents (localStorage w)))
                           (localStorage w))))).
  { rewrite L4, L3, L2, L1. destruct (localStorage w) as [i1 i2 i3 i4 i5].
    destruct i1, i2, i3, i4; reflexivity. }
  destruct (ai_elearning_lib (localStorage w4)) eqn:El.
  1,2: rewrite (setItem_run _ _ Hq4); eexists; split; [reflexivity|];
       cbn; rewrite L; rewrite L in El; destruct (localStorage w) as [i1 i2 i3 i4 i5];
       cbn in El |- *; rewrite El; reflexivity.
  1,2: eexists; split; [reflexivity|];
       rewrite L; rewrite L in El; destruct (localStorage w) as [i1 i2 i3 i4 i5];
       cbn in El |- *; rewrite El; reflexivity.
Qed.

(** ** Uninitialized versus empty *)

(** C7, amended.  A list collection whose key was never written reads
    as null, and as the empty list once [initializeStorage] has run with
    the storage taking the writes; the settings read as null before and as
    the default settings object, not a list, after. *)
Theorem uninitialized_vs_empty (c : Collection) (w : World) :
  storageAvailable w -> neverWritten c w = true ->
  returned (getAll c w) = Some None /\
  returned (getAll c (afterBootstrap w)) = Some (Some (seeded c)) /\
  (isEmptyList (seeded c) = true <-> c <> SettingsKey).
Proof.
  intros Hq Hnew.
  split; [| split].
  - destruct c; cbn [getAll];
      [ rewrite (bind_Returns _ _ _ _ _ (getDocuments_run w))
      | rewrite (bind_Returns _ _ _ _ _ (getChats_run w))
      | rewrite (bind_Returns _ _ _ _ _ (getUploadedFiles_run w))
      | rewrite (bind_Returns _ _ _ _ _ (getSettings_run w)) ];
      cbn in Hnew |- *;
      destruct (localStorage w) as [i1 i2 i3 i4 i5];
      cbn in Hnew |- *;
      [destruct i1 | destruct i2 | destruct i3 | destruct i4];
      try discriminate; reflexivity.
  - unfold afterBootstrap.
    destruct (initializeStorage_run w Hq) as (w' & E & L). rewrite E. cbn [finalState].
    destruct c; cbn [getAll];
      [ rewrite (bind_Returns _ _ _ _ _ (getDocuments_run w'))
      | rewrite (bind_Returns _ _ _ _ _ (getChats_run w'))
      | rewrite (bind_Returns _ _ _ _ _ (getUploadedFiles_run w'))
      | rewrite (bind_Returns _ _ _ _ _ (getSettings_run w')) ];
      rewrite L; cbn in Hnew |- *;
      destruct (localStorage w) as [i1 i2 i3 i4 i5];
      cbn in Hnew |- *;
      [destruct i1 | destruct i2 | destruct i3 | destruct i4];
      try discriminate; reflexivity.
  - destruct c; cbn; split; intros; try congruence; try reflexivity.
Qed.

Lemma uninitialized_vs_empty_witness :
  storageAvailable freshWorld /\ neverWritten Documents freshWorld = true /\
  (returned (getAll Documents freshWorld) = Some None /\
   returned (getAll Documents (afterBootstrap freshWorld)) = Some (Some (seeded Documents)) /\
   (isEmptyList (seeded Documents) = true <-> Documents <> SettingsKey)).
Proof.
  split; [intros n; reflexivity |].
  split; [reflexivity |].
  apply (uninitialized_vs_empty Documents freshWorld); [intros n; reflexivity | reflexivity].
Defined.

(** C7 as stated fails on the settings collection: after the bootstrap of
    a fresh page [getSettings] answers the default settings object. *)
Lemma settings_seeded_with_an_object : ~ emptyListAfterBootstrapEverywhere.
Proof.
  intros H.
  destruct (H SettingsKey freshWorld storageAvailable_sample eq_refl) as [_ (x & E & Hx)].
  vm_compute in E. injection E as <-. discriminate Hx.
Qed.

(** ** Lemmas on the store's reads, shared by the properties below *)

Lemma storedDocuments_eq w :
  storedDocuments w = default [] (readList (ai_elearning_documents (localStorage w))).
Proof.
  unfold storedDocuments. rewrite getDocuments_run. cbn.
  destruct (readList _); reflexivity.
Qed.

Lemma storedChats_eq w :
  storedChats w = default [] (readList (ai_elearning_chats (localStorage w))).
Proof.
  unfold storedChats. rewrite getChats_run. cbn.
  destruct (readList _); reflexivity.
Qed.

Lemma getLibRoot_run w :
  StorageManager.getLibRoot w = Returns (readLib (ai_elearning_lib (localStorage w))) w.
Proof.
  unfold StorageManager.getLibRoot, tryCatch, bind, gets.
  destruct (ai_elearning_lib (localStorage w)); reflexivity.
Qed.

Lemma libRoot_eq w : libRoot w = readLib (ai_elearning_lib (localStorage w)).
Proof. unfold libRoot. rewrite getLibRoot_run. reflexivity. Qed.

Lemma liftW_Returns {A} (c : M World A) ch w a w' :
  c w = Returns a w' ->
  ChatInterface.liftW c {| chat := ch; world := w |}
  = Returns a {| chat := ch; world := w' |}.
Proof. intros H. unfold ChatInterface.liftW. cbn. rewrite H. reflexivity. Qed.

Lemma find_absent {A} (f : A -> bool) (l : list A) :
  (forall x, In x l -> f x = false) -> List.find f l = None.
Proof.
  induction l as [|y l IH]; intros H; [reflexivity|].
  cbn. rewrite (H y (or_introl eq_refl)). apply IH.
  intros x Hx. apply H. right. exact Hx.
Qed.

(** *** Reading and writing members of a dictionary *)

Lemma member_lookup {A} (o : gmap string A) k a :
  o !! k = Some a -> StorageManager.member o k = StorageManager.Own a.
Proof. intros H. unfold StorageManager.member. rewrite H. reflexivity. Qed.

Lemma member_Own {A} (o : gmap string A) k a :
  StorageManager.member o k = StorageManager.Own a <-> o !! k = Some a.
Proof.
  unfold StorageManager.member. destruct (o !! k) as [b|].
  - split; congruence.
  - destruct (StorageManager.inherited k); split; discriminate.
Qed.

Lemma member_Inherited {A} (o : gmap string A) k :
  StorageManager.member o k = StorageManager.Inherited
  <-> o !! k = None /\ StorageManager.inherited k = true.
Proof.
  unfold StorageManager.member. destruct (o !! k) as [b|].
  - split; [discriminate | intros [H _]; discriminate].
  - destruct (StorageManager.inherited k); split; try discriminate; auto.
    intros [_ H]. discriminate.
Qed.

Lemma member_plain {A} (o : gmap string A) k :
  StorageManager.inherited k = false ->
  StorageManager.member o k <> StorageManager.Inherited.
Proof. intros H E. apply member_Inherited in E. destruct E as [_ E]. congruence. Qed.

Lemma plainKey_Some p : StorageManager.inherited p = false -> plainKey (Some p) = true.
Proof. intros H. unfold plainKey. rewrite H. reflexivity. Qed.

Lemma plainKey_usable proj w : plainKey proj = true -> usable proj w.
Proof.
  intros H p -> _. apply member_plain. cbn in H. apply negb_true_iff in H. exact H.
Qed.

Lemma usable_or_not proj w : usable proj w \/ unusable proj w.
Proof.
  destruct proj as [p|]; [|left; intros p [=]].
  destruct (String.eqb p "") eqn:Ep.
  - left. intros q [= <-] Hq. apply String.eqb_neq in Hq. congruence.
  - destruct (StorageManager.member (libRoot w) p) eqn:Em.
    + left. intros q [= <-] _. unfold notInherited. rewrite Em. discriminate.
    + right. exists p. split; [reflexivity|]. split; [apply String.eqb_neq, Ep | exact Em].
    + left. intros q [= <-] _. unfold notInherited. rewrite Em. discriminate.
Qed.

Lemma lookup_setMember {A} k (v : A) o :
  k <> "__proto__" \/ is_Some (o !! k) -> StorageManager.setMember k v o !! k = Some v.
Proof.
  intros H. unfold StorageManager.setMember.
  destruct (o !! k) as [a|] eqn:E; [apply lookup_insert_eq|].
  destruct H as [H|[a H]]; [|discriminate].
  apply String.eqb_neq in H. rewrite H. apply lookup_insert_eq.
Qed.

Lemma lookup_setMember_ne {A} k k' (v : A) o :
  k' <> k -> StorageManager.setMember k v o !! k' = o !! k'.
Proof.
  intros H. unfold StorageManager.setMember.
  destruct (o !! k); [apply lookup_insert_ne; congruence|].
  destruct (String.eqb k "__proto__"); [reflexivity | apply lookup_insert_ne; congruence].
Qed.

(** ** Switching to an unknown session *)

(** C8.  [switchSession] with an id that no stored session carries
    returns without throwing and leaves the whole page as it was: the
    current session, the messages in memory and the stored chats. *)
Theorem switchSession_unknown_id (sessionId : string) (p : Page) :
  (forall s, In s (storedChats (world p)) -> s_id s <> sessionId) ->
  ChatInterface.switchSession sessionId p = Returns tt p.
Proof.
  intros Hnone. destruct p as [ch w]. cbn [world] in Hnone.
  unfold ChatInterface.switchSession.
  destruct (String.eqb sessionId "") eqn:Eid; [reflexivity|].
  rewrite (bind_Returns _ _ _ _ _ (liftW_Returns _ ch w _ _ (getChats_run w))).
  rewrite <- storedChats_eq.
  rewrite find_absent; [reflexivity|].
  intros s Hs. apply String.eqb_neq. apply Hnone, Hs.
Qed.

Lemma switchSession_unknown_id_witness :
  ChatInterface.switchSession "s9"
    {| chat := holding S1; world := worldWith [S1; S2] None |}
  = Returns tt {| chat := holding S1; world := worldWith [S1; S2] None |}.
Proof.
  apply (switchSession_unknown_id "s9"
           {| chat := holding S1; world := worldWith [S1; S2] None |}).
  intros s Hs. vm_compute in Hs.
  destruct Hs as [<- | [<- | []]]; discriminate.
Defined.

(** ** Deleting a chat and the lib mirror *)

Lemma ensureProject_lookup root p :
  notInherited root p ->
  exists proj, StorageManager.ensureProject root p !! p = Some proj
               /\ (forall old, root !! p = Some old -> proj = old).
Proof.
  unfold notInherited, StorageManager.ensureProject, StorageManager.member.
  intros Hp. destruct (root !! p) as [old|] eqn:E.
  - exists old. split; [exact E | intros ? [= ->]; reflexivity].
  - destruct (StorageManager.inherited p); [congruence|].
    eexists. split; [apply lookup_insert_eq | intros ? [=]].
Qed.

Lemma ensureProject_Inherited root p :
  StorageManager.member root p = StorageManager.Inherited ->
  StorageManager.ensureProject root p = root.
Proof. intros H. unfold StorageManager.ensureProject. rewrite H. reflexivity. Qed.

Lemma libSaveChat_run p chat w :
  storageAvailable w -> notInherited (libRoot w) p ->
  StorageManager.libSaveChat p chat w
  = Returns tt
      (wrote (StorageManager.setLib
                (Text (alter (StorageManager.putChat (s_id chat)
                                {| cm_chat := chat; cm_contentType := "json";
                                   cm_fileName := StorageManager.chatFileName chat |})
                             p (StorageManager.ensureProject (libRoot w) p)))) w).
Proof.
  intros Hq Hp. unfold StorageManager.libSaveChat.
  rewrite (bind_Returns _ _ _ _ _ (getLibRoot_run w)). rewrite <- libRoot_eq.
  destruct (ensureProject_lookup (libRoot w) p Hp) as (proj & E & _).
  rewrite (member_lookup _ _ _ E).
  unfold StorageManager.setLibRoot. rewrite (setItem_run _ _ Hq). reflexivity.
Qed.

(** Under a member inherited from [Object.prototype] the mirror of a
    chat throws before anything is written. *)
Lemma libSaveChat_throws p chat w :
  StorageManager.member (libRoot w) p = StorageManager.Inherited ->
  StorageManager.libSaveChat p chat w = Throws TypeError w.
Proof.
  intros Hp. unfold StorageManager.libSaveChat.
  rewrite (bind_Returns _ _ _ _ _ (getLibRoot_run w)). rewrite <- libRoot_eq.
  rewrite (ensureProject_Inherited _ _ Hp), Hp. reflexivity.
Qed.

Lemma plainKey_orNull x : plainKey x = true -> plainKey (orNull x) = true.
Proof. intros H. unfold orNull. destruct (truthy x); [exact H | reflexivity]. Qed.

Lemma plainKey_orElse x y :
  plainKey x = true -> plainKey y = true -> plainKey (orElse x y) = true.
Proof. intros Hx Hy. unfold orElse. destruct (truthy x); assumption. Qed.

Lemma usable_same proj w w' :
  localStorage w' = localStorage w -> usable proj w -> usable proj w'.
Proof.
  intros Hl H p Hp Hne. unfold notInherited. rewrite libRoot_eq, Hl, <- libRoot_eq.
  exact (H p Hp Hne).
Qed.

Lemma usable_lib proj w w' :
  ai_elearning_lib (localStorage w') = ai_elearning_lib (localStorage w) ->
  usable proj w -> usable proj w'.
Proof.
  intros Hl H p Hp Hne. unfold notInherited. rewrite libRoot_eq, Hl, <- libRoot_eq.
  exact (H p Hp Hne).
Qed.

Lemma unusable_lib proj w w' :
  ai_elearning_lib (localStorage w') = ai_elearning_lib (localStorage w) ->
  unusable proj w -> unusable proj w'.
Proof.
  intros Hl (p & Hp & Hne & Hm). exists p. conjs; try assumption.
  rewrite libRoot_eq, Hl, <- libRoot_eq. exact Hm.
Qed.

(** Deleting a chat with no project id touches the chats key only. *)
Lemma deleteChatSession_frame id w :
  let w' := finalState (StorageManager.deleteChatSession id None w) in
  ai_elearning_lib (localStorage w') = ai_elearning_lib (localStorage w)
  /\ ai_elearning_documents (localStorage w') = ai_elearning_documents (localStorage w).
Proof.
  unfold StorageManager.deleteChatSession.
  rewrite (bind_Returns _ _ _ _ _ (getChats_run w)).
  unfold StorageManager.saveChats, tryCatch, bind, setItem, ret.
  destruct (quotaOk (env w) (writes w)); cbn; auto.
Qed.

Lemma deleteChatSession_run id w :
  storageAvailable w ->
  StorageManager.deleteChatSession id None w
  = Returns true
      (wrote (StorageManager.setChats
                (Text (List.filter (fun chat => negb (String.eqb (s_id chat) id))
                         (storedChats w)))) w).
Proof.
  intros Hq. unfold StorageManager.deleteChatSession.
  rewrite (bind_Returns _ _ _ _ _ (getChats_run w)).
  rewrite <- storedChats_eq.
  rewrite (bind_Returns _ _ _ _ _ (saveChats_run _ _ Hq)).
  reflexivity.
Qed.

(** *** Generated ids are never empty *)

Lemma digits36_nonempty fuel n acc :
  acc <> EmptyString -> StorageManager.digits36 fuel n acc <> EmptyString.
Proof.
  revert n acc. induction fuel as [|fuel IH]; intros n acc Hacc; cbn; [exact Hacc|].
  destruct (n <? 36)%Z; [discriminate|]. apply IH. discriminate.
Qed.

Lemma toString36_nonempty n : StorageManager.toString36 n <> EmptyString.
Proof.
  unfold StorageManager.toString36. destruct (n <? 0)%Z; [discriminate|].
  cbn. destruct (n <? 36)%Z; [discriminate|]. apply digits36_nonempty. discriminate.
Qed.

(** The fuel of [toString36] is enough: more of it changes nothing. *)
Lemma digits36_fuel fuel extra n acc :
  (0 <= n < 36 ^ Z.of_nat (S fuel))%Z ->
  StorageManager.digits36 (S fuel + extra) n acc = StorageManager.digits36 (S fuel) n acc.
Proof.
  revert n acc. induction fuel as [|fuel IH]; intros n acc Hn.
  - cbn [StorageManager.digits36 Nat.add].
    destruct (Z.ltb_spec n 36%Z) as [_|H]; [reflexivity|]. cbn in Hn. lia.
  - change (S (S fuel) + extra) with (S (S fuel + extra)).
    cbn [StorageManager.digits36].
    destruct (Z.ltb_spec n 36%Z) as [_|H]; [reflexivity|].
    apply IH. split; [apply Z.div_pos; lia|].
    apply Z.div_lt_upper_bound; [lia|].
    rewrite (Nat2Z.inj_succ (S fuel)), Z.pow_succ_r in Hn by lia. lia.
Qed.

Lemma toString36_fuel n extra :
  (0 <= n)%Z ->
  StorageManager.digits36 (S (Z.to_nat (Z.log2 n)) + extra) n EmptyString
  = StorageManager.toString36 n.
Proof.
  intros Hn. unfold StorageManager.toString36.
  destruct (Z.ltb_spec n 0%Z) as [H|_]; [lia|].
  apply digits36_fuel. split; [exact Hn|].
  rewrite Nat2Z.inj_succ, Z2Nat.id by apply Z.log2_nonneg.
  apply Z.lt_le_trans with (2 ^ Z.succ (Z.log2 n))%Z.
  - destruct (Z.eq_dec n 0%Z) as [->|Hz]; [reflexivity|].
    apply Z.log2_spec. lia.
  - apply Z.pow_le_mono_l. lia.
Qed.

Lemma append_nonempty (a b : string) : a <> EmptyString -> a +:+ b <> EmptyString.
Proof. destruct a; [congruence | discriminate]. Qed.

Lemma append_cons c (a b : string) : String c a +:+ b = String c (a +:+ b).
Proof. reflexivity. Qed.

Lemma append_empty (b : string) : EmptyString +:+ b = b.
Proof. reflexivity. Qed.

(** *** Two generated ids differ unless the two calls fall into the same
    millisecond and draw the same random number *)

Lemma append_assoc3 (a b c : string) : (a +:+ b) +:+ c = a +:+ (b +:+ c).
Proof.
  induction a as [|x a IH]; [reflexivity|]. rewrite !append_cons. f_equal. exact IH.
Qed.

Lemma digits36_S fuel n acc :
  StorageManager.digits36 (S fuel) n acc
  = if (n <? 36)%Z then String (StorageManager.digit36 (n mod 36)) acc
    else StorageManager.digits36 fuel (n / 36) (String (StorageManager.digit36 (n mod 36)) acc).
Proof. reflexivity. Qed.

Lemma digits36_acc fuel n acc :
  StorageManager.digits36 fuel n acc = StorageManager.digits36 fuel n "" +:+ acc.
Proof.
  revert n acc. induction fuel as [|fuel IH]; intros n acc; [reflexivity|].
  rewrite !digits36_S. destruct (n <? 36)%Z; [reflexivity|].
  rewrite IH. rewrite (IH _ (String _ "")). rewrite append_assoc3. reflexivity.
Qed.

Lemma length_append (a b : string) :
  String.length (a +:+ b) = String.length a + String.length b.
Proof.
  induction a as [|x a IH]; [reflexivity|]. rewrite append_cons. cbn. f_equal. exact IH.
Qed.

Lemma pow36_step k n :
  (36 ^ Z.of_nat (S k) <= n < 36 ^ Z.of_nat (S (S k)))%Z ->
  (36 <= n)%Z /\ (36 ^ Z.of_nat k <= n / 36 < 36 ^ Z.of_nat (S k))%Z.
Proof.
  rewrite !Nat2Z.inj_succ. rewrite !Z.pow_succ_r by lia.
  intros [Hlo Hhi].
  assert (Hp : (0 < 36 ^ Z.of_nat k)%Z) by (apply Z.pow_pos_nonneg; lia).
  split; [lia|]. split.
  - apply Z.div_le_lower_bound; lia.
  - apply Z.div_lt_upper_bound; lia.
Qed.

Lemma length_digits36 k n :
  (36 ^ Z.of_nat k <= n)%Z -> String.length (StorageManager.digits36 (S k) n "") = S k.
Proof.
  revert n. induction k as [|k IH]; intros n Hn.
  - rewrite digits36_S. destruct (n <? 36)%Z; reflexivity.
  - rewrite digits36_S.
    rewrite (Nat2Z.inj_succ k), Z.pow_succ_r in Hn by lia.
    assert (Hp : (0 < 36 ^ Z.of_nat k)%Z) by (apply Z.pow_pos_nonneg; lia).
    destruct (Z.ltb_spec n 36%Z) as [H|H]; [lia|].
    rewrite digits36_acc, length_append, IH; [cbn; lia|].
    apply Z.div_le_lower_bound; lia.
Qed.

Lemma append_same_length (a b c d : string) :
  String.length a = String.length b -> a +:+ c = b +:+ d -> a = b /\ c = d.
Proof.
  revert b. induction a as [|x a IH]; intros [|y b] Hl H; try discriminate.
  - rewrite !append_empty in H. auto.
  - rewrite !append_cons in H. injection H as -> H. injection Hl as Hl.
    destruct (IH b Hl H) as [-> ->]. auto.
Qed.

Lemma digit36_inj a b :
  (0 <= a < 36)%Z -> (0 <= b < 36)%Z -> StorageManager.digit36 a = StorageManager.digit36 b -> a = b.
Proof.
  intros Ha Hb H. unfold StorageManager.digit36 in H.
  assert (Hnd : List.NoDup (list_ascii_of_string "0123456789abcdefghijklmnopqrstuvwxyz")).
  { apply NoDup_ListNoDup.
    apply (bool_decide_unpack (NoDup (list_ascii_of_string
                                        "0123456789abcdefghijklmnopqrstuvwxyz"))).
    vm_compute. exact I. }
  apply Z2Nat.inj; try lia.
  apply (proj1 (List.NoDup_nth _ "0"%char) Hnd); cbn [length list_ascii_of_string]; try lia.
  exact H.
Qed.

Lemma digits36_inj k a b :
  (36 ^ Z.of_nat k <= a < 36 ^ Z.of_nat (S k))%Z ->
  (36 ^ Z.of_nat k <= b < 36 ^ Z.of_nat (S k))%Z ->
  StorageManager.digits36 (S k) a "" = StorageManager.digits36 (S k) b "" -> a = b.
Proof.
  revert a b. induction k as [|k IH]; intros a b Ha Hb H.
  - cbn in Ha, Hb. rewrite !digits36_S in H. cbn [StorageManager.digits36] in H.
    assert (E : String (StorageManager.digit36 (a mod 36)) "" = String (StorageManager.digit36 (b mod 36)) "").
    { destruct (a <? 36)%Z, (b <? 36)%Z; exact H. }
    injection E as E. apply digit36_inj in E; try (apply Z.mod_pos_bound; lia).
    rewrite !Z.mod_small in E by lia. exact E.
  - destruct (pow36_step k a Ha) as [Ha36 Ha'].
    destruct (pow36_step k b Hb) as [Hb36 Hb'].
    rewrite (digits36_S _ a), (digits36_S _ b) in H.
    destruct (Z.ltb_spec a 36%Z) as [?|_]; [lia|].
    destruct (Z.ltb_spec b 36%Z) as [?|_]; [lia|].
    rewrite (digits36_acc _ (a / 36)), (digits36_acc _ (b / 36)) in H.
    apply append_same_length in H.
    + destruct H as [H1 H2]. injection H2 as H2.
      apply IH in H1; try assumption.
      apply digit36_inj in H2; try (apply Z.mod_pos_bound; lia).
      rewrite (Z.div_mod a 36), (Z.div_mod b 36) by lia. congruence.
    + rewrite !length_digits36; [reflexivity| apply Hb' | apply Ha'].
Qed.

Lemma toString36_digits k n :
  (36 ^ Z.of_nat k <= n < 36 ^ Z.of_nat (S k))%Z ->
  StorageManager.toString36 n = StorageManager.digits36 (S k) n "".
Proof.
  intros [Hlo Hhi].
  assert (Hp : (0 < 36 ^ Z.of_nat k)%Z) by (apply Z.pow_pos_nonneg; lia).
  unfold StorageManager.toString36. destruct (Z.ltb_spec n 0%Z) as [?|_]; [lia|].
  assert (Hk : k <= Z.to_nat (Z.log2 n)).
  { apply Nat2Z.inj_le. rewrite Z2Nat.id by apply Z.log2_nonneg.
    rewrite <- (Z.log2_pow2 (Z.of_nat k)) by lia.
    apply Z.log2_le_mono. apply Z.le_trans with (36 ^ Z.of_nat k)%Z; [|exact Hlo].
    apply Z.pow_le_mono_l. lia. }
  replace (S (Z.to_nat (Z.log2 n))) with (S k + (Z.to_nat (Z.log2 n) - k)) by lia.
  apply digits36_fuel. lia.
Qed.

Lemma toString36_differ a b :
  sameDigits a b -> a <> b -> StorageManager.toString36 a <> StorageManager.toString36 b.
Proof.
  intros (k & Ha & Hb) Hne H.
  rewrite (toString36_digits k a Ha), (toString36_digits k b Hb) in H.
  apply Hne, (digits36_inj k); assumption.
Qed.

Lemma toString36_same_length a b :
  sameDigits a b -> String.length (StorageManager.toString36 a) = String.length (StorageManager.toString36 b).
Proof.
  intros (k & Ha & Hb).
  rewrite (toString36_digits k a Ha), (toString36_digits k b Hb).
  rewrite !length_digits36; [reflexivity | apply Hb | apply Ha].
Qed.

(** A generated id starts with a digit of the time stamp, or with its
    sign: it is never [__proto__]. *)
Lemma digit36_not_underscore d : StorageManager.digit36 d <> "_"%char.
Proof.
  unfold StorageManager.digit36. generalize (Z.to_nat d) as k. intros k.
  do 37 (destruct k as [|k]; [discriminate|]). destruct k; discriminate.
Qed.

Lemma digits36_head fuel n acc :
  exists d rest,
    StorageManager.digits36 (S fuel) n acc = String (StorageManager.digit36 d) rest.
Proof.
  revert n acc. induction fuel as [|fuel IH]; intros n acc; rewrite digits36_S.
  - destruct (n <? 36)%Z; eexists _, _; reflexivity.
  - destruct (n <? 36)%Z; [eexists _, _; reflexivity | apply IH].
Qed.

Lemma nextId_not_proto w : nextId w <> "__proto__".
Proof.
  unfold nextId, StorageManager.toString36.
  destruct (clock (env w) (ticks w) <? 0)%Z.
  - rewrite append_cons. discriminate.
  - destruct (digits36_head (Z.to_nat (Z.log2 (clock (env w) (ticks w))))
                (clock (env w) (ticks w)) "") as (d & rest & ->).
    rewrite append_cons. intros [= H _]. exact (digit36_not_underscore d H).
Qed.

(** The ids of two calls of [generateId] whose time stamps have as many
    digits differ as soon as the time stamps or the random parts do. *)
Lemma nextId_differ w w' :
  sameDigits (clock (env w) (ticks w)) (clock (env w') (ticks w')) ->
  clock (env w) (ticks w) <> clock (env w') (ticks w')
  \/ random36 (env w) (draws w) <> random36 (env w') (draws w') ->
  nextId w <> nextId w'.
Proof.
  intros Hd Hne H. unfold nextId in H.
  apply append_same_length in H; [|apply toString36_same_length, Hd].
  destruct H as [Ht Hr]. destruct Hne as [Hne|Hne]; [|exact (Hne Hr)].
  exact (toString36_differ _ _ Hd Hne Ht).
Qed.

Lemma generateId_run w :
  StorageManager.generateId w = Returns (nextId w) (drew (ticked w)).
Proof. reflexivity. Qed.

(** *** How a save runs when the storage takes the writes *)

Lemma sameStore_available w w' : sameStore w w' -> storageAvailable w -> storageAvailable w'.
Proof. intros (E & _) Hq n. rewrite E. apply Hq. Qed.

Lemma normalizedChat_run c w :
  exists n w1,
    StorageManager.normalizedChat c w = Returns n w1 /\ sameStore w w1
    /\ s_title n = s_title c /\ s_docId n = s_docId c
    /\ s_messages n = s_messages c /\ s_createdAt n = s_createdAt c
    /\ s_id n <> "" /\ (s_id c <> "" -> s_id n = s_id c).
Proof.
  unfold StorageManager.normalizedChat.
  destruct (String.eqb (s_id c) "") eqn:E.
  - rewrite (bind_Returns _ _ _ _ _ (generateId_run w)).
    eexists _, _. split; [reflexivity|].
    repeat split; cbn.
    + apply append_nonempty, toString36_nonempty.
    + intros H. apply String.eqb_neq in H. congruence.
  - eexists _, _. split; [reflexivity|].
    repeat split; cbn.
    + apply String.eqb_neq, E.
Qed.

Lemma whenTruthy_libSaveChat_run proj n w :
  storageAvailable w -> usable proj w ->
  exists w', StorageManager.whenTruthy proj (fun p => StorageManager.libSaveChat p n) w
             = Returns tt w'
    /\ env w' = env w /\ currentDocument w' = currentDocument w
    /\ localStorage w' = StorageManager.setLib (libAfterChat proj n w) (localStorage w).
Proof.
  intros Hq Hu. unfold StorageManager.whenTruthy, libAfterChat.
  destruct proj as [p|]; [destruct (String.eqb p "") eqn:Ep|].
  - exists w. repeat split. destruct (localStorage w); reflexivity.
  - rewrite (libSaveChat_run _ _ _ Hq (Hu p eq_refl (proj1 (String.eqb_neq _ _) Ep))).
    eexists. repeat split.
  - exists w. repeat split. destruct (localStorage w); reflexivity.
Qed.

Lemma saveChatSession_run c projectId w :
  storageAvailable w -> usable (orNull (orElse projectId (s_docId c))) w ->
  exists n w1 w',
    StorageManager.normalizedChat c w = Returns n w1
    /\ StorageManager.saveChatSession c projectId w = Returns true w'
    /\ env w' = env w /\ currentDocument w' = currentDocument w
    /\ localStorage w'
       = StorageManager.setChats (Text (upsertChat (storedChats w) (s_id c) n))
           (StorageManager.setLib
              (libAfterChat (orNull (orElse projectId (s_docId n))) n w)
              (localStorage w)).
Proof.
  intros Hq Hu.
  destruct (normalizedChat_run c w) as (n & w1 & En & Hs & _ & Hnd & _).
  rewrite <- Hnd in Hu.
  destruct (whenTruthy_libSaveChat_run (orNull (orElse projectId (s_docId n))) n w1
              (sameStore_available _ _ Hs Hq)
              (usable_same _ _ _ (proj1 (proj2 Hs)) Hu)) as (w2 & E2 & Ee & Ec & El).
  assert (Hq2 : storageAvailable w2).
  { intros k. rewrite Ee. destruct Hs as (-> & _). apply Hq. }
  exists n, w1, (wrote (StorageManager.setChats
                          (Text (upsertChat (storedChats w) (s_id c) n))) w2).
  split; [exact En|]. split.
  - unfold StorageManager.saveChatSession.
    rewrite (bind_Returns _ _ _ _ _ (getChats_run w)).
    rewrite (bind_Returns _ _ _ _ _ En).
    rewrite (bind_Returns _ _ _ _ _ E2).
    rewrite (saveChats_run _ _ Hq2).
    rewrite <- storedChats_eq. reflexivity.
  - destruct Hs as (He & Hl & Hw & Hc).
    cbn. rewrite Ee, Ec, He, Hc, El, Hl. repeat split.
    unfold libAfterChat, libRoot. rewrite !getLibRoot_run, Hl. reflexivity.
Qed.

(** *** The update-or-append step *)

Lemma upsert_cons {A} (p : A -> bool) merge n x l :
  upsert p merge n (x :: l)
  = if p x then merge x :: l else x :: upsert p merge n l.
Proof.
  unfold upsert. cbn. destruct (p x); [reflexivity|].
  destruct (StorageManager.findIndex p l); reflexivity.
Qed.

Lemma upsertChat_In l id n : In n (upsertChat l id n).
Proof.
  unfold upsertChat. induction l as [|x l IH].
  - left. reflexivity.
  - rewrite upsert_cons. destruct (String.eqb (s_id x) id).
    + left. destruct n; reflexivity.
    + right. exact IH.
Qed.

(** ** Deleting a chat without a project id (continued) *)

(** C10.  [deleteChatSession] called without a project id leaves the lib
    key as it was, whatever the id and the state; so a chat saved without
    a project id, which the save mirrored under its [docId], is still in
    the mirror after the delete has taken it out of the chats collection.
    For the save to mirror the chat, the [docId] must be no name
    inherited from [Object.prototype] (the save throws under such a
    name) and the chat id must not be [__proto__]. *)
Theorem deleteChatSession_keeps_mirror (c : ChatSession) (d : string) (w : World) :
  storageAvailable w -> s_id c <> "" -> s_id c <> "__proto__" ->
  s_docId c = Some d -> d <> "" -> StorageManager.inherited d = false ->
  let w1 := finalState (StorageManager.saveChatSession c None w) in
  let w2 := finalState (StorageManager.deleteChatSession (s_id c) None w1) in
  (forall id w0,
      ai_elearning_lib (localStorage (finalState (StorageManager.deleteChatSession id None w0)))
      = ai_elearning_lib (localStorage w0))
  /\ (exists s, In s (storedChats w1) /\ s_id s = s_id c)
  /\ (exists e, chatMirror d (s_id c) w1 = Some e /\ s_id (cm_chat e) = s_id c)
  /\ (forall s, In s (storedChats w2) -> s_id s <> s_id c)
  /\ chatMirror d (s_id c) w2 = chatMirror d (s_id c) w1.
Proof.
  intros Hq Hid Hproto Hdoc Hd Hplain w1 w2.
  split; [intros id w0; apply (deleteChatSession_frame id w0)|].
  assert (Hu : usable (orNull (orElse None (s_docId c))) w).
  { apply plainKey_usable, plainKey_orNull. rewrite Hdoc.
    change (orElse None (Some d)) with (Some d). unfold plainKey.
    rewrite Hplain. reflexivity. }
  assert (Hd' : notInherited (libRoot w) d) by (apply member_plain, Hplain).
  destruct (saveChatSession_run c None w Hq Hu) as (n & w0 & w' & En & Es & He & Hc & Hl).
  destruct (normalizedChat_run c w) as (n' & w0' & En' & _ & _ & Hnd & _ & _ & _ & Hnid).
  rewrite En in En'. injection En' as <- <-.
  specialize (Hnid Hid).
  assert (E1 : w1 = w') by (unfold w1; rewrite Es; reflexivity).
  assert (Hq' : storageAvailable w') by (intros k; rewrite He; apply Hq).
  assert (E2 : w2 = wrote (StorageManager.setChats
                             (Text (List.filter (fun chat => negb (String.eqb (s_id chat) (s_id c)))
                                      (storedChats w')))) w').
  { unfold w2. rewrite E1, (deleteChatSession_run _ _ Hq'). reflexivity. }
  assert (Hm : chatMirror d (s_id c) w' = Some (chatEntry n)).
  { unfold chatMirror. rewrite libRoot_eq, Hl. cbn.
    rewrite Hnd, Hdoc. unfold orElse, orNull. cbn.
    apply String.eqb_neq in Hd. rewrite Hd. cbn. rewrite Hd.
    unfold readLib.
    destruct (ensureProject_lookup (libRoot w) d Hd') as (proj & E & _).
    rewrite lookup_alter_eq, E. cbn. rewrite Hnid. apply lookup_setMember.
    left. exact Hproto. }
  split; [|split; [|split]].
  - exists n. split; [|exact Hnid].
    rewrite E1, storedChats_eq, Hl. cbn. apply upsertChat_In.
  - exists (chatEntry n). rewrite E1. split; [exact Hm | exact Hnid].
  - intros s Hs. rewrite E2, storedChats_eq in Hs. cbn in Hs.
    apply filter_In in Hs. destruct Hs as [_ Hs].
    apply negb_true_iff, String.eqb_neq in Hs. exact Hs.
  - rewrite E1, E2. unfold chatMirror. rewrite !libRoot_eq. reflexivity.
Qed.

Lemma deleteChatSession_keeps_mirror_witness :
  let w := worldWith [S2] None in
  let w1 := finalState (StorageManager.saveChatSession S1 None w) in
  let w2 := finalState (StorageManager.deleteChatSession "s1" None w1) in
  (exists e, chatMirror "D1" "s1" w1 = Some e /\ s_id (cm_chat e) = "s1")
  /\ (forall s, In s (storedChats w2) -> s_id s <> "s1")
  /\ chatMirror "D1" "s1" w2 = chatMirror "D1" "s1" w1.
Proof.
  destruct (deleteChatSession_keeps_mirror S1 "D1" (worldWith [S2] None))
    as (_ & _ & H1 & H2 & H3).
  - intros n. reflexivity.
  - discriminate.
  - discriminate.
  - reflexivity.
  - discriminate.
  - reflexivity.
  - exact (conj H1 (conj H2 H3)).
Defined.

(** ** Saving documents *)

Lemma normalized_run document w :
  exists n w1 k,
    StorageManager.normalized document w = Returns n w1 /\ sameStore w w1
    /\ d_title n = d_title document /\ d_rest n = d_rest document
    /\ truthy (d_id n) = true
    /\ (truthy (d_id document) = true -> d_id n = d_id document)
    /\ (truthy (d_id document) = false -> d_id n = Some (nextId w))
    /\ (forall c, d_createdAt document = Some c -> d_createdAt n = Some c)
    /\ ticks w <= k /\ ticks w1 = S k
    /\ d_updatedAt n = Some (clock (env w) k)
    /\ exists c k', d_createdAt n = Some c
                    /\ (d_createdAt document = None -> c = clock (env w) k' /\ k' < k).
Proof.
  unfold StorageManager.normalized.
  assert (Hg : truthy (Some (nextId w)) = true).
  { cbn. apply negb_true_iff, String.eqb_neq, append_nonempty, toString36_nonempty. }
  unfold bind, ret, StorageManager.generateId, now, mathRandom36.
  fold (nextId w).
  destruct (truthy (d_id document)) eqn:Et;
    destruct (d_createdAt document) as [c|] eqn:Ec.
  - eexists _, _, (ticks w). split; [reflexivity|]. unfold sameStore. cbn.
    conjs; try reflexivity; try congruence; try lia; try exact Hg. exists c, 0. split; congruence.
  - eexists _, _, (S (ticks w)). split; [reflexivity|]. unfold sameStore. cbn.
    conjs; try reflexivity; try congruence; try lia; try exact Hg.
    eexists _, (ticks w). split; [reflexivity|]. intros _. split; [reflexivity | lia].
  - eexists _, _, (S (ticks w)). split; [reflexivity|]. unfold sameStore. cbn.
    conjs; try reflexivity; try congruence; try lia; try exact Hg.
    exists c, 0. split; congruence.
  - eexists _, _, (S (S (ticks w))). split; [reflexivity|]. unfold sameStore. cbn.
    conjs; try reflexivity; try congruence; try lia; try exact Hg.
    eexists _, (S (ticks w)). split; [reflexivity|]. intros _. split; [reflexivity | lia].
Qed.

Lemma normalized_undefined document w n w1 :
  StorageManager.normalized document w = Returns n w1 ->
  d_undefined n = d_undefined document.
Proof.
  unfold StorageManager.normalized, bind, ret, StorageManager.generateId, now, mathRandom36.
  destruct (truthy (d_id document)), (d_createdAt document);
    intros [= <- _]; reflexivity.
Qed.

Lemma libSaveDoc_run p doc w :
  storageAvailable w -> notInherited (libRoot w) p ->
  StorageManager.libSaveDoc p doc w
  = Returns tt
      (wrote (StorageManager.setLib
                (Text (alter (StorageManager.putDoc (StorageManager.keyOf (d_id doc))
                                (docEntry doc))
                             p (StorageManager.ensureProject (libRoot w) p)))) w).
Proof.
  intros Hq Hp. unfold StorageManager.libSaveDoc.
  rewrite (bind_Returns _ _ _ _ _ (getLibRoot_run w)). rewrite <- libRoot_eq.
  destruct (ensureProject_lookup (libRoot w) p Hp) as (proj & E & _).
  rewrite (member_lookup _ _ _ E).
  unfold StorageManager.setLibRoot. rewrite (setItem_run _ _ Hq). reflexivity.
Qed.

(** Under a member inherited from [Object.prototype] the mirror of a
    document throws before anything is written. *)
Lemma libSaveDoc_throws p doc w :
  StorageManager.member (libRoot w) p = StorageManager.Inherited ->
  StorageManager.libSaveDoc p doc w = Throws TypeError w.
Proof.
  intros Hp. unfold StorageManager.libSaveDoc.
  rewrite (bind_Returns _ _ _ _ _ (getLibRoot_run w)). rewrite <- libRoot_eq.
  rewrite (ensureProject_Inherited _ _ Hp), Hp. reflexivity.
Qed.

Lemma whenTruthy_libSaveDoc_run proj n w :
  storageAvailable w -> usable proj w ->
  exists w', StorageManager.whenTruthy proj (fun p => StorageManager.libSaveDoc p n) w
             = Returns tt w'
    /\ env w' = env w /\ currentDocument w' = currentDocument w
    /\ ticks w' = ticks w /\ draws w' = draws w
    /\ localStorage w' = StorageManager.setLib (libAfterDoc proj n w) (localStorage w).
Proof.
  intros Hq Hu. unfold StorageManager.whenTruthy, libAfterDoc.
  destruct proj as [p|]; [destruct (String.eqb p "") eqn:Ep|].
  - exists w. conjs; try reflexivity. destruct (localStorage w); reflexivity.
  - rewrite (libSaveDoc_run _ _ _ Hq (Hu p eq_refl (proj1 (String.eqb_neq _ _) Ep))).
    eexists. conjs; reflexivity.
  - exists w. conjs; try reflexivity. destruct (localStorage w); reflexivity.
Qed.

Lemma unusable_same proj w w' :
  localStorage w' = localStorage w -> unusable proj w -> unusable proj w'.
Proof.
  intros Hl (p & Hp & Hne & Hm). exists p. conjs; try assumption.
  rewrite libRoot_eq, Hl, <- libRoot_eq. exact Hm.
Qed.

(** With a project id that lands on an inherited member, a save of a
    document throws a TypeError out of [libSaveDoc], and the storage is
    as it was: the document is not stored. *)
Lemma saveDocument_throws document projectId w :
  unusable projectId w ->
  exists w', StorageManager.saveDocument document projectId w = Throws TypeError w'
             /\ env w' = env w /\ localStorage w' = localStorage w.
Proof.
  intros Hu.
  destruct (normalized_run document w) as (n & w1 & k & En & (He & Hl & _) & _).
  destruct (unusable_same _ _ _ Hl Hu) as (p & -> & Hne & Hm).
  exists w1. conjs; try assumption.
  unfold StorageManager.saveDocument.
  rewrite (bind_Returns _ _ _ _ _ (getDocuments_run w)).
  rewrite (bind_Returns _ _ _ _ _ En).
  unfold StorageManager.whenTruthy. apply String.eqb_neq in Hne. rewrite Hne.
  unfold bind at 1. rewrite (libSaveDoc_throws _ _ _ Hm). reflexivity.
Qed.

(** A save of a document returns true when the storage takes the writes;
    the documents key then holds the collection with the normalized
    record merged in or appended, and the lib key the mirror entry if a
    project id was given. *)
Lemma saveDocument_run document projectId w :
  storageAvailable w -> usable projectId w ->
  exists n w1 w',
    StorageManager.normalized document w = Returns n w1
    /\ StorageManager.saveDocument document projectId w = Returns true w'
    /\ env w' = env w /\ currentDocument w' = currentDocument w
    /\ ticks w' = ticks w1 /\ draws w' = draws w1
    /\ localStorage w'
       = StorageManager.setDocuments
           (Text (upsertDocument (storedDocuments w) (d_id document) n))
           (StorageManager.setLib (libAfterDoc projectId n w) (localStorage w)).
Proof.
  intros Hq Hu.
  destruct (normalized_run document w) as (n & w1 & k & En & Hs & _).
  destruct (whenTruthy_libSaveDoc_run projectId n w1
              (sameStore_available _ _ Hs Hq)
              (usable_same _ _ _ (proj1 (proj2 Hs)) Hu))
    as (w2 & E2 & Ee & Ec & Et & Ed & El).
  assert (Hq2 : storageAvailable w2).
  { intros j. rewrite Ee. destruct Hs as (-> & _). apply Hq. }
  exists n, w1, (wrote (StorageManager.setDocuments
                          (Text (upsertDocument (storedDocuments w) (d_id document) n))) w2).
  split; [exact En|]. split.
  - unfold StorageManager.saveDocument.
    rewrite (bind_Returns _ _ _ _ _ (getDocuments_run w)).
    rewrite (bind_Returns _ _ _ _ _ En).
    rewrite (bind_Returns _ _ _ _ _ E2).
    rewrite (saveDocuments_run _ _ Hq2).
    rewrite <- storedDocuments_eq. reflexivity.
  - destruct Hs as (He & Hl & Hw & Hc).
    cbn. rewrite Ee, Ec, He, Hc, El, Hl, Et, Ed. conjs; try reflexivity.
    unfold libAfterDoc, libRoot. rewrite !getLibRoot_run, Hl. reflexivity.
Qed.

Lemma storedDocuments_after document projectId w n w1 :
  storageAvailable w -> usable projectId w ->
  StorageManager.normalized document w = Returns n w1 ->
  storedDocuments (finalState (StorageManager.saveDocument document projectId w))
  = upsertDocument (storedDocuments w) (d_id document) n.
Proof.
  intros Hq Hu En.
  destruct (saveDocument_run document projectId w Hq Hu)
    as (n' & w1' & w' & En' & Es & _ & _ & _ & _ & Hl).
  rewrite En in En'. injection En' as <- <-.
  rewrite Es. cbn [finalState]. rewrite storedDocuments_eq, Hl. reflexivity.
Qed.

(** *** Facts on the update-or-append step *)

Lemma upsert_In {A} (p : A -> bool) merge n l :
  exists r, In r (upsert p merge n l)
            /\ (r = n \/ exists old, In old l /\ p old = true /\ r = merge old).
Proof.
  induction l as [|x l (r & Hr & Hc)].
  - exists n. split; [left; reflexivity | left; reflexivity].
  - rewrite upsert_cons. destruct (p x) eqn:Ep.
    + exists (merge x). split; [left; reflexivity|]. right. exists x.
      split; [left; reflexivity | split; [exact Ep | reflexivity]].
    + exists r. split; [right; exact Hr|].
      destruct Hc as [-> | (old & Ho & Hp & ->)]; [left; reflexivity|].
      right. exists old. split; [right; exact Ho | split; [exact Hp | reflexivity]].
Qed.

Lemma upsert_no_match {A} (p : A -> bool) merge n l :
  (forall x, In x l -> p x = false) -> upsert p merge n l = l ++ [n].
Proof.
  induction l as [|x l IH]; intros H; [reflexivity|].
  rewrite upsert_cons, (H x (or_introl eq_refl)), IH; [reflexivity|].
  intros y Hy. apply H. right. exact Hy.
Qed.

(** The records that match, after the step: the first of them merged, or
    the new one alone. *)
Lemma filter_upsert {A} (p : A -> bool) merge n l :
  p n = true -> (forall x, p x = true -> p (merge x) = true) ->
  List.filter p (upsert p merge n l)
  = match List.filter p l with
    | [] => [n]
    | x :: rest => merge x :: rest
    end.
Proof.
  intros Hn Hm. induction l as [|x l IH].
  - cbn. rewrite Hn. reflexivity.
  - rewrite upsert_cons. cbn [List.filter]. destruct (p x) eqn:Ep.
    + cbn [List.filter]. rewrite (Hm x Ep). reflexivity.
    + cbn [List.filter]. rewrite Ep. exact IH.
Qed.

Lemma length_upsert_match {A} (p : A -> bool) merge n l :
  List.filter p l <> [] -> length (upsert p merge n l) = length l.
Proof.
  induction l as [|x l IH]; intros H; [contradiction H; reflexivity|].
  rewrite upsert_cons. cbn in H. destruct (p x); [reflexivity|].
  cbn. f_equal. apply IH, H.
Qed.

Lemma hasId_spread i old n :
  d_id n = Some i ->
  hasId i (StorageManager.stringify (StorageManager.spread old n)) = true.
Proof.
  intros H. unfold hasId, StorageManager.stringify, StorageManager.spread,
    StorageManager.pick. cbn [d_id].
  rewrite H. cbn. apply String.eqb_refl.
Qed.

Lemma hasId_stringify i n : hasId i (StorageManager.stringify n) = hasId i n.
Proof. reflexivity. Qed.

Lemma hasId_self i n : d_id n = Some i -> hasId i n = true.
Proof. intros H. unfold hasId. rewrite H. cbn. apply String.eqb_refl. Qed.

Lemma truthy_Some i : i <> "" -> truthy (Some i) = true.
Proof. intros H. cbn. apply negb_true_iff, String.eqb_neq, H. Qed.

(** The matching records after the save of a document that carries the
    id [i]: one record, stamped as the normalized one, when there was at
    most one before. *)
Lemma filter_after_save i l n :
  d_id n = Some i -> length (List.filter (hasId i) l) <= 1 ->
  exists r, List.filter (hasId i) (upsertDocument l (Some i) n) = [r]
            /\ (d_createdAt n <> None -> d_createdAt r = d_createdAt n)
            /\ (d_updatedAt n <> None -> d_updatedAt r = d_updatedAt n).
Proof.
  intros Hn Hl. unfold upsertDocument. fold (hasId i).
  rewrite filter_upsert;
    [| rewrite hasId_stringify; apply hasId_self, Hn | intros x _; apply hasId_spread, Hn].
  destruct (List.filter (hasId i) l) as [|x [|y rest]]; cbn in Hl; [| |lia].
  - exists (StorageManager.stringify n). conjs; try reflexivity.
  - exists (StorageManager.stringify (StorageManager.spread x n)).
    conjs; try reflexivity; cbn; unfold StorageManager.pick.
    + destruct (d_createdAt n); [reflexivity | congruence].
    + destruct (d_updatedAt n); [reflexivity | congruence].
Qed.

(** ** Saving the same document object twice *)

(** C3, amended.  A document object that carries an id and a createdAt,
    saved twice in a row into a collection with at most one record of
    that id (the storage taking the writes, the clock not running
    backwards, the project id, if one is given, being no name inherited
    from [Object.prototype]): both saves succeed, the collection has one
    record of that id after each and the same length, the record's
    createdAt is the object's both times, and its updatedAt does not
    decrease. *)
Theorem saveDocument_twice (document : Document) (i : string) (c : Z)
    (projectId : option string) (w : World) :
  storageAvailable w -> clockMonotone (env w) -> plainKey projectId = true ->
  d_id document = Some i -> i <> "" -> d_createdAt document = Some c ->
  length (List.filter (hasId i) (storedDocuments w)) <= 1 ->
  let o1 := StorageManager.saveDocument document projectId w in
  let o2 := StorageManager.saveDocument document projectId (finalState o1) in
  returned o1 = Some true /\ returned o2 = Some true /\
  length (storedDocuments (finalState o2)) = length (storedDocuments (finalState o1)) /\
  exists r1 r2 u1 u2,
    List.filter (hasId i) (storedDocuments (finalState o1)) = [r1] /\
    List.filter (hasId i) (storedDocuments (finalState o2)) = [r2] /\
    d_createdAt r1 = Some c /\ d_createdAt r2 = Some c /\
    d_updatedAt r1 = Some u1 /\ d_updatedAt r2 = Some u2 /\ (u1 <= u2)%Z.
Proof.
  intros Hq Hmono Hplain Hid Hi Hc Hone o1 o2.
  pose proof (truthy_Some i Hi) as Ht. rewrite <- Hid in Ht.
  (* first save *)
  destruct (saveDocument_run document projectId w Hq (plainKey_usable _ _ Hplain))
    as (n1 & w1 & w' & En1 & Es1 & He1 & _ & Ht1 & _ & Hl1).
  destruct (normalized_run document w)
    as (n1' & w1' & k1 & En1' & _ & _ & _ & _ & Hn1 & _ & Hc1 & Hk1 & Hk1' & Hu1 & _).
  rewrite En1 in En1'. injection En1' as <- <-.
  assert (Hn1i : d_id n1 = Some i) by (rewrite (Hn1 Ht); exact Hid).
  assert (Ef1 : finalState o1 = w') by (unfold o1; rewrite Es1; reflexivity).
  assert (S1 : storedDocuments w' = upsertDocument (storedDocuments w) (Some i) n1).
  { rewrite storedDocuments_eq, Hl1, Hid. reflexivity. }
  destruct (filter_after_save i (storedDocuments w) n1 Hn1i Hone) as (r1 & F1 & Rc1 & Ru1).
  (* second save *)
  assert (Hq' : storageAvailable w') by (intros j; rewrite He1; apply Hq).
  destruct (saveDocument_run document projectId w' Hq' (plainKey_usable _ _ Hplain))
    as (n2 & w2 & w'' & En2 & Es2 & He2 & _ & _ & _ & Hl2).
  destruct (normalized_run document w')
    as (n2' & w2' & k2 & En2' & _ & _ & _ & _ & Hn2 & _ & Hc2 & Hk2 & _ & Hu2 & _).
  rewrite En2 in En2'. injection En2' as <- <-.
  assert (Hn2i : d_id n2 = Some i) by (rewrite (Hn2 Ht); exact Hid).
  assert (Ef2 : finalState o2 = w'') by (unfold o2; rewrite Ef1, Es2; reflexivity).
  assert (S2' : storedDocuments w'' = upsertDocument (storedDocuments w') (Some i) n2).
  { rewrite storedDocuments_eq, Hl2, Hid. reflexivity. }
  assert (Hone' : length (List.filter (hasId i) (storedDocuments w')) <= 1).
  { rewrite S1, F1. cbn. lia. }
  destruct (filter_after_save i (storedDocuments w') n2 Hn2i Hone') as (r2 & F2 & Rc2 & Ru2).
  split; [unfold o1; rewrite Es1; reflexivity|].
  split; [unfold o2; rewrite Ef1, Es2; reflexivity|].
  rewrite Ef1, Ef2. split.
  - rewrite S2'. unfold upsertDocument. apply length_upsert_match.
    fold (hasId i). rewrite S1, F1. discriminate.
  - exists r1, r2, (clock (env w) k1), (clock (env w) k2).
    rewrite S2', F2, S1, F1. conjs; try reflexivity.
    + rewrite Rc1; [apply Hc1, Hc | rewrite (Hc1 c Hc); discriminate].
    + rewrite Rc2; [apply Hc2, Hc | rewrite (Hc2 c Hc); discriminate].
    + rewrite Ru1; [exact Hu1 | rewrite Hu1; discriminate].
    + rewrite Ru2; [rewrite Hu2, He1; reflexivity | rewrite Hu2; discriminate].
    + apply Hmono. lia.
Qed.

Lemma saveDocument_twice_witness :
  let o1 := StorageManager.saveDocument introDoc None freshWorld in
  let o2 := StorageManager.saveDocument introDoc None (finalState o1) in
  returned o1 = Some true /\ returned o2 = Some true /\
  length (storedDocuments (finalState o2)) = length (storedDocuments (finalState o1)) /\
  exists r1 r2 u1 u2,
    List.filter (hasId "D7") (storedDocuments (finalState o1)) = [r1] /\
    List.filter (hasId "D7") (storedDocuments (finalState o2)) = [r2] /\
    d_createdAt r1 = Some 1699999999000%Z /\ d_createdAt r2 = Some 1699999999000%Z /\
    d_updatedAt r1 = Some u1 /\ d_updatedAt r2 = Some u2 /\ (u1 <= u2)%Z.
Proof.
  apply (saveDocument_twice introDoc "D7" 1699999999000%Z None freshWorld).
  - intros n. reflexivity.
  - intros i j H. cbn. lia.
  - reflexivity.
  - reflexivity.
  - discriminate.
  - reflexivity.
  - cbn. lia.
Defined.

(** C3 as stated fails on two kinds of document object.  One without an
    id, saved twice into the empty collection, leaves two records; one
    with an id and no createdAt has the createdAt of its record stamped
    anew by the second save. *)
Lemma save_twice_without_id_or_date :
  let w := afterBootstrap freshWorld in
  let w2 := finalState (StorageManager.saveDocument draft None
                          (finalState (StorageManager.saveDocument draft None w))) in
  let v1 := finalState (StorageManager.saveDocument undated None w) in
  let v2 := finalState (StorageManager.saveDocument undated None v1) in
  length (storedDocuments w2) = 2
  /\ d_createdAt <$> List.find (hasId "D8") (storedDocuments v1) = Some (Some 1700000000000%Z)
  /\ d_createdAt <$> List.find (hasId "D8") (storedDocuments v2) = Some (Some 1700000000002%Z).
Proof. vm_compute. repeat split. Qed.

(** ** Saving a document object that has no id *)

Lemma strictEq_truthy a b :
  StorageManager.strictEq a b = true -> truthy a = truthy b.
Proof.
  destruct a as [x|], b as [y|]; cbn; try discriminate; [|reflexivity].
  intros H. apply String.eqb_eq in H. subst. reflexivity.
Qed.

Lemma no_match_for_falsy_id id l :
  truthy id = false ->
  Forall (fun r => truthy (d_id r) = true) l ->
  forall x, In x l -> StorageManager.strictEq (d_id x) id = false.
Proof.
  intros Hf Hall x Hx.
  rewrite Forall_forall in Hall. apply list_elem_of_In in Hx. specialize (Hall x Hx).
  destruct (StorageManager.strictEq (d_id x) id) eqn:E; [|reflexivity].
  apply strictEq_truthy in E. congruence.
Qed.

Lemma Forall_upsert {A} (P : A -> Prop) (p : A -> bool) merge n l :
  Forall P l -> P n -> (forall x, P x -> P (merge x)) ->
  Forall P (upsert p merge n l).
Proof.
  intros Hl Hn Hm. induction Hl as [|x l Hx Hl IH].
  - constructor; [exact Hn | constructor].
  - rewrite upsert_cons. destruct (p x).
    + constructor; [apply Hm, Hx | exact Hl].
    + constructor; [exact Hx | exact IH].
Qed.

(** Every record [saveDocument] writes has an id, so a collection that
    is only ever written through it keeps the invariant the next theorem
    asks for. *)
Lemma saveDocument_keeps_ids document projectId w :
  storageAvailable w ->
  Forall (fun r => truthy (d_id r) = true) (storedDocuments w) ->
  Forall (fun r => truthy (d_id r) = true)
         (storedDocuments (finalState (StorageManager.saveDocument document projectId w))).
Proof.
  intros Hq Hall.
  destruct (usable_or_not projectId w) as [Hu|Hu].
  - destruct (normalized_run document w) as (n & w1 & k & En & _ & _ & _ & Ht & _).
    rewrite (storedDocuments_after document projectId w n w1 Hq Hu En).
    unfold upsertDocument. apply Forall_upsert; [exact Hall | exact Ht |].
    intros x _. cbn. unfold StorageManager.pick.
    destruct (d_id n); [exact Ht | discriminate Ht].
  - destruct (saveDocument_throws document projectId w Hu) as (w' & E & _ & Hl).
    rewrite E. cbn [finalState]. rewrite storedDocuments_eq, Hl, <- storedDocuments_eq.
    exact Hall.
Qed.

(** C9.  [saveDocument] leaves the caller's object alone: the second
    call is made on the same [document].  When that object has no id
    (none, or the empty string) and every stored record has one, each of
    two consecutive saves appends a record of its own under the id
    generated for it.  The two ids differ: the two calls of [generateId]
    read the clock at time stamps of as many digits, and they do not
    both fall into the same millisecond and draw the same random number.
    (The storage takes the writes, and the project id, if one is given,
    is no name inherited from [Object.prototype].) *)
Theorem saveDocument_without_id_appends (document : Document)
    (projectId : option string) (w : World) :
  storageAvailable w -> plainKey projectId = true ->
  truthy (d_id document) = false ->
  Forall (fun r => truthy (d_id r) = true) (storedDocuments w) ->
  let w1 := finalState (StorageManager.saveDocument document projectId w) in
  let w2 := finalState (StorageManager.saveDocument document projectId w1) in
  sameDigits (clock (env w) (ticks w)) (clock (env w1) (ticks w1)) ->
  clock (env w) (ticks w) <> clock (env w1) (ticks w1)
  \/ random36 (env w) (draws w) <> random36 (env w1) (draws w1) ->
  exists n1 n2,
    storedDocuments w1 = storedDocuments w ++ [n1]
    /\ storedDocuments w2 = storedDocuments w ++ [n1; n2]
    /\ d_id n1 = Some (nextId w) /\ d_id n2 = Some (nextId w1)
    /\ d_id n1 <> d_id n2 /\ n1 <> n2.
Proof.
  intros Hq Hplain Hf Hall w1 w2 Hdigits Hdraws.
  pose proof (nextId_differ w w1 Hdigits Hdraws) as Hfresh.
  destruct (saveDocument_run document projectId w Hq (plainKey_usable _ _ Hplain))
    as (n1 & v1 & w' & En1 & Es1 & He1 & _ & _ & _ & Hl1).
  destruct (normalized_run document w)
    as (n1' & v1' & k1 & En1' & _ & _ & _ & Ht1 & _ & Hg1 & _).
  rewrite En1 in En1'. injection En1' as <- <-.
  assert (E1 : w1 = w') by (unfold w1; rewrite Es1; reflexivity).
  assert (S1 : storedDocuments w1 = storedDocuments w ++ [StorageManager.stringify n1]).
  { rewrite E1, storedDocuments_eq, Hl1. cbn. unfold upsertDocument.
    apply upsert_no_match, no_match_for_falsy_id; assumption. }
  assert (Hq' : storageAvailable w1) by (rewrite E1; intros j; rewrite He1; apply Hq).
  destruct (saveDocument_run document projectId w1 Hq' (plainKey_usable _ _ Hplain))
    as (n2 & v2 & w'' & En2 & Es2 & _ & _ & _ & _ & Hl2).
  destruct (normalized_run document w1)
    as (n2' & v2' & k2 & En2' & _ & _ & _ & _ & _ & Hg2 & _).
  rewrite En2 in En2'. injection En2' as <- <-.
  assert (S2' : storedDocuments w2 = storedDocuments w1 ++ [StorageManager.stringify n2]).
  { unfold w2. rewrite Es2. cbn [finalState]. rewrite storedDocuments_eq, Hl2. cbn.
    unfold upsertDocument. apply upsert_no_match, no_match_for_falsy_id; [assumption|].
    rewrite S1. apply Forall_app. split; [assumption|].
    constructor; [exact Ht1 | constructor]. }
  exists (StorageManager.stringify n1), (StorageManager.stringify n2).
  rewrite S2', S1, <- app_assoc. cbn [app StorageManager.stringify d_id].
  rewrite (Hg1 Hf), (Hg2 Hf). conjs; try reflexivity.
  - congruence.
  - intros H. apply (f_equal d_id) in H. cbn in H.
    rewrite (Hg1 Hf), (Hg2 Hf) in H. congruence.
Qed.

Lemma saveDocument_without_id_appends_witness :
  let w1 := finalState (StorageManager.saveDocument draft None freshWorld) in
  let w2 := finalState (StorageManager.saveDocument draft None w1) in
  exists n1 n2,
    storedDocuments w1 = storedDocuments freshWorld ++ [n1]
    /\ storedDocuments w2 = storedDocuments freshWorld ++ [n1; n2]
    /\ d_id n1 = Some (nextId freshWorld) /\ d_id n2 = Some (nextId w1)
    /\ d_id n1 <> d_id n2 /\ n1 <> n2.
Proof.
  apply (saveDocument_without_id_appends draft None freshWorld).
  - intros n. reflexivity.
  - reflexivity.
  - reflexivity.
  - constructor.
  - exists 7. vm_compute. repeat split; discriminate.
  - left. vm_compute. discriminate.
Defined.

(** ** The file name in the lib mirror *)

(** A stretch of characters of the class is kept as it is, letter case
    included. *)
Lemma replaceRuns_kept (a b : string) (inRun : bool) :
  allChars StorageManager.inClass a = true ->
  a <> EmptyString \/ inRun = false ->
  StorageManager.replaceRuns inRun (a +:+ b) = a +:+ StorageManager.replaceRuns false b.
Proof.
  revert inRun. induction a as [|c a IH]; intros inRun Ha Hne.
  - destruct Hne as [Hne | ->]; [congruence | reflexivity].
  - rewrite !append_cons. cbn [allChars StorageManager.replaceRuns] in Ha |- *.
    apply andb_true_iff in Ha. destruct Ha as [Hc Ha].
    rewrite Hc. f_equal. apply IH; [exact Ha | right; reflexivity].
Qed.

(** A maximal run of characters outside the class becomes one
    underscore. *)
Lemma replaceRuns_run (r b : string) :
  allChars (fun c => negb (StorageManager.inClass c)) r = true ->
  r <> EmptyString -> startsKept b = true ->
  StorageManager.replaceRuns false (r +:+ b)
  = String "_"%char (StorageManager.replaceRuns false b).
Proof.
  intros Hr Hne Hb.
  assert (H : forall r', allChars (fun c => negb (StorageManager.inClass c)) r' = true ->
                         StorageManager.replaceRuns true (r' +:+ b)
                         = StorageManager.replaceRuns false b).
  { induction r' as [|c r' IH]; intros Hr'.
    - rewrite append_empty. destruct b as [|c b]; [reflexivity|].
      cbn [startsKept StorageManager.replaceRuns] in Hb |- *. rewrite Hb. reflexivity.
    - rewrite append_cons. cbn [allChars StorageManager.replaceRuns] in Hr' |- *.
      apply andb_true_iff in Hr'. destruct Hr' as [Hc Hr'].
      apply negb_true_iff in Hc. rewrite Hc. apply IH, Hr'. }
  destruct r as [|c r]; [congruence|].
  rewrite append_cons. cbn [allChars StorageManager.replaceRuns] in Hr |- *.
  apply andb_true_iff in Hr. destruct Hr as [Hc Hr].
  apply negb_true_iff in Hc. rewrite Hc. f_equal. apply H, Hr.
Qed.

(** C4, amended.  A document saved with a (non-empty) project id, the
    storage taking the writes, the project id being no name inherited
    from [Object.prototype] and the document's id not [__proto__]: the
    lib mirror then holds, under that project and the id of the stored
    record, an entry whose file name is the title with every maximal run
    of characters outside [A-Za-z0-9-_] replaced by one underscore, the
    letter case kept, and ".md" appended ("document.md" for a missing or
    empty title).  The title "Intro: Chapter 1!" gives
    "Intro_Chapter_1_.md". *)
Theorem saveDocument_mirrors_fileName (document : Document) (projectId : string)
    (w : World) :
  storageAvailable w -> projectId <> "" ->
  StorageManager.inherited projectId = false ->
  d_id document <> Some "__proto__" ->
  exists (id : string) (entry : DocMirror) (w' : World),
    StorageManager.saveDocument document (Some projectId) w = Returns true w'
    /\ (truthy (d_id document) = true -> d_id document = Some id)
    /\ (exists r, In r (storedDocuments w') /\ d_id r = Some id)
    /\ docMirror projectId id w' = Some entry
    /\ d_id (dm_doc entry) = Some id
    /\ dm_contentType entry = "markdown"
    /\ dm_fileName entry
       = StorageManager.replaceRuns false
           (StorageManager.titleOr "document" (d_title document)) +:+ ".md"
    /\ (d_title document = Some "Intro: Chapter 1!" ->
        dm_fileName entry = "Intro_Chapter_1_.md").
Proof.
  intros Hq Hp Hplain Hproto.
  assert (Hu : usable (Some projectId) w)
    by (apply plainKey_usable, plainKey_Some, Hplain).
  assert (Hp' : notInherited (libRoot w) projectId) by (apply member_plain, Hplain).
  destruct (saveDocument_run document (Some projectId) w Hq Hu)
    as (n & w1 & w' & En & Es & He & _ & _ & _ & Hl).
  destruct (normalized_run document w)
    as (n' & w1' & k & En' & _ & Hti & _ & Htr & Hsame & Hgen & _).
  rewrite En in En'. injection En' as <- <-.
  destruct (d_id n) as [id|] eqn:Eid; [|discriminate Htr].
  assert (Hkey : id <> "__proto__").
  { destruct (truthy (d_id document)) eqn:Et.
    - rewrite <- (Hsame eq_refl) in Hproto. congruence.
    - specialize (Hgen eq_refl). injection Hgen as ->. apply nextId_not_proto. }
  assert (Hname : dm_fileName (docEntry n)
                  = StorageManager.replaceRuns false
                      (StorageManager.titleOr "document" (d_title document)) +:+ ".md").
  { cbn. unfold StorageManager.docFileName. rewrite Hti. reflexivity. }
  exists id, (docEntry n), w'.
  conjs; try reflexivity; try assumption.
  - intros Ht. rewrite <- (Hsame Ht). reflexivity.
  - rewrite storedDocuments_eq, Hl. cbn. unfold upsertDocument.
    destruct (upsert_In (fun doc => StorageManager.strictEq (d_id doc) (d_id document))
                (fun old => StorageManager.stringify (StorageManager.spread old n))
                (StorageManager.stringify n) (storedDocuments w))
      as (r & Hr & Hc).
    exists r. split; [exact Hr|].
    destruct Hc as [-> | (old & _ & _ & ->)]; [exact Eid|].
    cbn. rewrite Eid. reflexivity.
  - unfold docMirror. rewrite libRoot_eq, Hl.
    cbn [ai_elearning_lib StorageManager.setDocuments StorageManager.setLib].
    unfold libAfterDoc.
    apply String.eqb_neq in Hp. rewrite Hp. unfold readLib.
    destruct (ensureProject_lookup (libRoot w) projectId Hp') as (proj & E & _).
    rewrite lookup_alter_eq, E. cbn [fmap option_fmap option_map StorageManager.putDoc p_docs].
    rewrite Eid. cbn [StorageManager.keyOf default]. apply lookup_setMember. left. exact Hkey.
  - intros Htitle. rewrite Hname, Htitle. reflexivity.
Qed.

Lemma saveDocument_mirrors_fileName_witness :
  exists (id : string) (entry : DocMirror) (w' : World),
    StorageManager.saveDocument introDoc (Some "biology") freshWorld = Returns true w'
    /\ (truthy (d_id introDoc) = true -> d_id introDoc = Some id)
    /\ (exists r, In r (storedDocuments w') /\ d_id r = Some id)
    /\ docMirror "biology" id w' = Some entry
    /\ d_id (dm_doc entry) = Some id
    /\ dm_contentType entry = "markdown"
    /\ dm_fileName entry
       = StorageManager.replaceRuns false
           (StorageManager.titleOr "document" (d_title introDoc)) +:+ ".md"
    /\ (d_title introDoc = Some "Intro: Chapter 1!" ->
        dm_fileName entry = "Intro_Chapter_1_.md").
Proof.
  apply (saveDocument_mirrors_fileName introDoc "biology" freshWorld).
  - intros n. reflexivity.
  - discriminate.
  - reflexivity.
  - discriminate.
Defined.

(** C4 as stated fails on its own example: the mirror entry of a document
    titled "Intro: Chapter 1!" is named "Intro_Chapter_1_.md".  That is
    neither the lower-case name the claim gives, nor the name that
    replacing every outside character one by one would give; nor is it
    what [FileSystemManager.sanitizeFileName] makes of the title. *)
Lemma intro_chapter_fileName :
  let w' := finalState (StorageManager.saveDocument introDoc (Some "biology") freshWorld) in
  dm_fileName <$> docMirror "biology" "D7" w' = Some "Intro_Chapter_1_.md"
  /\ dm_fileName <$> docMirror "biology" "D7" w' <> Some "intro_chapter_1_.md"
  /\ dm_fileName <$> docMirror "biology" "D7" w'
     <> Some (replaceEachCharacter "Intro: Chapter 1!" +:+ ".md")
  /\ replaceEachCharacter "Intro: Chapter 1!" +:+ ".md" = "Intro__Chapter_1_.md"
  /\ FileSystemManager.sanitizeFileName "Intro: Chapter 1!" +:+ ".md" = "intro__chapter_1_.md".
Proof. vm_compute. repeat split; discriminate. Qed.

(** ** Which session a reload lands in *)

Lemma insertSorted_In {A} (cmp : A -> A -> Z) x y l :
  In y (ChatInterface.insertSorted cmp x l) <-> y = x \/ In y l.
Proof.
  induction l as [|z l IH]; cbn.
  - intuition congruence.
  - destruct (0 <? cmp x z)%Z; cbn; [rewrite IH|]; intuition congruence.
Qed.

Lemma sort_In {A} (cmp : A -> A -> Z) y l :
  In y (ChatInterface.sort cmp l) <-> In y l.
Proof.
  induction l as [|x l IH]; [reflexivity|].
  cbn. rewrite insertSorted_In, IH. intuition congruence.
Qed.

(** The first element after sorting by recency is a stored session that
    no other one beats. *)
Lemma head_sort_byRecency l :
  match head (ChatInterface.sort ChatInterface.byRecency l) with
  | Some h => In h l /\ forall y, In y l -> (s_updatedAt y <= s_updatedAt h)%Z
  | None => l = []
  end.
Proof.
  induction l as [|x l IH]; [reflexivity|].
  cbn [ChatInterface.sort foldr]. fold (ChatInterface.sort ChatInterface.byRecency l).
  destruct (ChatInterface.sort ChatInterface.byRecency l) as [|h t]; cbn in IH |- *.
  - subst l. split; [left; reflexivity|]. intros y [<- | []]. lia.
  - destruct IH as [Hh Hmax]. unfold ChatInterface.byRecency at 1.
    destruct (0 <? s_updatedAt h - s_updatedAt x)%Z eqn:E; cbn.
    + apply Z.ltb_lt in E. split; [right; exact Hh|].
      intros y [<- | Hy]; [lia | apply Hmax, Hy].
    + apply Z.ltb_ge in E. split; [left; reflexivity|].
      intros y [<- | Hy]; [lia | specialize (Hmax y Hy); lia].
Qed.

Lemma loadChatSessions_run ch w :
  storedChats w <> [] ->
  ChatInterface.loadChatSessions {| chat := ch; world := w |}
  = let sorted := ChatInterface.sort ChatInterface.byRecency (storedChats w) in
    let chosen := sessionToLoad (currentDocument w) sorted in
    Returns tt
      {| chat := {| currentSession := chosen;
                    messages := match chosen with Some s => s_messages s | None => [] end;
                    sessions := sorted;
                    associatedDocId := match currentDocument w with
                                       | Some d => d_id d
                                       | None => associatedDocId ch
                                       end |};
         world := w |}.
Proof.
  intros Hne. unfold ChatInterface.loadChatSessions.
  rewrite (bind_Returns _ _ _ _ _ (liftW_Returns _ ch w _ _ (getChats_run w))).
  rewrite <- storedChats_eq.
  destruct (storedChats w) as [|s0 l]; [congruence|].
  unfold sessionToLoad.
  destruct (currentDocument w) as [d|] eqn:Ed;
    cbv [bind ret gets modify ChatInterface.setSessions ChatInterface.assign
         ChatInterface.this ChatInterface.liftW ChatInterface.setAssociatedDocId
         ChatInterface.setCurrentSession ChatInterface.setMessages];
    cbn [chat world sessions currentSession messages associatedDocId length Nat.ltb Nat.leb];
    rewrite ?Ed; reflexivity.
Qed.

Lemma sameDoc_iff docId i : ChatInterface.sameDoc docId (Some i) = true <-> docId = Some i.
Proof.
  destruct docId as [x|]; cbn; [|split; discriminate].
  rewrite String.eqb_eq. split; congruence.
Qed.

(** C1.  When a document is on display and some stored session is bound
    to it, [loadChatSessions] makes current a session bound to that
    document that no other session bound to it beats on [updatedAt],
    whatever the [updatedAt] of the sessions bound elsewhere. *)
Theorem loadChatSessions_prefers_document (p : Page) (d : Document) (i : string) :
  currentDocument (world p) = Some d -> d_id d = Some i ->
  (exists s, In s (storedChats (world p)) /\ s_docId s = Some i) ->
  exists chosen p',
    ChatInterface.loadChatSessions p = Returns tt p'
    /\ currentSession (chat p') = Some chosen
    /\ messages (chat p') = s_messages chosen
    /\ In chosen (storedChats (world p))
    /\ s_docId chosen = Some i
    /\ forall s, In s (storedChats (world p)) -> s_docId s = Some i ->
                 (s_updatedAt s <= s_updatedAt chosen)%Z.
Proof.
  intros Hd Hi (s0 & Hs0 & Hb0). destruct p as [ch w]. cbn [world] in *.
  assert (Hne : storedChats w <> []) by (intros E; rewrite E in Hs0; destruct Hs0).
  rewrite (loadChatSessions_run ch w Hne). cbv zeta. rewrite Hd.
  unfold sessionToLoad. rewrite Hi.
  set (sorted := ChatInterface.sort ChatInterface.byRecency (storedChats w)).
  set (docSessions := List.filter (fun s => ChatInterface.sameDoc (s_docId s) (Some i)) sorted).
  assert (Hmem : forall s, In s docSessions <-> In s (storedChats w) /\ s_docId s = Some i).
  { intros s. unfold docSessions, sorted.
    rewrite filter_In, sort_In, sameDoc_iff. reflexivity. }
  assert (Hs0' : In s0 docSessions) by (apply Hmem; auto).
  destruct docSessions as [|x rest] eqn:Eds; [destruct Hs0'|].
  cbn [length Nat.ltb Nat.leb].
  pose proof (head_sort_byRecency (x :: rest)) as Hhead.
  destruct (head (ChatInterface.sort ChatInterface.byRecency (x :: rest))) as [chosen|];
    [|discriminate Hhead].
  destruct Hhead as [Hin Hmax].
  exists chosen. eexists. split; [reflexivity|]. cbn.
  apply Hmem in Hin. destruct Hin as [Hin Hbound].
  conjs; try reflexivity; try assumption.
  intros s Hs Hb. apply Hmax, Hmem. auto.
Qed.

Lemma loadChatSessions_prefers_document_witness :
  exists chosen p',
    ChatInterface.loadChatSessions {| chat := idle; world := worldWith [S1; S2] (Some D1) |}
    = Returns tt p'
    /\ currentSession (chat p') = Some chosen
    /\ messages (chat p') = s_messages chosen
    /\ In chosen (storedChats (worldWith [S1; S2] (Some D1)))
    /\ s_docId chosen = Some "D1"
    /\ forall s, In s (storedChats (worldWith [S1; S2] (Some D1))) ->
                 s_docId s = Some "D1" -> (s_updatedAt s <= s_updatedAt chosen)%Z.
Proof.
  apply (loadChatSessions_prefers_document
           {| chat := idle; world := worldWith [S1; S2] (Some D1) |} D1 "D1").
  - reflexivity.
  - reflexivity.
  - exists S1. split; [left; reflexivity | reflexivity].
Defined.

(** The scenario of the specification: S2, bound to another document, was
    updated after S1; with D1 on display the reload lands in S1. *)
Example loadChatSessions_binding_scenario :
  (s_updatedAt S1 < s_updatedAt S2)%Z
  /\ currentSession (chat (finalState
       (ChatInterface.loadChatSessions
          {| chat := idle; world := worldWith [S1; S2] (Some D1) |}))) = Some S1.
Proof. split; [reflexivity | vm_compute; reflexivity]. Qed.

(** C2.  When sessions are stored and none of them is bound to the
    document on display (or no document is on display),
    [loadChatSessions] makes current a stored session that no other
    stored session beats on [updatedAt], whatever its [docId]. *)
Theorem loadChatSessions_falls_back (p : Page) :
  storedChats (world p) <> [] ->
  (forall d, currentDocument (world p) = Some d ->
             forall s, In s (storedChats (world p)) ->
                       ChatInterface.sameDoc (s_docId s) (d_id d) = false) ->
  exists chosen p',
    ChatInterface.loadChatSessions p = Returns tt p'
    /\ currentSession (chat p') = Some chosen
    /\ messages (chat p') = s_messages chosen
    /\ In chosen (storedChats (world p))
    /\ forall s, In s (storedChats (world p)) ->
                 (s_updatedAt s <= s_updatedAt chosen)%Z.
Proof.
  intros Hne Hnomatch. destruct p as [ch w]. cbn [world] in *.
  rewrite (loadChatSessions_run ch w Hne). cbv zeta.
  pose proof (head_sort_byRecency (storedChats w)) as Hhead.
  assert (Hpick : sessionToLoad (currentDocument w)
                    (ChatInterface.sort ChatInterface.byRecency (storedChats w))
                  = head (ChatInterface.sort ChatInterface.byRecency (storedChats w))).
  { unfold sessionToLoad. destruct (currentDocument w) as [d|]; [|reflexivity].
    specialize (Hnomatch d eq_refl).
    assert (E : List.filter (fun s => ChatInterface.sameDoc (s_docId s) (d_id d))
                  (ChatInterface.sort ChatInterface.byRecency (storedChats w)) = []).
    { destruct (List.filter _ _) as [|x rest] eqn:Ef; [reflexivity|].
      assert (Hx : In x (x :: rest)) by (left; reflexivity).
      rewrite <- Ef in Hx. apply filter_In in Hx. destruct Hx as [Hx Hp].
      apply sort_In in Hx. rewrite (Hnomatch x Hx) in Hp. discriminate. }
    cbv zeta. rewrite E. reflexivity. }
  rewrite Hpick.
  destruct (head (ChatInterface.sort ChatInterface.byRecency (storedChats w))) as [chosen|];
    [|contradiction].
  destruct Hhead as [Hin Hmax].
  exists chosen. eexists. split; [reflexivity|]. cbn.
  conjs; try reflexivity; assumption.
Qed.

Lemma loadChatSessions_falls_back_witness :
  exists chosen p',
    ChatInterface.loadChatSessions {| chat := idle; world := worldWith [S2] (Some D1) |}
    = Returns tt p'
    /\ currentSession (chat p') = Some chosen
    /\ messages (chat p') = s_messages chosen
    /\ In chosen (storedChats (worldWith [S2] (Some D1)))
    /\ forall s, In s (storedChats (worldWith [S2] (Some D1))) ->
                 (s_updatedAt s <= s_updatedAt chosen)%Z.
Proof.
  apply (loadChatSessions_falls_back
           {| chat := idle; world := worldWith [S2] (Some D1) |}).
  - discriminate.
  - intros d Hd s Hs. vm_compute in Hd. injection Hd as <-.
    vm_compute in Hs. destruct Hs as [<- | []]. reflexivity.
Defined.

(** ** Saving the current session from the chat interface *)

Lemma orNull_again x : orNull (orElse None (orNull x)) = orNull x.
Proof. unfold orNull, orElse. cbn. destruct (truthy x) eqn:E; rewrite ?E; reflexivity. Qed.

Lemma usable_ticked proj w : usable proj w -> usable proj (ticked w).
Proof. apply usable_same. reflexivity. Qed.

Lemma ui_saveChatSession_run ch w s :
  storageAvailable w -> usable (groupingKey ch s) w -> currentSession ch = Some s ->
  exists n w',
    ChatInterface.saveChatSession {| chat := ch; world := w |}
    = Returns tt
        {| chat := {| currentSession :=
                        Some (syncedSession ch s (clock (env w) (ticks w)));
                      messages := messages ch;
                      sessions := storedChats w';
                      associatedDocId := associatedDocId ch |};
           world := w' |}
    /\ env w' = env w /\ currentDocument w' = currentDocument w
    /\ storedChats w' = upsertChat (storedChats w) (s_id s) n
    /\ s_messages n = messages ch /\ s_id n <> ""
    /\ (s_id s <> "" -> s_id n = s_id s)
    /\ ai_elearning_documents (localStorage w') = ai_elearning_documents (localStorage w).
Proof.
  intros Hq Hu Hcur.
  set (s' := syncedSession ch s (clock (env w) (ticks w))).
  assert (Hq1 : storageAvailable (ticked w)) by (intros j; apply Hq).
  assert (Hu1 : usable (orNull (orElse None (s_docId s'))) (ticked w)).
  { apply usable_ticked. unfold s', syncedSession. cbn [s_docId].
    rewrite orNull_again. exact Hu. }
  destruct (saveChatSession_run s' None (ticked w) Hq1 Hu1)
    as (n & w1 & w' & En & Es & He & Hc & Hl).
  destruct (normalizedChat_run s' (ticked w))
    as (n' & w1' & En' & _ & _ & _ & Hm & _ & Hne & Hid).
  rewrite En in En'. injection En' as <- <-.
  exists n, w'. split.
  - unfold ChatInterface.saveChatSession, ChatInterface.this.
    unfold bind at 1. unfold gets at 1. cbn [chat]. rewrite Hcur.
    cbv [bind gets ret ChatInterface.liftW now ChatInterface.setCurrentSession
         ChatInterface.assign modify ChatInterface.setSessions].
    cbn [chat world currentSession messages sessions associatedDocId].
    fold (ticked w). fold s'. fold (syncedSession ch s (clock (env w) (ticks w))).
    fold s'. rewrite Es. rewrite getChats_run. rewrite <- storedChats_eq. reflexivity.
  - conjs; try assumption.
    + rewrite storedChats_eq, Hl. cbn. rewrite !storedChats_eq. reflexivity.
    + rewrite Hl. reflexivity.
Qed.

(** ** Switching sessions keeps the unsaved messages *)

(** C5.  With session A current, a message appended in memory and not
    saved, [switchSession] to the id of another stored session B first
    writes A to the chats collection with all its messages, the appended
    one included, and then makes B current.  B is the session the store
    finds under the id; the statement does not need it to differ from A.
    The storage takes the writes, and the document id that A is saved
    and mirrored under is no name inherited from [Object.prototype]:
    under such a name the mirror throws before A is stored. *)
Theorem switchSession_saves_outgoing (ch : ChatState) (w : World)
    (A B : ChatSession) (m : Message) (sessionId : string) :
  storageAvailable w -> plainKey (groupingKey ch A) = true ->
  currentSession ch = Some A -> s_id A <> "" ->
  sessionId <> "" ->
  List.find (fun s => String.eqb (s_id s) sessionId) (storedChats w) = Some B ->
  let p1 := finalState (ChatInterface.pushMessage m {| chat := ch; world := w |}) in
  exists p' saved,
    ChatInterface.switchSession sessionId p1 = Returns tt p'
    /\ currentSession (chat p') = Some B
    /\ messages (chat p') = s_messages B
    /\ In saved (storedChats (world p'))
    /\ s_id saved = s_id A
    /\ s_messages saved = messages ch ++ [m].
Proof.
  intros Hq Hplain Hcur HA Hsid Hfind p1.
  set (ch1 := {| currentSession := currentSession ch; messages := messages ch ++ [m];
                 sessions := sessions ch; associatedDocId := associatedDocId ch |}).
  assert (Ep1 : p1 = {| chat := ch1; world := w |}) by reflexivity.
  destruct (ui_saveChatSession_run ch1 w A Hq (plainKey_usable _ _ Hplain) Hcur)
    as (n & w' & Esave & _ & _ & Hstored & Hmsgs & _ & Hid & _).
  specialize (Hid HA).
  eexists. exists n. split.
  - rewrite Ep1. unfold ChatInterface.switchSession.
    apply String.eqb_neq in Hsid. rewrite Hsid.
    rewrite (bind_Returns _ _ _ _ _ (liftW_Returns _ ch1 w _ _ (getChats_run w))).
    rewrite <- storedChats_eq, Hfind.
    unfold ChatInterface.this. unfold bind at 1. unfold gets at 1.
    cbn [chat currentSession ch1]. rewrite Hcur.
    rewrite (bind_Returns _ _ _ _ _ Esave).
    reflexivity.
  - cbn. conjs; try reflexivity.
    + rewrite Hstored. apply upsertChat_In.
    + exact Hid.
    + exact Hmsgs.
Qed.

Lemma switchSession_saves_outgoing_witness :
  let p1 := finalState (ChatInterface.pushMessage (question "m3" 3000)
                          {| chat := holding S1; world := worldWith [S1; S2] None |}) in
  exists p' saved,
    ChatInterface.switchSession "s2" p1 = Returns tt p'
    /\ currentSession (chat p') = Some S2
    /\ messages (chat p') = s_messages S2
    /\ In saved (storedChats (world p'))
    /\ s_id saved = s_id S1
    /\ s_messages saved = messages (holding S1) ++ [question "m3" 3000].
Proof.
  apply (switchSession_saves_outgoing (holding S1) (worldWith [S1; S2] None)
           S1 S2 (question "m3" 3000) "s2").
  - intros n. reflexivity.
  - reflexivity.
  - reflexivity.
  - discriminate.
  - discriminate.
  - reflexivity.
Defined.

(** What the hypothesis on the storage is for.  When the storage is full,
    [saveChats] answers false and [switchSession] goes on: the switch is
    made and the appended message of a session bound to no document is in
    no stored record.  For a session bound to a document the write of the
    lib mirror throws first, and the exception leaves [switchSession]
    before the target is made current. *)
Example switchSession_on_a_full_storage :
  let p3 := finalState (ChatInterface.pushMessage (question "m6" 4000)
                          {| chat := holding S3; world := fullWorldWith [S3; S2] |}) in
  let p1 := finalState (ChatInterface.pushMessage (question "m6" 4000)
                          {| chat := holding S1; world := fullWorldWith [S1; S2] |}) in
  returned (ChatInterface.switchSession "s2" p3) = Some tt
  /\ currentSession (chat (finalState (ChatInterface.switchSession "s2" p3))) = Some S2
  /\ storedChats (world (finalState (ChatInterface.switchSession "s2" p3))) = [S3; S2]
  /\ returned (ChatInterface.switchSession "s2" p1) = None
  /\ s_id <$> currentSession (chat (finalState (ChatInterface.switchSession "s2" p1)))
     = Some "s1".
Proof. vm_compute. repeat split. Qed.

(** ** Creating a session *)

(** C6.  [createNewSession(false)] with a current session and at most one
    message in memory returns at once and changes nothing.
    [createNewSession(true)] makes current a session under a newly
    generated id, with one welcome message of type [ai] in memory, and
    writes it to the chats collection before it returns.  For the
    latter the storage takes the writes, the document on display, if
    any, has a title, and the document id the new session is bound to
    ([associatedDocId], else the id of the document on display) is no
    name inherited from [Object.prototype]: under such a name the mirror
    of the session throws before the session is stored. *)
Theorem createNewSession_reuses_or_creates (p : Page) :
  storageAvailable (world p) ->
  (forall d, currentDocument (world p) = Some d -> d_title d <> None) ->
  (is_Some (currentSession (chat p)) -> length (messages (chat p)) <= 1 ->
   ChatInterface.createNewSession false p = Returns tt p)
  /\ (plainKey (boundTo (associatedDocId (chat p)) (currentDocument (world p))) = true ->
      exists p' s m r,
        ChatInterface.createNewSession true p = Returns tt p'
        /\ currentSession (chat p') = Some s
        /\ s_id s = nextId (ticked (world p))
        /\ messages (chat p') = [m] /\ m_type m = ai /\ s_messages s = [m]
        /\ In r (storedChats (world p')) /\ s_id r = s_id s /\ s_messages r = [m]).
Proof.
  intros Hq Htitle. destruct p as [ch w]. cbn [chat world] in *. split.
  2: intros Hplain; pose proof (plainKey_usable _ w Hplain) as Hu.
  - intros Hcur Hlen. unfold ChatInterface.createNewSession, ChatInterface.this.
    cbv [bind gets]. cbn [chat].
    rewrite bool_decide_eq_true_2 by exact Hcur.
    apply Nat.leb_le in Hlen. rewrite Hlen. reflexivity.
  - assert (Hgen : nextId (ticked w) <> "").
    { apply append_nonempty, toString36_nonempty. }
    unfold ChatInterface.createNewSession, ChatInterface.this.
    unfold bind at 1. unfold gets at 1. unfold bind at 1. unfold gets at 1.
    cbn [negb andb].
    rewrite (bind_Returns _ _ _ _ _ (liftW_Returns _ ch w _ _ (eq_refl : gets currentDocument w = Returns (currentDocument w) w))).
    rewrite (bind_Returns _ _ _ _ _ (liftW_Returns _ ch w _ _ (eq_refl : now w = Returns (clock (env w) (ticks w)) (ticked w)))).
    rewrite (bind_Returns _ _ _ _ _ (liftW_Returns _ ch (ticked w) _ _ (generateId_run (ticked w)))).
    fold (nextId (ticked w)).
    destruct (currentDocument w) as [d|] eqn:Ed.
    + destruct (d_title d) as [t|] eqn:Et; [|exfalso; exact (Htitle d eq_refl Et)].
      cbv [bind gets ret ChatInterface.this ChatInterface.setCurrentSession
           ChatInterface.setMessages ChatInterface.assign modify
           ChatInterface.liftW ChatInterface.generateMessageId now mathRandom36
           ChatInterface.pushMessage].
      cbn [chat world currentSession messages sessions associatedDocId app
           env ticks draws writes localStorage currentDocument].
      match goal with
      | |- context [ChatInterface.saveChatSession {| chat := ?c; world := ?v |}] =>
          let H := fresh in
          epose proof (fun Hu' => ui_saveChatSession_run c v _
                                    ltac:(intros j; apply Hq) Hu' eq_refl) as H;
          destruct (H (usable_same _ w v eq_refl Hu))
            as (n & w' & Esave & _ & _ & Hstored & Hmsgs & _ & Hid & _);
          rewrite Esave
      end.
      cbn [s_id currentSession] in Hid. specialize (Hid Hgen).
      eexists _, _, _, n. split; [reflexivity|]. cbn.
      conjs; try reflexivity.
      * rewrite Hstored. apply upsertChat_In.
      * exact Hid.
      * exact Hmsgs.
    + cbv [bind gets ret ChatInterface.this ChatInterface.setCurrentSession
           ChatInterface.setMessages ChatInterface.assign modify
           ChatInterface.liftW ChatInterface.generateMessageId now mathRandom36
           ChatInterface.pushMessage].
      cbn [chat world currentSession messages sessions associatedDocId app
           env ticks draws writes localStorage currentDocument].
      match goal with
      | |- context [ChatInterface.saveChatSession {| chat := ?c; world := ?v |}] =>
          let H := fresh in
          epose proof (fun Hu' => ui_saveChatSession_run c v _
                                    ltac:(intros j; apply Hq) Hu' eq_refl) as H;
          destruct (H (usable_same _ w v eq_refl Hu))
            as (n & w' & Esave & _ & _ & Hstored & Hmsgs & _ & Hid & _);
          rewrite Esave
      end.
      cbn [s_id currentSession] in Hid. specialize (Hid Hgen).
      eexists _, _, _, n. split; [reflexivity|]. cbn.
      conjs; try reflexivity.
      * rewrite Hstored. apply upsertChat_In.
      * exact Hid.
      * exact Hmsgs.
Qed.

Lemma createNewSession_reuses_or_creates_witness :
  let p := {| chat := holding S1; world := worldWith [S1] (Some D1) |} in
  ChatInterface.createNewSession false p = Returns tt p
  /\ exists p' s m r,
       ChatInterface.createNewSession true p = Returns tt p'
       /\ currentSession (chat p') = Some s
       /\ s_id s = nextId (ticked (world p))
       /\ messages (chat p') = [m] /\ m_type m = ai /\ s_messages s = [m]
       /\ In r (storedChats (world p')) /\ s_id r = s_id s /\ s_messages r = [m].
Proof.
  destruct (createNewSession_reuses_or_creates
              {| chat := holding S1; world := worldWith [S1] (Some D1) |})
    as [Hreuse Hcreate].
  - intros n. reflexivity.
  - intros d Hd. vm_compute in Hd. injection Hd as <-. discriminate.
  - split; [|exact (Hcreate eq_refl)].
    apply Hreuse; [eexists; reflexivity | cbn; lia].
Defined.

(** The reuse stops at two messages: with a question after the welcome
    message, [createNewSession(false)] does create a session. *)
Example createNewSession_after_a_question :
  let p := finalState (ChatInterface.pushMessage (question "m3" 3000)
                         {| chat := holding S1; world := worldWith [S1] (Some D1) |}) in
  s_id <$> currentSession (chat (finalState (ChatInterface.createNewSession false p)))
  = Some (nextId (ticked (world p)))
  /\ length (storedChats (world (finalState (ChatInterface.createNewSession false p)))) = 2.
Proof. vm_compute. split; reflexivity. Qed.

(** * Further properties of the store and of the chat interface *)

(** ** Deleting documents *)

Lemma storedDocuments_wrote l w :
  storedDocuments (wrote (StorageManager.setDocuments (Text l)) w) = l.
Proof. rewrite storedDocuments_eq. reflexivity. Qed.

Lemma docMirror_eq p k w :
  docMirror p k w
  = match readLib (ai_elearning_lib (localStorage w)) !! p with
    | Some proj => p_docs proj !! k
    | None => None
    end.
Proof. unfold docMirror. rewrite libRoot_eq. reflexivity. Qed.

(** The lib key holds the text of the lib as soon as the lib has a
    project. *)
Lemma lib_is_Text w p pr :
  libRoot w !! p = Some pr -> ai_elearning_lib (localStorage w) = Text (libRoot w).
Proof.
  rewrite libRoot_eq. destruct (ai_elearning_lib (localStorage w)); cbn;
    try (rewrite lookup_empty; discriminate). reflexivity.
Qed.

Lemma dropDoc_absent id pr : p_docs pr !! id = None -> StorageManager.dropDoc id pr = pr.
Proof.
  intros H. destruct pr as [n docs chats files]. unfold StorageManager.dropDoc. cbn in *.
  f_equal. apply delete_id, H.
Qed.

Lemma dropChat_absent id pr : p_chats pr !! id = None -> StorageManager.dropChat id pr = pr.
Proof.
  intros H. destruct pr as [n docs chats files]. unfold StorageManager.dropChat. cbn in *.
  f_equal. apply delete_id, H.
Qed.

Lemma alter_same {A} (f : A -> A) (m : gmap string A) k a :
  m !! k = Some a -> f a = a -> alter f k m = m.
Proof.
  intros Hk Hf. apply map_eq. intros j. destruct (decide (j = k)) as [->|Hne].
  - rewrite lookup_alter_eq, Hk. cbn. rewrite Hf. reflexivity.
  - apply lookup_alter_ne. congruence.
Qed.

Lemma whenTruthy_libDeleteDoc_run proj id w :
  storageAvailable w -> usable proj w ->
  exists w', StorageManager.whenTruthy proj (fun p => StorageManager.libDeleteDoc p id) w
             = Returns tt w'
    /\ env w' = env w /\ currentDocument w' = currentDocument w
    /\ localStorage w' = StorageManager.setLib (libWithoutDoc proj id w) (localStorage w).
Proof.
  intros Hq Hu. unfold StorageManager.whenTruthy, libWithoutDoc.
  assert (Hid : localStorage w
                = StorageManager.setLib (ai_elearning_lib (localStorage w)) (localStorage w))
    by (destruct (localStorage w); reflexivity).
  destruct proj as [p|]; [destruct (String.eqb p "") eqn:Ep|];
    try solve [exists w; conjs; auto].
  specialize (Hu p eq_refl (proj1 (String.eqb_neq _ _) Ep)).
  unfold StorageManager.libDeleteDoc.
  rewrite (bind_Returns _ _ _ _ _ (getLibRoot_run w)).
  rewrite docMirror_eq, <- libRoot_eq.
  unfold notInherited in Hu. unfold StorageManager.member at 1.
  unfold StorageManager.member in Hu.
  destruct (libRoot w !! p) as [pr|] eqn:Epr.
  - unfold StorageManager.member.
    destruct (p_docs pr !! id) eqn:Eid.
    + unfold StorageManager.setLibRoot. rewrite (setItem_run _ _ Hq).
      eexists. conjs; reflexivity.
    + destruct (StorageManager.inherited id); [|solve [exists w; conjs; auto]].
      unfold StorageManager.setLibRoot. rewrite (setItem_run _ _ Hq).
      eexists. conjs; try reflexivity. cbn [localStorage wrote]. f_equal.
      rewrite (alter_same _ _ _ _ Epr (dropDoc_absent _ _ Eid)).
      symmetry. apply (lib_is_Text w p pr Epr).
  - destruct (StorageManager.inherited p); [congruence|]. exists w; conjs; auto.
Qed.

(** Under a member inherited from [Object.prototype] the delete from the
    mirror throws before anything is written. *)
Lemma libDeleteDoc_throws p id w :
  StorageManager.member (libRoot w) p = StorageManager.Inherited ->
  StorageManager.libDeleteDoc p id w = Throws TypeError w.
Proof.
  intros Hp. unfold StorageManager.libDeleteDoc.
  rewrite (bind_Returns _ _ _ _ _ (getLibRoot_run w)). rewrite <- libRoot_eq, Hp.
  reflexivity.
Qed.

(** With a project id that lands on an inherited member, a delete of a
    document throws a TypeError out of [libDeleteDoc], after the
    documents key has been written: the lib key is as it was. *)
Lemma deleteDocument_throws id projectId w :
  storageAvailable w -> unusable projectId w ->
  exists w', StorageManager.deleteDocument id projectId w = Throws TypeError w'
             /\ env w' = env w
             /\ localStorage w'
                = StorageManager.setDocuments (Text (withoutId id (storedDocuments w)))
                    (localStorage w).
Proof.
  intros Hq Hu. unfold StorageManager.deleteDocument.
  rewrite (bind_Returns _ _ _ _ _ (getDocuments_run w)).
  rewrite <- storedDocuments_eq. fold (withoutId id (storedDocuments w)).
  rewrite (bind_Returns _ _ _ _ _ (saveDocuments_run _ _ Hq)).
  set (w1 := wrote (StorageManager.setDocuments (Text (withoutId id (storedDocuments w)))) w).
  assert (Hlib : ai_elearning_lib (localStorage w1) = ai_elearning_lib (localStorage w))
    by reflexivity.
  destruct (unusable_lib projectId w w1 Hlib Hu) as (p & -> & Hne & Hm).
  exists w1. conjs; try reflexivity.
  unfold StorageManager.whenTruthy. apply String.eqb_neq in Hne. rewrite Hne.
  unfold bind at 1. rewrite (libDeleteDoc_throws _ _ _ Hm). reflexivity.
Qed.

Lemma deleteDocument_run id projectId w :
  storageAvailable w -> usable projectId w ->
  exists w',
    StorageManager.deleteDocument id projectId w = Returns true w'
    /\ env w' = env w /\ currentDocument w' = currentDocument w
    /\ localStorage w'
       = StorageManager.setLib (libWithoutDoc projectId id w)
           (StorageManager.setDocuments (Text (withoutId id (storedDocuments w)))
              (localStorage w)).
Proof.
  intros Hq Hu. unfold StorageManager.deleteDocument.
  rewrite (bind_Returns _ _ _ _ _ (getDocuments_run w)).
  rewrite <- storedDocuments_eq. fold (withoutId id (storedDocuments w)).
  rewrite (bind_Returns _ _ _ _ _ (saveDocuments_run _ _ Hq)).
  destruct (whenTruthy_libDeleteDoc_run projectId id
              (wrote (StorageManager.setDocuments (Text (withoutId id (storedDocuments w)))) w)
              (storageAvailable_wrote _ _ Hq)
              (usable_lib projectId w
                 (wrote (StorageManager.setDocuments
                           (Text (withoutId id (storedDocuments w)))) w)
                 eq_refl Hu))
    as (w' & E & He & Hc & Hl).
  rewrite (bind_Returns _ _ _ _ _ E). exists w'. conjs; try assumption; try reflexivity.
  rewrite Hl. f_equal.
  unfold libWithoutDoc, docMirror, libRoot. rewrite !getLibRoot_run. reflexivity.
Qed.

Lemma find_filter_other {A} (f g : A -> bool) (l : list A) :
  (forall x, f x = true -> g x = true) ->
  List.find f (List.filter g l) = List.find f l.
Proof.
  intros H. induction l as [|x l IH]; [reflexivity|].
  cbn. destruct (g x) eqn:Eg; cbn.
  - destruct (f x); [reflexivity | exact IH].
  - destruct (f x) eqn:Ef; [rewrite (H x Ef) in Eg; discriminate | exact IH].
Qed.

Lemma strictEq_eq a b : StorageManager.strictEq a b = true <-> a = b.
Proof.
  destruct a as [x|], b as [y|]; cbn; try (split; congruence).
  rewrite String.eqb_eq. split; congruence.
Qed.

Lemma getDocument_Text id w l :
  ai_elearning_documents (localStorage w) = Text l ->
  StorageManager.getDocument id w = Returns (List.find (hasId id) l) w.
Proof.
  intros E. unfold StorageManager.getDocument.
  rewrite (bind_Returns _ _ _ _ _ (getDocuments_run w)), E. reflexivity.
Qed.

Lemma withoutId_idem id l : withoutId id (withoutId id l) = withoutId id l.
Proof.
  unfold withoutId. induction l as [|x l IH]; [reflexivity|].
  cbn. destruct (negb (StorageManager.strictEq (d_id x) (Some id))) eqn:Ex; cbn.
  - rewrite Ex. f_equal. exact IH.
  - exact IH.
Qed.

(** X1.  [deleteDocument] answers true and takes every record of the id
    out of the collection, in whatever state the documents key was; the
    other records stay, in their order, and each is found as before.  A
    second delete of the same id changes nothing more.  (The storage
    takes the writes, and the project id, if one is given, is no name
    inherited from [Object.prototype].) *)
Theorem deleteDocument_removes_only_the_id (id : string) (projectId : option string)
    (w : World) :
  storageAvailable w -> plainKey projectId = true ->
  let o := StorageManager.deleteDocument id projectId w in
  let w' := finalState o in
  returned o = Some true
  /\ storedDocuments w' = withoutId id (storedDocuments w)
  /\ StorageManager.getDocument id w' = Returns None w'
  /\ (forall j, j <> id ->
        StorageManager.getDocument j w'
        = Returns (List.find (hasId j) (storedDocuments w)) w')
  /\ storedDocuments (finalState (StorageManager.deleteDocument id projectId w'))
     = storedDocuments w'.
Proof.
  intros Hq Hplain o w'.
  destruct (deleteDocument_run id projectId w Hq (plainKey_usable _ _ Hplain))
    as (v & E & He & Hc & Hl).
  assert (Ew : w' = v) by (unfold w', o; rewrite E; reflexivity).
  assert (Hdocs : ai_elearning_documents (localStorage w')
                  = Text (withoutId id (storedDocuments w))).
  { rewrite Ew, Hl. reflexivity. }
  assert (Hst : storedDocuments w' = withoutId id (storedDocuments w)).
  { rewrite storedDocuments_eq, Hdocs. reflexivity. }
  conjs.
  - unfold o. rewrite E. reflexivity.
  - exact Hst.
  - rewrite (getDocument_Text id w' _ Hdocs). f_equal.
    apply find_absent. intros x Hx. apply filter_In in Hx. destruct Hx as [_ Hx].
    apply negb_true_iff in Hx. exact Hx.
  - intros j Hj. rewrite (getDocument_Text j w' _ Hdocs). f_equal.
    apply find_filter_other. intros x Hx. apply negb_true_iff.
    unfold hasId in Hx. apply strictEq_eq in Hx.
    destruct (StorageManager.strictEq (d_id x) (Some id)) eqn:E'; [|reflexivity].
    apply strictEq_eq in E'. congruence.
  - assert (Hq' : storageAvailable w') by (rewrite Ew; intros n; rewrite He; apply Hq).
    destruct (deleteDocument_run id projectId w' Hq' (plainKey_usable _ _ Hplain))
      as (v2 & E2 & _ & _ & Hl2).
    rewrite E2. cbn [finalState]. rewrite storedDocuments_eq, Hl2. cbn.
    rewrite Hst. apply withoutId_idem.
Qed.

Lemma deleteDocument_removes_only_the_id_witness :
  let o := StorageManager.deleteDocument "E1" None (worldWithDocuments [exercise; solution]) in
  let w' := finalState o in
  returned o = Some true
  /\ storedDocuments w' = withoutId "E1" (storedDocuments (worldWithDocuments [exercise; solution]))
  /\ StorageManager.getDocument "E1" w' = Returns None w'
  /\ (forall j, j <> "E1" ->
        StorageManager.getDocument j w'
        = Returns (List.find (hasId j)
                     (storedDocuments (worldWithDocuments [exercise; solution]))) w')
  /\ storedDocuments (finalState (StorageManager.deleteDocument "E1" None w'))
     = storedDocuments w'.
Proof.
  apply (deleteDocument_removes_only_the_id "E1" None (worldWithDocuments [exercise; solution])).
  - intros n. reflexivity.
  - reflexivity.
Defined.

(** The solution outlives its exercise. *)
Example deleteDocument_keeps_the_solution :
  storedDocuments (finalState (StorageManager.deleteDocument "E1" None
                                 (worldWithDocuments [exercise; solution])))
  = [solution].
Proof. vm_compute. reflexivity. Qed.

(** X2.  On a full storage [deleteDocument] without a project id still
    answers true, and the storage is as it was: the record is not
    deleted. *)
Theorem deleteDocument_full_storage (id : string) (w : World) :
  storageFull w ->
  let o := StorageManager.deleteDocument id None w in
  returned o = Some true /\ localStorage (finalState o) = localStorage w.
Proof.
  intros Hfull o. unfold o, StorageManager.deleteDocument.
  rewrite (bind_Returns _ _ _ _ _ (getDocuments_run w)).
  unfold StorageManager.saveDocuments, tryCatch, bind, setItem, ret.
  rewrite Hfull. cbn. split; reflexivity.
Qed.

Lemma deleteDocument_full_storage_witness :
  let o := StorageManager.deleteDocument "E1" None (fullWorldWithDocuments [exercise]) in
  returned o = Some true
  /\ localStorage (finalState o) = localStorage (fullWorldWithDocuments [exercise]).
Proof.
  apply (deleteDocument_full_storage "E1" (fullWorldWithDocuments [exercise])).
  intros n. reflexivity.
Defined.

(** ** Saving a document and reading it back *)

Lemma find_upsert {A} (p : A -> bool) merge n l :
  p n = true -> (forall x, p x = true -> p (merge x) = true) ->
  List.find p (upsert p merge n l)
  = Some (match List.find p l with Some x => merge x | None => n end).
Proof.
  intros Hn Hm. induction l as [|x l IH].
  - cbn. rewrite Hn. reflexivity.
  - rewrite upsert_cons. cbn [List.find]. destruct (p x) eqn:Ep.
    + cbn [List.find]. rewrite (Hm x Ep). reflexivity.
    + cbn [List.find]. rewrite Ep. exact IH.
Qed.

Lemma find_upsert_other {A} (f p : A -> bool) merge n l :
  f n = false -> (forall x, p x = true -> f x = false /\ f (merge x) = false) ->
  List.find f (upsert p merge n l) = List.find f l.
Proof.
  intros Hn Hm. induction l as [|x l IH].
  - cbn. rewrite Hn. reflexivity.
  - rewrite upsert_cons. destruct (p x) eqn:Ep.
    + destruct (Hm x Ep) as [H1 H2]. cbn. rewrite H1, H2. reflexivity.
    + cbn. destruct (f x); [reflexivity | exact IH].
Qed.

Lemma filter_upsert_other {A} (q p : A -> bool) merge n l :
  q n = false -> (forall x, p x = true -> q x = false /\ q (merge x) = false) ->
  List.filter q (upsert p merge n l) = List.filter q l.
Proof.
  intros Hn Hm. induction l as [|x l IH].
  - cbn. rewrite Hn. reflexivity.
  - rewrite upsert_cons. destruct (p x) eqn:Ep.
    + destruct (Hm x Ep) as [H1 H2]. cbn. rewrite H1, H2. reflexivity.
    + cbn. destruct (q x); [f_equal|]; exact IH.
Qed.

Lemma length_upsert {A} (p : A -> bool) merge n l :
  length (upsert p merge n l)
  = match List.find p l with Some _ => length l | None => S (length l) end.
Proof.
  induction l as [|x l IH]; [reflexivity|].
  rewrite upsert_cons. cbn [List.find]. destruct (p x); [reflexivity|].
  cbn. rewrite IH. destruct (List.find p l); reflexivity.
Qed.

(** The world a save of a document with an id ends in, and its normalized
    record. *)
Lemma saveDocument_with_id document i projectId w :
  storageAvailable w -> usable projectId w -> d_id document = Some i -> i <> "" ->
  exists n w',
    StorageManager.saveDocument document projectId w = Returns true w'
    /\ env w' = env w /\ currentDocument w' = currentDocument w
    /\ localStorage w'
       = StorageManager.setDocuments
           (Text (upsertDocument (storedDocuments w) (Some i) n))
           (StorageManager.setLib (libAfterDoc projectId n w) (localStorage w))
    /\ d_id n = Some i /\ d_title n = d_title document /\ d_rest n = d_rest document
    /\ d_undefined n = d_undefined document
    /\ d_createdAt n = Some (default (clock (env w) (ticks w)) (d_createdAt document))
    /\ d_updatedAt n = Some (clock (env w) (stampTick document w))
    /\ ticks w' = S (stampTick document w).
Proof.
  intros Hq Hu Hid Hi.
  destruct (saveDocument_run document projectId w Hq Hu)
    as (n & w1 & w' & En & Es & He & Hc & Htk & _ & Hl).
  rewrite Hid in Hl.
  assert (Ht : truthy (d_id document) = true) by (rewrite Hid; apply truthy_Some, Hi).
  unfold StorageManager.normalized in En. rewrite Ht in En.
  unfold bind, ret, now in En. unfold stampTick.
  destruct (d_createdAt document) as [c|] eqn:Ec; cbn in En;
    injection En as <- <-;
    eexists _, w'; (split; [exact Es|]); conjs;
    try eassumption; cbn; rewrite ?Hid, ?Htk; reflexivity.
Qed.

Lemma lookup_filter_defined (U : list string) (m : gmap string string) k :
  filter (fun kv : string * string => StorageManager.holdsUndefined kv.1 U = false) m !! k
  = if StorageManager.holdsUndefined k U then None else m !! k.
Proof.
  destruct (StorageManager.holdsUndefined k U) eqn:E.
  - apply map_lookup_filter_None. right. intros x _. cbn. rewrite E. discriminate.
  - destruct (m !! k) as [x|] eqn:Ek.
    + apply map_lookup_filter_Some. split; [exact Ek | exact E].
    + apply map_lookup_filter_None. left. exact Ek.
Qed.

(** X3.  After a successful save of a document object that carries an
    id, [getDocument] of that id gives the shallow merge: the id; each
    property from the object when it has a value for it, none when the
    object holds it as undefined, and the old record's otherwise; the
    object's createdAt or, if it has none, the first clock reading of the
    save (whatever the old record had); and as updatedAt the time of the
    save, which is the last clock reading the save takes.  (The storage
    takes the writes, and the project id, if one is given, is no name
    inherited from [Object.prototype].) *)
Theorem saveDocument_then_getDocument (document : Document) (i : string)
    (projectId : option string) (w : World) :
  storageAvailable w -> plainKey projectId = true -> d_id document = Some i -> i <> "" ->
  let w' := finalState (StorageManager.saveDocument document projectId w) in
  exists r,
    StorageManager.getDocument i w' = Returns (Some r) w'
    /\ d_id r = Some i
    /\ d_title r = mergedTitle (oldRecord i w) document
    /\ (forall k, d_rest r !! k = mergedRest (oldRecord i w) document k)
    /\ d_createdAt r = Some (default (clock (env w) (ticks w)) (d_createdAt document))
    /\ d_updatedAt r = Some (clock (env w) (stampTick document w))
    /\ ticks w' = S (stampTick document w).
Proof.
  intros Hq Hplain Hid Hi w'.
  destruct (saveDocument_with_id document i projectId w Hq (plainKey_usable _ _ Hplain) Hid Hi)
    as (n & v & Es & _ & _ & Hl & Hn & Ht & Hr & Hun & Hc & Hu & Htk).
  assert (Ew : w' = v) by (unfold w'; rewrite Es; reflexivity).
  assert (Hdocs : ai_elearning_documents (localStorage w')
                  = Text (upsertDocument (storedDocuments w) (Some i) n)).
  { rewrite Ew, Hl. reflexivity. }
  rewrite (getDocument_Text i w' _ Hdocs).
  unfold upsertDocument. fold (hasId i).
  rewrite find_upsert;
    [| rewrite hasId_stringify; apply hasId_self, Hn | intros x _; apply hasId_spread, Hn].
  fold (oldRecord i w). rewrite Ew.
  destruct (oldRecord i w) as [old|]; eexists; (split; [reflexivity|]);
    unfold mergedTitle, mergedRest, StorageManager.stringify, StorageManager.spread,
      StorageManager.pick;
    cbn [d_id d_title d_rest d_createdAt d_updatedAt];
    rewrite ?Hn, ?Ht, ?Hr, ?Hc, ?Hu, ?Hun; conjs; try reflexivity; try exact Htk.
  - destruct (d_title document); reflexivity.
  - intros j. rewrite lookup_union, lookup_filter_defined.
    destruct (d_rest document !! j), (StorageManager.holdsUndefined j (d_undefined document)),
      (d_rest old !! j); reflexivity.
  - destruct (d_title document),
      (StorageManager.holdsUndefined "title" (d_undefined document)); reflexivity.
  - intros j. destruct (d_rest document !! j),
      (StorageManager.holdsUndefined j (d_undefined document)); reflexivity.
Qed.

Lemma saveDocument_then_getDocument_witness :
  let w := worldWithDocuments [exercise; solution] in
  let w' := finalState (StorageManager.saveDocument exercisePatch None w) in
  exists r,
    StorageManager.getDocument "E1" w' = Returns (Some r) w'
    /\ d_id r = Some "E1"
    /\ d_title r = mergedTitle (oldRecord "E1" w) exercisePatch
    /\ (forall k, d_rest r !! k = mergedRest (oldRecord "E1" w) exercisePatch k)
    /\ d_createdAt r = Some (default (clock (env w) (ticks w)) (d_createdAt exercisePatch))
    /\ d_updatedAt r = Some (clock (env w) (stampTick exercisePatch w))
    /\ ticks w' = S (stampTick exercisePatch w).
Proof.
  apply (saveDocument_then_getDocument exercisePatch "E1" None
           (worldWithDocuments [exercise; solution])).
  - intros n. reflexivity.
  - reflexivity.
  - reflexivity.
  - discriminate.
Defined.

(** The patch keeps the title and the type of the exercise, adds the
    content, and stamps createdAt anew. *)
Example saveDocument_patch_scenario :
  let w' := finalState (StorageManager.saveDocument exercisePatch None
                          (worldWithDocuments [exercise; solution])) in
  match returned (StorageManager.getDocument "E1" w') with
  | Some (Some r) =>
      d_title r = Some "Exercises" /\ d_rest r !! "type" = Some "exercise"
      /\ d_rest r !! "content" = Some "1. Define osmosis."
      /\ d_createdAt r = Some 1700000000000%Z
  | _ => False
  end.
Proof. vm_compute. repeat split. Qed.

(** X4.  A successful save of a document object that carries an id
    leaves every record of another id as it was and where it was, adds at
    most one record, and does not touch the chats, files and settings
    keys.  (The storage takes the writes, and the project id, if one is
    given, is no name inherited from [Object.prototype].) *)
Theorem saveDocument_leaves_the_others (document : Document) (i : string)
    (projectId : option string) (w : World) :
  storageAvailable w -> plainKey projectId = true -> d_id document = Some i -> i <> "" ->
  let w' := finalState (StorageManager.saveDocument document projectId w) in
  withoutId i (storedDocuments w') = withoutId i (storedDocuments w)
  /\ (forall j, j <> i ->
        List.find (hasId j) (storedDocuments w') = List.find (hasId j) (storedDocuments w))
  /\ length (storedDocuments w')
     = match oldRecord i w with
       | Some _ => length (storedDocuments w)
       | None => S (length (storedDocuments w))
       end
  /\ ai_elearning_chats (localStorage w') = ai_elearning_chats (localStorage w)
  /\ ai_elearning_files (localStorage w') = ai_elearning_files (localStorage w)
  /\ ai_elearning_settings (localStorage w') = ai_elearning_settings (localStorage w).
Proof.
  intros Hq Hplain Hid Hi w'.
  destruct (saveDocument_with_id document i projectId w Hq (plainKey_usable _ _ Hplain) Hid Hi)
    as (n & v & Es & _ & _ & Hl & Hn & _).
  assert (Ew : w' = v) by (unfold w'; rewrite Es; reflexivity).
  assert (Hst : storedDocuments w' = upsertDocument (storedDocuments w) (Some i) n).
  { rewrite storedDocuments_eq, Ew, Hl. reflexivity. }
  rewrite Hst, Ew, Hl. unfold upsertDocument. fold (hasId i). conjs; try reflexivity.
  - unfold withoutId. fold (hasId i).
    apply (filter_upsert_other (fun doc => negb (hasId i doc))).
    + rewrite hasId_stringify, (hasId_self i n Hn). reflexivity.
    + intros x Hx. rewrite Hx, (hasId_spread i x n Hn). split; reflexivity.
  - intros j Hj. apply find_upsert_other.
    + unfold hasId. cbn [StorageManager.stringify d_id]. rewrite Hn. cbn.
      apply String.eqb_neq. congruence.
    + intros x Hx. unfold hasId in *. apply strictEq_eq in Hx. split.
      * rewrite Hx. cbn. apply String.eqb_neq. congruence.
      * cbn [StorageManager.stringify StorageManager.spread d_id].
        unfold StorageManager.pick. rewrite Hn. cbn. apply String.eqb_neq. congruence.
  - apply length_upsert.
Qed.

Lemma saveDocument_leaves_the_others_witness :
  let w := worldWithDocuments [exercise; solution] in
  let w' := finalState (StorageManager.saveDocument exercisePatch None w) in
  withoutId "E1" (storedDocuments w') = withoutId "E1" (storedDocuments w)
  /\ (forall j, j <> "E1" ->
        List.find (hasId j) (storedDocuments w') = List.find (hasId j) (storedDocuments w))
  /\ length (storedDocuments w')
     = match oldRecord "E1" w with
       | Some _ => length (storedDocuments w)
       | None => S (length (storedDocuments w))
       end
  /\ ai_elearning_chats (localStorage w') = ai_elearning_chats (localStorage w)
  /\ ai_elearning_files (localStorage w') = ai_elearning_files (localStorage w)
  /\ ai_elearning_settings (localStorage w') = ai_elearning_settings (localStorage w).
Proof.
  apply (saveDocument_leaves_the_others exercisePatch "E1" None
           (worldWithDocuments [exercise; solution])).
  - intros n. reflexivity.
  - reflexivity.
  - reflexivity.
  - discriminate.
Defined.

(** ** The ids of the documents collection stay distinct *)

Lemma ids_upsert l i n :
  d_id n = Some i ->
  map d_id (upsertDocument l (Some i) n)
  = match List.find (hasId i) l with
    | Some _ => map d_id l
    | None => map d_id l ++ [Some i]
    end.
Proof.
  intros Hn. unfold upsertDocument. fold (hasId i).
  induction l as [|x l IH]; [cbn; rewrite Hn; reflexivity|].
  rewrite upsert_cons. cbn [List.find]. destruct (hasId i x) eqn:Ex.
  - cbn. unfold StorageManager.pick. rewrite Hn.
    unfold hasId in Ex. apply strictEq_eq in Ex. rewrite Ex. reflexivity.
  - cbn [map]. rewrite IH. destruct (List.find (hasId i) l); reflexivity.
Qed.

Lemma find_hasId_None i l :
  List.find (hasId i) l = None -> ~ In (Some i) (map d_id l).
Proof.
  intros Hf Hin. apply in_map_iff in Hin. destruct Hin as (x & Hx & Hin).
  pose proof (find_none _ _ Hf x Hin) as H. unfold hasId in H.
  rewrite Hx in H. cbn in H. rewrite String.eqb_refl in H. discriminate.
Qed.

Lemma NoDup_ids_filter (g : Document -> bool) l :
  List.NoDup (map d_id l) -> List.NoDup (map d_id (List.filter g l)).
Proof.
  induction l as [|x l IH]; intros H; [constructor|].
  cbn in H. apply List.NoDup_cons_iff in H. destruct H as [Hx Hl].
  cbn. destruct (g x); [|apply IH, Hl].
  cbn. apply List.NoDup_cons_iff. split; [|apply IH, Hl].
  intros Hin. apply Hx. apply in_map_iff in Hin. destruct Hin as (y & Hy & Hin).
  apply in_map_iff. exists y. split; [exact Hy|]. apply filter_In in Hin. tauto.
Qed.

(** X5.  Distinct ids stay distinct: when no two stored documents share
    an id, the same holds after a successful save of a document object
    that carries an id, and after a delete. *)
Theorem documents_ids_stay_distinct (document : Document) (i id : string)
    (projectId : option string) (w : World) :
  storageAvailable w -> d_id document = Some i -> i <> "" ->
  List.NoDup (map d_id (storedDocuments w)) ->
  List.NoDup (map d_id (storedDocuments
                          (finalState (StorageManager.saveDocument document projectId w))))
  /\ List.NoDup (map d_id (storedDocuments
                             (finalState (StorageManager.deleteDocument id projectId w)))).
Proof.
  intros Hq Hid Hi Hnd. destruct (usable_or_not projectId w) as [Hu | Hu]; split.
  - destruct (saveDocument_with_id document i projectId w Hq Hu Hid Hi)
      as (n & v & Es & _ & _ & Hl & Hn & _).
    rewrite Es. cbn [finalState]. rewrite storedDocuments_eq, Hl. cbn.
    rewrite (ids_upsert _ i n Hn).
    destruct (List.find (hasId i) (storedDocuments w)) eqn:Ef; [exact Hnd|].
    apply List.NoDup_app; conjs.
    + exact Hnd.
    + constructor; [intros [] | constructor].
    + intros a Ha [<- | []]. exact (find_hasId_None i _ Ef Ha).
  - destruct (deleteDocument_run id projectId w Hq Hu) as (v & E & _ & _ & Hl).
    rewrite E. cbn [finalState]. rewrite storedDocuments_eq, Hl. cbn.
    apply NoDup_ids_filter, Hnd.
  - destruct (saveDocument_throws document projectId w Hu) as (v & E & _ & Hl).
    rewrite E. cbn [finalState]. rewrite storedDocuments_eq, Hl, <- storedDocuments_eq.
    exact Hnd.
  - destruct (deleteDocument_throws id projectId w Hq Hu) as (v & E & _ & Hl).
    rewrite E. cbn [finalState]. rewrite storedDocuments_eq, Hl. cbn.
    apply NoDup_ids_filter, Hnd.
Qed.

Lemma documents_ids_stay_distinct_witness :
  let w := worldWithDocuments [exercise; solution] in
  List.NoDup (map d_id (storedDocuments
                          (finalState (StorageManager.saveDocument exercisePatch None w))))
  /\ List.NoDup (map d_id (storedDocuments
                             (finalState (StorageManager.deleteDocument "L1" None w)))).
Proof.
  apply (documents_ids_stay_distinct exercisePatch "E1" "L1" None
           (worldWithDocuments [exercise; solution])).
  - intros n. reflexivity.
  - reflexivity.
  - discriminate.
  - vm_compute. repeat constructor; cbn; intuition discriminate.
Defined.

(** ** Reading a document before and after the bootstrap *)

(** X6.  On a store whose documents key was never written [getDocument]
    throws a TypeError ([getDocuments] answers null, which has no [find]);
    once [initializeStorage] has run, the storage taking the writes, it
    returns undefined. *)
Theorem getDocument_needs_the_bootstrap (id : string) (w : World) :
  storageAvailable w -> neverWritten Documents w = true ->
  StorageManager.getDocument id w = Throws TypeError w
  /\ StorageManager.getDocument id (afterBootstrap w) = Returns None (afterBootstrap w).
Proof.
  intros Hq Hnew. split.
  - unfold StorageManager.getDocument.
    rewrite (bind_Returns _ _ _ _ _ (getDocuments_run w)).
    cbn in Hnew. destruct (ai_elearning_documents (localStorage w)); try discriminate.
    reflexivity.
  - unfold afterBootstrap.
    destruct (initializeStorage_run w Hq) as (w' & E & L). rewrite E. cbn [finalState].
    apply getDocument_Text with (l := []). rewrite L. cbn in Hnew |- *.
    destruct (ai_elearning_documents (localStorage w)); try discriminate. reflexivity.
Qed.

Lemma getDocument_needs_the_bootstrap_witness :
  StorageManager.getDocument "E1" freshWorld = Throws TypeError freshWorld
  /\ StorageManager.getDocument "E1" (afterBootstrap freshWorld)
     = Returns None (afterBootstrap freshWorld).
Proof.
  apply (getDocument_needs_the_bootstrap "E1" freshWorld).
  - intros n. reflexivity.
  - reflexivity.
Defined.

(** ** The lib mirror under saves and deletes of documents *)

Lemma docMirror_In q k w :
  docMirror q k w = docMirrorIn (ai_elearning_lib (localStorage w)) q k.
Proof. apply docMirror_eq. Qed.

Lemma chatMirror_In q k w :
  chatMirror q k w = chatMirrorIn (ai_elearning_lib (localStorage w)) q k.
Proof. unfold chatMirror. rewrite libRoot_eq. reflexivity. Qed.

Lemma ensureProject_other root p q :
  q <> p -> StorageManager.ensureProject root p !! q = root !! q.
Proof.
  intros H. unfold StorageManager.ensureProject.
  destruct (StorageManager.member root p); try reflexivity.
  apply lookup_insert_ne. congruence.
Qed.

Lemma ensureProject_new root p :
  root !! p = None -> notInherited root p ->
  StorageManager.ensureProject root p !! p
  = Some {| p_name := p; p_docs := ∅; p_chats := ∅; p_files := ∅ |}.
Proof.
  unfold notInherited, StorageManager.ensureProject, StorageManager.member.
  intros E Hp. rewrite E in *. destruct (StorageManager.inherited p); [congruence|].
  apply lookup_insert_eq.
Qed.

Lemma docMirrorIn_after_same p n w :
  p <> "" -> notInherited (libRoot w) p ->
  StorageManager.keyOf (d_id n) <> "__proto__" ->
  docMirrorIn (libAfterDoc (Some p) n w) p (StorageManager.keyOf (d_id n))
  = Some (docEntry n).
Proof.
  intros Hp Hni Hk. unfold libAfterDoc, docMirrorIn. apply String.eqb_neq in Hp. rewrite Hp.
  unfold readLib.
  destruct (ensureProject_lookup (libRoot w) p Hni) as (proj & E & _).
  rewrite lookup_alter_eq, E. cbn. apply lookup_setMember. left. exact Hk.
Qed.

Lemma docMirrorIn_after_other proj n w q k :
  usable proj w ->
  proj <> Some q \/ k <> StorageManager.keyOf (d_id n) ->
  docMirrorIn (libAfterDoc proj n w) q k = docMirror q k w.
Proof.
  intros Hu Hne. rewrite docMirror_In. unfold libAfterDoc, docMirrorIn.
  destruct proj as [p|]; [|reflexivity].
  destruct (String.eqb p "") eqn:Ep; [reflexivity|].
  specialize (Hu p eq_refl (proj1 (String.eqb_neq _ _) Ep)).
  rewrite <- libRoot_eq. unfold readLib.
  destruct (decide (q = p)) as [->|Hq].
  - destruct Hne as [Hne|Hne]; [congruence|].
    rewrite lookup_alter_eq.
    destruct (ensureProject_lookup (libRoot w) p Hu) as (proj & E & Hold).
    rewrite E. cbn. rewrite lookup_setMember_ne by congruence.
    destruct (libRoot w !! p) as [old|] eqn:Eo.
    + rewrite (Hold old eq_refl). reflexivity.
    + rewrite (ensureProject_new _ _ Eo Hu) in E. injection E as <-. reflexivity.
  - rewrite lookup_alter_ne by congruence. rewrite ensureProject_other by exact Hq.
    reflexivity.
Qed.

Lemma chatMirrorIn_after_doc proj n w q k :
  usable proj w ->
  chatMirrorIn (libAfterDoc proj n w) q k = chatMirror q k w.
Proof.
  intros Hu. rewrite chatMirror_In. unfold libAfterDoc, chatMirrorIn.
  destruct proj as [p|]; [|reflexivity].
  destruct (String.eqb p "") eqn:Ep; [reflexivity|].
  specialize (Hu p eq_refl (proj1 (String.eqb_neq _ _) Ep)).
  rewrite <- libRoot_eq. unfold readLib.
  destruct (decide (q = p)) as [->|Hq].
  - rewrite lookup_alter_eq.
    destruct (ensureProject_lookup (libRoot w) p Hu) as (proj & E & Hold).
    rewrite E. cbn.
    destruct (libRoot w !! p) as [old|] eqn:Eo.
    + rewrite (Hold old eq_refl). reflexivity.
    + rewrite (ensureProject_new _ _ Eo Hu) in E. injection E as <-. reflexivity.
  - rewrite lookup_alter_ne by congruence. rewrite ensureProject_other by exact Hq.
    reflexivity.
Qed.

Lemma docMirrorIn_without_same p id w :
  p <> "" -> docMirrorIn (libWithoutDoc (Some p) id w) p id = None.
Proof.
  intros Hp. unfold libWithoutDoc. apply String.eqb_neq in Hp. rewrite Hp.
  destruct (docMirror p id w) eqn:E.
  - unfold docMirrorIn, readLib. rewrite lookup_alter_eq.
    destruct (libRoot w !! p); [cbn; apply lookup_delete_eq | reflexivity].
  - rewrite <- docMirror_In. exact E.
Qed.

Lemma docMirrorIn_without_other proj id w q k :
  proj <> Some q \/ k <> id ->
  docMirrorIn (libWithoutDoc proj id w) q k = docMirror q k w.
Proof.
  intros Hne. rewrite docMirror_In. unfold libWithoutDoc.
  destruct proj as [p|]; [|reflexivity].
  destruct (String.eqb p ""); [reflexivity|].
  destruct (docMirror p id w); [|reflexivity].
  unfold docMirrorIn. rewrite <- libRoot_eq. unfold readLib.
  destruct (decide (q = p)) as [->|Hq].
  - destruct Hne as [Hne|Hne]; [congruence|].
    rewrite lookup_alter_eq. destruct (libRoot w !! p); [|reflexivity].
    cbn. apply lookup_delete_ne. congruence.
  - rewrite lookup_alter_ne by congruence. reflexivity.
Qed.

Lemma chatMirrorIn_without_doc proj id w q k :
  chatMirrorIn (libWithoutDoc proj id w) q k = chatMirror q k w.
Proof.
  rewrite chatMirror_In. unfold libWithoutDoc.
  destruct proj as [p|]; [|reflexivity].
  destruct (String.eqb p ""); [reflexivity|].
  destruct (docMirror p id w); [|reflexivity].
  unfold chatMirrorIn. rewrite <- libRoot_eq. unfold readLib.
  destruct (decide (q = p)) as [->|Hq].
  - rewrite lookup_alter_eq. destruct (libRoot w !! p); reflexivity.
  - rewrite lookup_alter_ne by congruence. reflexivity.
Qed.

(** X7.  A document saved under a project and then deleted with the same
    project id is gone from the collection and from the mirror of that
    project; the project itself stays in the lib, and every other mirror
    entry, of a document or of a chat, is as the save left it.  (The
    storage takes the writes, the project id is no name inherited from
    [Object.prototype], and the document id is not [__proto__].) *)
Theorem deleteDocument_drops_the_mirror (document : Document) (i p : string)
    (w : World) :
  storageAvailable w -> d_id document = Some i -> i <> "" -> i <> "__proto__" ->
  p <> "" -> StorageManager.inherited p = false ->
  let w1 := finalState (StorageManager.saveDocument document (Some p) w) in
  let w2 := finalState (StorageManager.deleteDocument i (Some p) w1) in
  is_Some (docMirror p i w1)
  /\ docMirror p i w2 = None
  /\ oldRecord i w2 = None
  /\ is_Some (libRoot w2 !! p)
  /\ (forall q k, q <> p \/ k <> i -> docMirror q k w2 = docMirror q k w1)
  /\ (forall q k, chatMirror q k w2 = chatMirror q k w1).
Proof.
  intros Hq Hid Hi Hproto Hp Hplain w1 w2.
  pose proof (plainKey_Some p Hplain) as Hkey.
  destruct (saveDocument_with_id document i (Some p) w Hq (plainKey_usable _ _ Hkey) Hid Hi)
    as (n & v1 & Es & He1 & _ & Hl1 & Hn & _).
  assert (E1 : w1 = v1) by (unfold w1; rewrite Es; reflexivity).
  assert (HL1 : ai_elearning_lib (localStorage w1) = libAfterDoc (Some p) n w)
    by (rewrite E1, Hl1; reflexivity).
  assert (Hq1 : storageAvailable w1) by (rewrite E1; intros j; rewrite He1; apply Hq).
  destruct (deleteDocument_run i (Some p) w1 Hq1 (plainKey_usable _ _ Hkey))
    as (v2 & Ed & _ & _ & Hl2).
  assert (E2 : w2 = v2) by (unfold w2; rewrite Ed; reflexivity).
  assert (HL2 : ai_elearning_lib (localStorage w2) = libWithoutDoc (Some p) i w1)
    by (rewrite E2, Hl2; reflexivity).
  assert (Hm1 : docMirror p i w1 = Some (docEntry n)).
  { rewrite docMirror_In, HL1.
    pose proof (docMirrorIn_after_same p n w Hp (member_plain _ _ Hplain)) as H.
    rewrite Hn in H. apply H. exact Hproto. }
  conjs.
  - rewrite Hm1. eexists. reflexivity.
  - rewrite docMirror_In, HL2. apply docMirrorIn_without_same, Hp.
  - unfold oldRecord. rewrite storedDocuments_eq, E2, Hl2. cbn.
    apply find_absent. intros x Hx. apply filter_In in Hx. destruct Hx as [_ Hx].
    apply negb_true_iff in Hx. exact Hx.
  - rewrite libRoot_eq, HL2. unfold libWithoutDoc.
    apply String.eqb_neq in Hp. rewrite Hp, Hm1. unfold readLib.
    rewrite lookup_alter_eq.
    unfold docMirror in Hm1. destruct (libRoot w1 !! p); [eexists; reflexivity | discriminate].
  - intros q k Hne. rewrite docMirror_In, HL2.
    apply docMirrorIn_without_other. destruct Hne; [left; congruence | right; assumption].
  - intros q k. rewrite chatMirror_In, HL2. apply chatMirrorIn_without_doc.
Qed.

Lemma deleteDocument_drops_the_mirror_witness :
  let w1 := finalState (StorageManager.saveDocument introDoc (Some "biology") freshWorld) in
  let w2 := finalState (StorageManager.deleteDocument "D7" (Some "biology") w1) in
  is_Some (docMirror "biology" "D7" w1)
  /\ docMirror "biology" "D7" w2 = None
  /\ oldRecord "D7" w2 = None
  /\ is_Some (libRoot w2 !! "biology")
  /\ (forall q k, q <> "biology" \/ k <> "D7" -> docMirror q k w2 = docMirror q k w1)
  /\ (forall q k, chatMirror q k w2 = chatMirror q k w1).
Proof.
  apply (deleteDocument_drops_the_mirror introDoc "D7" "biology" freshWorld).
  - intros n. reflexivity.
  - reflexivity.
  - discriminate.
  - discriminate.
  - discriminate.
  - reflexivity.
Defined.

(** X8.  [deleteDocument] called with another project id than the one
    the document was saved under, or with none, takes the record out of
    the collection and leaves its mirror entry in the lib.  (The storage
    takes the writes, the project id of the save and the one of the
    delete are no names inherited from [Object.prototype], and the
    document id is not [__proto__].) *)
Theorem deleteDocument_elsewhere_keeps_the_mirror (document : Document) (i p : string)
    (other : option string) (w : World) :
  storageAvailable w -> d_id document = Some i -> i <> "" -> i <> "__proto__" ->
  p <> "" -> StorageManager.inherited p = false ->
  other <> Some p -> plainKey other = true ->
  let w1 := finalState (StorageManager.saveDocument document (Some p) w) in
  let w2 := finalState (StorageManager.deleteDocument i other w1) in
  oldRecord i w2 = None
  /\ is_Some (docMirror p i w2)
  /\ docMirror p i w2 = docMirror p i w1.
Proof.
  intros Hq Hid Hi Hproto Hp Hplain Hother Hplain' w1 w2.
  pose proof (plainKey_Some p Hplain) as Hkey.
  destruct (saveDocument_with_id document i (Some p) w Hq (plainKey_usable _ _ Hkey) Hid Hi)
    as (n & v1 & Es & He1 & _ & Hl1 & Hn & _).
  assert (E1 : w1 = v1) by (unfold w1; rewrite Es; reflexivity).
  assert (HL1 : ai_elearning_lib (localStorage w1) = libAfterDoc (Some p) n w)
    by (rewrite E1, Hl1; reflexivity).
  assert (Hq1 : storageAvailable w1) by (rewrite E1; intros j; rewrite He1; apply Hq).
  destruct (deleteDocument_run i other w1 Hq1 (plainKey_usable _ _ Hplain'))
    as (v2 & Ed & _ & _ & Hl2).
  assert (E2 : w2 = v2) by (unfold w2; rewrite Ed; reflexivity).
  assert (HL2 : ai_elearning_lib (localStorage w2) = libWithoutDoc other i w1)
    by (rewrite E2, Hl2; reflexivity).
  assert (Hm1 : docMirror p i w1 = Some (docEntry n)).
  { rewrite docMirror_In, HL1.
    pose proof (docMirrorIn_after_same p n w Hp (member_plain _ _ Hplain)) as H.
    rewrite Hn in H. apply H. exact Hproto. }
  assert (Hm2 : docMirror p i w2 = docMirror p i w1).
  { rewrite (docMirror_In p i w2), HL2.
    apply docMirrorIn_without_other. left. exact Hother. }
  conjs.
  - unfold oldRecord. rewrite storedDocuments_eq, E2, Hl2. cbn.
    apply find_absent. intros x Hx. apply filter_In in Hx. destruct Hx as [_ Hx].
    apply negb_true_iff in Hx. exact Hx.
  - rewrite Hm2, Hm1. eexists. reflexivity.
  - exact Hm2.
Qed.

Lemma deleteDocument_elsewhere_keeps_the_mirror_witness :
  let w1 := finalState (StorageManager.saveDocument introDoc (Some "biology") freshWorld) in
  let w2 := finalState (StorageManager.deleteDocument "D7" None w1) in
  oldRecord "D7" w2 = None
  /\ is_Some (docMirror "biology" "D7" w2)
  /\ docMirror "biology" "D7" w2 = docMirror "biology" "D7" w1.
Proof.
  apply (deleteDocument_elsewhere_keeps_the_mirror introDoc "D7" "biology" None freshWorld).
  - intros n. reflexivity.
  - reflexivity.
  - discriminate.
  - discriminate.
  - discriminate.
  - reflexivity.
  - discriminate.
  - reflexivity.
Defined.

(** X9.  A successful save of a document under a project writes one
    mirror entry: every entry of another project or of another document,
    and every chat entry, is as before. *)
Theorem saveDocument_mirror_frame (document : Document) (i : string)
    (projectId : option string) (w : World) :
  storageAvailable w -> d_id document = Some i -> i <> "" ->
  let w' := finalState (StorageManager.saveDocument document projectId w) in
  (forall q k, projectId <> Some q \/ k <> i -> docMirror q k w' = docMirror q k w)
  /\ (forall q k, chatMirror q k w' = chatMirror q k w).
Proof.
  intros Hq Hid Hi w'. destruct (usable_or_not projectId w) as [Hu | Hu].
  - destruct (saveDocument_with_id document i projectId w Hq Hu Hid Hi)
      as (n & v1 & Es & _ & _ & Hl1 & Hn & _).
    assert (E1 : w' = v1) by (unfold w'; rewrite Es; reflexivity).
    assert (HL1 : ai_elearning_lib (localStorage w') = libAfterDoc projectId n w)
      by (rewrite E1, Hl1; reflexivity).
    split; intros q k.
    + intros Hne. rewrite docMirror_In, HL1.
      apply docMirrorIn_after_other; [exact Hu | rewrite Hn; exact Hne].
    + rewrite chatMirror_In, HL1. apply chatMirrorIn_after_doc, Hu.
  - destruct (saveDocument_throws document projectId w Hu) as (v & E & _ & Hl).
    assert (E1 : w' = v) by (unfold w'; rewrite E; reflexivity).
    split; intros q k; [intros _|];
      rewrite ?docMirror_In, ?chatMirror_In, E1, Hl; reflexivity.
Qed.

Lemma saveDocument_mirror_frame_witness :
  let w := finalState (StorageManager.saveChatSession S1 None freshWorld) in
  let w' := finalState (StorageManager.saveDocument introDoc (Some "biology") w) in
  (forall q k, Some "biology" <> Some q \/ k <> "D7" -> docMirror q k w' = docMirror q k w)
  /\ (forall q k, chatMirror q k w' = chatMirror q k w).
Proof.
  apply (saveDocument_mirror_frame introDoc "D7" (Some "biology")
           (finalState (StorageManager.saveChatSession S1 None freshWorld))).
  - intros n. reflexivity.
  - reflexivity.
  - discriminate.
Defined.

(** ** Clearing, exporting and restoring the store *)

Lemma keepsEnv_ret {A} (a : A) : keepsEnv (ret a).
Proof. intros w. reflexivity. Qed.

Lemma keepsEnv_throw {A} e : keepsEnv (@throw World A e).
Proof. intros w. reflexivity. Qed.

Lemma keepsEnv_bind {A B} (c : M World A) (k : A -> M World B) :
  keepsEnv c -> (forall a, keepsEnv (k a)) -> keepsEnv (bind c k).
Proof.
  intros Hc Hk w. unfold bind. specialize (Hc w).
  destruct (c w) as [a w1|e w1]; cbn in *.
  - rewrite (Hk a w1). exact Hc.
  - exact Hc.
Qed.

Lemma keepsEnv_tryCatch {A} (c h : M World A) :
  keepsEnv c -> keepsEnv h -> keepsEnv (tryCatch c h).
Proof.
  intros Hc Hh w. unfold tryCatch. specialize (Hc w).
  destruct (c w) as [a w1|e w1]; cbn in *.
  - exact Hc.
  - rewrite (Hh w1). exact Hc.
Qed.

Lemma keepsEnv_gets {A} (f : World -> A) : keepsEnv (gets f).
Proof. intros w. reflexivity. Qed.

Lemma keepsEnv_setItem put : keepsEnv (setItem put).
Proof. intros w. unfold setItem. destruct (quotaOk (env w) (writes w)); reflexivity. Qed.

Lemma keepsEnv_removeItem drop : keepsEnv (StorageManager.removeItem drop).
Proof. intros w. reflexivity. Qed.

Lemma keepsEnv_now : keepsEnv now.
Proof. intros w. reflexivity. Qed.

Lemma keepsEnv_parseOrNull {A} (raw : Item A) : keepsEnv (parseOrNull raw).
Proof. intros w. destruct raw; reflexivity. Qed.

Lemma keepsEnv_unlessPresent {A B} (x : option A) (seed : M World B) :
  keepsEnv seed -> keepsEnv (StorageManager.unlessPresent x seed).
Proof.
  intros H. destruct x; cbn.
  - apply keepsEnv_ret.
  - apply keepsEnv_bind; [exact H | intros; apply keepsEnv_ret].
Qed.

Lemma keepsEnv_whenPresent {A B} (x : option A) (save : A -> M World B) :
  (forall a, keepsEnv (save a)) -> keepsEnv (StorageManager.whenPresent x save).
Proof.
  intros H. destruct x; cbn.
  - apply keepsEnv_bind; [apply H | intros; apply keepsEnv_ret].
  - apply keepsEnv_ret.
Qed.

(** Takes a method apart along its binds and handlers. *)
Ltac keeps_env :=
  repeat first
    [ apply keepsEnv_ret | apply keepsEnv_throw | apply keepsEnv_gets
    | apply keepsEnv_setItem | apply keepsEnv_removeItem | apply keepsEnv_now
    | apply keepsEnv_parseOrNull
    | apply keepsEnv_tryCatch
    | apply keepsEnv_unlessPresent | apply keepsEnv_whenPresent; intros ?
    | apply keepsEnv_bind; [|intros ?]
    | match goal with |- keepsEnv (match ?x with _ => _ end) => destruct x end ].

Lemma keepsEnv_getDocuments : keepsEnv StorageManager.getDocuments.
Proof. unfold StorageManager.getDocuments. keeps_env. Qed.

Lemma keepsEnv_getChats : keepsEnv StorageManager.getChats.
Proof. unfold StorageManager.getChats. keeps_env. Qed.

Lemma keepsEnv_getUploadedFiles : keepsEnv StorageManager.getUploadedFiles.
Proof. unfold StorageManager.getUploadedFiles. keeps_env. Qed.

Lemma keepsEnv_getSettings : keepsEnv StorageManager.getSettings.
Proof. unfold StorageManager.getSettings. keeps_env. Qed.

Lemma keepsEnv_saveDocuments l : keepsEnv (StorageManager.saveDocuments l).
Proof. unfold StorageManager.saveDocuments. keeps_env. Qed.

Lemma keepsEnv_saveChats l : keepsEnv (StorageManager.saveChats l).
Proof. unfold StorageManager.saveChats. keeps_env. Qed.

Lemma keepsEnv_saveUploadedFiles l : keepsEnv (StorageManager.saveUploadedFiles l).
Proof. unfold StorageManager.saveUploadedFiles. keeps_env. Qed.

Lemma keepsEnv_saveSettings s : keepsEnv (StorageManager.saveSettings s).
Proof. unfold StorageManager.saveSettings. keeps_env. Qed.

Lemma keepsEnv_initializeStorage : keepsEnv StorageManager.initializeStorage.
Proof.
  unfold StorageManager.initializeStorage.
  repeat first
    [ apply keepsEnv_getDocuments | apply keepsEnv_getChats
    | apply keepsEnv_getUploadedFiles | apply keepsEnv_getSettings
    | apply keepsEnv_saveDocuments | apply keepsEnv_saveChats
    | apply keepsEnv_saveUploadedFiles | apply keepsEnv_saveSettings
    | progress keeps_env ].
Qed.

Lemma keepsEnv_saveAll data : keepsEnv (StorageManager.saveAll data).
Proof.
  unfold StorageManager.saveAll.
  repeat first
    [ apply keepsEnv_saveDocuments | apply keepsEnv_saveChats
    | apply keepsEnv_saveUploadedFiles | apply keepsEnv_saveSettings
    | progress keeps_env ].
Qed.

Lemma keepsEnv_Returns {A} (c : M World A) w a w' :
  keepsEnv c -> c w = Returns a w' -> env w' = env w.
Proof. intros H E. specialize (H w). rewrite E in H. exact H. Qed.

Lemma storageAvailable_env w w' :
  env w' = env w -> storageAvailable w -> storageAvailable w'.
Proof. intros E H n. rewrite E. apply H. Qed.

Lemma storageFull_env w w' :
  env w' = env w -> storageFull w -> storageFull w'.
Proof. intros E H n. rewrite E. apply H. Qed.

Lemma clearAllData_run w :
  storageAvailable w ->
  exists w', StorageManager.clearAllData w = Returns true w'
             /\ env w' = env w
             /\ localStorage w' = bootstrapped (cleared (localStorage w)).
Proof.
  intros Hq.
  destruct (initializeStorage_run (withStorage cleared w) Hq) as (w' & E & L).
  exists w'. conjs.
  - unfold StorageManager.clearAllData, tryCatch, bind, StorageManager.removeItem, modify.
    change (StorageManager.initializeStorage (withStorage cleared w)) with
      (StorageManager.initializeStorage
         (withStorage (StorageManager.setSettings Absent)
            (withStorage (StorageManager.setFiles Absent)
               (withStorage (StorageManager.setChats Absent)
                  (withStorage (StorageManager.setDocuments Absent) w))))) in E.
    rewrite E. reflexivity.
  - apply (keepsEnv_Returns _ _ _ _ keepsEnv_initializeStorage E).
  - exact L.
Qed.

Lemma whenPresent_step {A B} (x : option A) (save : A -> M World B)
    (put : A -> LocalStorage -> LocalStorage) (w : World) :
  storageAvailable w ->
  (forall a w0, storageAvailable w0 -> exists b, save a w0 = Returns b (wrote (put a) w0)) ->
  exists w', StorageManager.whenPresent x save w = Returns tt w'
             /\ storageAvailable w'
             /\ localStorage w'
                = match x with Some a => put a (localStorage w) | None => localStorage w end.
Proof.
  intros Hq Hsave. destruct x as [a|]; cbn.
  - destruct (Hsave a w Hq) as [b Hb]. exists (wrote (put a) w).
    rewrite (bind_Returns _ _ _ _ _ Hb). auto using storageAvailable_wrote.
  - exists w. auto.
Qed.

Lemma saveAll_run data w :
  storageAvailable w ->
  exists w', StorageManager.saveAll data w = Returns tt w'
             /\ storageAvailable w'
             /\ localStorage w' = restored data (localStorage w).
Proof.
  intros Hq. unfold StorageManager.saveAll.
  destruct (whenPresent_step (x_documents data) StorageManager.saveDocuments
              (fun l => StorageManager.setDocuments (Text l)) w Hq) as (w1 & E1 & Hq1 & L1).
  { intros a w0 H0. eexists. apply saveDocuments_run, H0. }
  rewrite (bind_Returns _ _ _ _ _ E1).
  destruct (whenPresent_step (x_chats data) StorageManager.saveChats
              (fun l => StorageManager.setChats (Text l)) w1 Hq1) as (w2 & E2 & Hq2 & L2).
  { intros a w0 H0. eexists. apply saveChats_run, H0. }
  rewrite (bind_Returns _ _ _ _ _ E2).
  destruct (whenPresent_step (x_uploadedFiles data) StorageManager.saveUploadedFiles
              (fun l => StorageManager.setFiles (Text l)) w2 Hq2) as (w3 & E3 & Hq3 & L3).
  { intros a w0 H0. eexists. apply saveUploadedFiles_run, H0. }
  rewrite (bind_Returns _ _ _ _ _ E3).
  destruct (whenPresent_step (x_settings data) StorageManager.saveSettings
              (fun s => StorageManager.setSettings (Text s)) w3 Hq3) as (w4 & E4 & Hq4 & L4).
  { intros a w0 H0. eexists. apply saveSettings_run, H0. }
  exists w4. conjs; [exact E4 | exact Hq4 |].
  rewrite L4, L3, L2, L1. unfold restored, overwritten.
  destruct (localStorage w), data as [[?|] [?|] [?|] [?|]]; reflexivity.
Qed.

Lemma whenPresent_full {A} (x : option A) (save : A -> M World bool) (w : World) :
  storageFull w ->
  (forall a w0, storageFull w0 -> save a w0 = Returns false (refused w0)) ->
  exists w', StorageManager.whenPresent x save w = Returns tt w'
             /\ storageFull w' /\ localStorage w' = localStorage w.
Proof.
  intros Hf Hsave. destruct x as [a|]; cbn.
  - exists (refused w). rewrite (bind_Returns _ _ _ _ _ (Hsave a w Hf)).
    conjs; [reflexivity | exact Hf | reflexivity].
  - exists w. auto.
Qed.

Lemma unlessPresent_full {A} (x : option A) (seed : M World bool) (w : World) :
  storageFull w ->
  (forall w0, storageFull w0 -> seed w0 = Returns false (refused w0)) ->
  exists w', StorageManager.unlessPresent x seed w = Returns tt w'
             /\ storageFull w' /\ localStorage w' = localStorage w.
Proof.
  intros Hf Hseed. destruct x as [a|]; cbn.
  - exists w. auto.
  - exists (refused w). rewrite (bind_Returns _ _ _ _ _ (Hseed w Hf)).
    conjs; [reflexivity | exact Hf | reflexivity].
Qed.

Lemma setItem_full put w :
  storageFull w -> setItem put w = Throws QuotaExceededError (refused w).
Proof. intros Hf. unfold setItem. rewrite Hf. reflexivity. Qed.

Lemma saveDocuments_full l w :
  storageFull w -> StorageManager.saveDocuments l w = Returns false (refused w).
Proof.
  intros Hf. unfold StorageManager.saveDocuments, tryCatch, bind.
  rewrite (setItem_full _ _ Hf). reflexivity.
Qed.

Lemma saveChats_full l w :
  storageFull w -> StorageManager.saveChats l w = Returns false (refused w).
Proof.
  intros Hf. unfold StorageManager.saveChats, tryCatch, bind.
  rewrite (setItem_full _ _ Hf). reflexivity.
Qed.

Lemma saveUploadedFiles_full l w :
  storageFull w -> StorageManager.saveUploadedFiles l w = Returns false (refused w).
Proof.
  intros Hf. unfold StorageManager.saveUploadedFiles, tryCatch, bind.
  rewrite (setItem_full _ _ Hf). reflexivity.
Qed.

Lemma saveSettings_full s w :
  storageFull w -> StorageManager.saveSettings s w = Returns false (refused w).
Proof.
  intros Hf. unfold StorageManager.saveSettings, tryCatch, bind.
  rewrite (setItem_full _ _ Hf). reflexivity.
Qed.

Lemma saveAll_full data w :
  storageFull w ->
  exists w', StorageManager.saveAll data w = Returns tt w'
             /\ localStorage w' = localStorage w.
Proof.
  intros Hf. unfold StorageManager.saveAll.
  destruct (whenPresent_full (x_documents data) StorageManager.saveDocuments w Hf)
    as (w1 & E1 & Hf1 & L1).
  { intros a w0 H0. apply saveDocuments_full, H0. }
  rewrite (bind_Returns _ _ _ _ _ E1).
  destruct (whenPresent_full (x_chats data) StorageManager.saveChats w1 Hf1)
    as (w2 & E2 & Hf2 & L2).
  { intros a w0 H0. apply saveChats_full, H0. }
  rewrite (bind_Returns _ _ _ _ _ E2).
  destruct (whenPresent_full (x_uploadedFiles data) StorageManager.saveUploadedFiles w2 Hf2)
    as (w3 & E3 & Hf3 & L3).
  { intros a w0 H0. apply saveUploadedFiles_full, H0. }
  rewrite (bind_Returns _ _ _ _ _ E3).
  destruct (whenPresent_full (x_settings data) StorageManager.saveSettings w3 Hf3)
    as (w4 & E4 & Hf4 & L4).
  { intros a w0 H0. apply saveSettings_full, H0. }
  exists w4. split; [exact E4|]. congruence.
Qed.

Lemma initializeStorage_full w :
  storageFull w ->
  exists w', StorageManager.initializeStorage w
             = match ai_elearning_lib (localStorage w) with
               | Absent | EmptyText => Throws QuotaExceededError w'
               | _ => Returns tt w'
               end
             /\ localStorage w' = localStorage w.
Proof.
  intros Hf. unfold StorageManager.initializeStorage.
  rewrite (bind_Returns _ _ _ _ _ (getDocuments_run w)).
  destruct (unlessPresent_full (readList (ai_elearning_documents (localStorage w)))
              (StorageManager.saveDocuments []) w Hf) as (w1 & E1 & Hf1 & L1).
  { intros w0 H0. apply saveDocuments_full, H0. }
  rewrite (bind_Returns _ _ _ _ _ E1).
  rewrite (bind_Returns _ _ _ _ _ (getChats_run w1)).
  destruct (unlessPresent_full (readList (ai_elearning_chats (localStorage w1)))
              (StorageManager.saveChats []) w1 Hf1) as (w2 & E2 & Hf2 & L2).
  { intros w0 H0. apply saveChats_full, H0. }
  rewrite (bind_Returns _ _ _ _ _ E2).
  rewrite (bind_Returns _ _ _ _ _ (getUploadedFiles_run w2)).
  destruct (unlessPresent_full (readList (ai_elearning_files (localStorage w2)))
              (StorageManager.saveUploadedFiles []) w2 Hf2) as (w3 & E3 & Hf3 & L3).
  { intros w0 H0. apply saveUploadedFiles_full, H0. }
  rewrite (bind_Returns _ _ _ _ _ E3).
  rewrite (bind_Returns _ _ _ _ _ (getSettings_run w3)).
  destruct (unlessPresent_full (readSettings (ai_elearning_settings (localStorage w3)))
              (StorageManager.saveSettings StorageManager.defaultSettings) w3 Hf3)
    as (w4 & E4 & Hf4 & L4).
  { intros w0 H0. apply saveSettings_full, H0. }
  rewrite (bind_Returns _ _ _ _ _ E4).
  unfold bind at 1, gets.
  assert (L : localStorage w4 = localStorage w) by congruence.
  rewrite L.
  destruct (ai_elearning_lib (localStorage w)).
  - exists (refused w4). split; [apply setItem_full, Hf4 | exact L].
  - exists (refused w4). split; [apply setItem_full, Hf4 | exact L].
  - exists w4. split; [reflexivity | exact L].
  - exists w4. split; [reflexivity | exact L].
Qed.

Lemma exportData_run w :
  StorageManager.exportData w
  = Returns {| x_data := snapshot (localStorage w);
               x_exportedAt := clock (env w) (ticks w) |} (ticked w).
Proof.
  unfold StorageManager.exportData.
  rewrite (bind_Returns _ _ _ _ _ (getDocuments_run w)).
  rewrite (bind_Returns _ _ _ _ _ (getChats_run w)).
  rewrite (bind_Returns _ _ _ _ _ (getUploadedFiles_run w)).
  rewrite (bind_Returns _ _ _ _ _ (getSettings_run w)).
  reflexivity.
Qed.

Lemma createBackup_run w :
  StorageManager.createBackup w
  = Returns {| b_version := "1.0"; b_timestamp := clock (env w) (ticks w);
               b_data := Some (snapshot (localStorage w)) |} (ticked w).
Proof.
  unfold StorageManager.createBackup.
  assert (E : now w = Returns (clock (env w) (ticks w)) (ticked w)) by reflexivity.
  rewrite (bind_Returns _ _ _ _ _ E).
  rewrite (bind_Returns _ _ _ _ _ (getDocuments_run (ticked w))).
  rewrite (bind_Returns _ _ _ _ _ (getChats_run (ticked w))).
  rewrite (bind_Returns _ _ _ _ _ (getUploadedFiles_run (ticked w))).
  rewrite (bind_Returns _ _ _ _ _ (getSettings_run (ticked w))).
  reflexivity.
Qed.

Lemma storedFiles_eq w :
  storedFiles w = default [] (readList (ai_elearning_files (localStorage w))).
Proof. unfold storedFiles. rewrite getUploadedFiles_run. reflexivity. Qed.

Lemma storedSettings_eq w :
  storedSettings w = readSettings (ai_elearning_settings (localStorage w)).
Proof. unfold storedSettings. rewrite getSettings_run. reflexivity. Qed.

Lemma readList_seedList {A} (i : Item (list A)) :
  readList (seedList i) = Some (default [] (readList i)).
Proof. destruct i; reflexivity. Qed.

Lemma readList_overwritten {A} (x : option (list A)) i :
  readList (overwritten x i) = restoredRead x (readList i).
Proof. destruct x; reflexivity. Qed.

Lemma readSettings_overwritten x i :
  readSettings (overwritten x i) = restoredRead x (readSettings i).
Proof. destruct x; reflexivity. Qed.

(** X10.  [clearAllData] on a storage that takes the writes answers
    true and leaves the three lists empty and the settings at their
    defaults, whatever was stored; the lib mirror is not cleared: every
    project and every mirrored entry is still there. *)
Theorem clearAllData_keeps_the_lib (w : World) :
  storageAvailable w ->
  exists w', StorageManager.clearAllData w = Returns true w'
    /\ returned (StorageManager.getDocuments w') = Some (Some [])
    /\ returned (StorageManager.getChats w') = Some (Some [])
    /\ returned (StorageManager.getUploadedFiles w') = Some (Some [])
    /\ returned (StorageManager.getSettings w') = Some (Some StorageManager.defaultSettings)
    /\ libRoot w' = libRoot w.
Proof.
  intros Hq. destruct (clearAllData_run w Hq) as (w' & E & _ & L).
  exists w'. conjs.
  - exact E.
  - rewrite getDocuments_run, L. reflexivity.
  - rewrite getChats_run, L. reflexivity.
  - rewrite getUploadedFiles_run, L. reflexivity.
  - rewrite getSettings_run, L. reflexivity.
  - rewrite !libRoot_eq, L. cbn. destruct (ai_elearning_lib (localStorage w)); reflexivity.
Qed.

Lemma clearAllData_keeps_the_lib_witness :
  let w := finalState (StorageManager.saveDocument introDoc (Some "biology") freshWorld) in
  exists w', StorageManager.clearAllData w = Returns true w'
    /\ returned (StorageManager.getDocuments w') = Some (Some [])
    /\ returned (StorageManager.getChats w') = Some (Some [])
    /\ returned (StorageManager.getUploadedFiles w') = Some (Some [])
    /\ returned (StorageManager.getSettings w') = Some (Some StorageManager.defaultSettings)
    /\ libRoot w' = libRoot w.
Proof.
  apply (clearAllData_keeps_the_lib
           (finalState (StorageManager.saveDocument introDoc (Some "biology") freshWorld))).
  intros n. reflexivity.
Defined.

(** X11.  On a full storage [clearAllData] never throws; the four keys
    are removed and nothing is seeded again, so every read-all method
    answers null afterwards.  It answers true when the lib key holds
    text, and false when the lib key would have had to be seeded. *)
Theorem clearAllData_full_storage (w : World) :
  storageFull w ->
  exists w', StorageManager.clearAllData w
             = Returns (match ai_elearning_lib (localStorage w) with
                        | Absent | EmptyText => false
                        | _ => true
                        end) w'
    /\ localStorage w' = cleared (localStorage w)
    /\ returned (StorageManager.getDocuments w') = Some None
    /\ returned (StorageManager.getChats w') = Some None
    /\ returned (StorageManager.getUploadedFiles w') = Some None
    /\ returned (StorageManager.getSettings w') = Some None.
Proof.
  intros Hf.
  destruct (initializeStorage_full (withStorage cleared w) Hf) as (w' & E & L).
  exists w'.
  assert (Hrun : StorageManager.clearAllData w
                 = Returns (match ai_elearning_lib (localStorage w) with
                            | Absent | EmptyText => false
                            | _ => true
                            end) w').
  { unfold StorageManager.clearAllData, tryCatch, bind, StorageManager.removeItem, modify.
    change (StorageManager.initializeStorage
              (withStorage (StorageManager.setSettings Absent)
                 (withStorage (StorageManager.setFiles Absent)
                    (withStorage (StorageManager.setChats Absent)
                       (withStorage (StorageManager.setDocuments Absent) w)))))
      with (StorageManager.initializeStorage (withStorage cleared w)).
    rewrite E. cbn. destruct (ai_elearning_lib (localStorage w)); reflexivity. }
  conjs.
  - exact Hrun.
  - exact L.
  - rewrite getDocuments_run, L. reflexivity.
  - rewrite getChats_run, L. reflexivity.
  - rewrite getUploadedFiles_run, L. reflexivity.
  - rewrite getSettings_run, L. reflexivity.
Qed.

Lemma clearAllData_full_storage_witness :
  exists w', StorageManager.clearAllData (fullWorldWithDocuments [exercise])
             = Returns (match ai_elearning_lib
                                (localStorage (fullWorldWithDocuments [exercise])) with
                        | Absent | EmptyText => false
                        | _ => true
                        end) w'
    /\ localStorage w' = cleared (localStorage (fullWorldWithDocuments [exercise]))
    /\ returned (StorageManager.getDocuments w') = Some None
    /\ returned (StorageManager.getChats w') = Some None
    /\ returned (StorageManager.getUploadedFiles w') = Some None
    /\ returned (StorageManager.getSettings w') = Some None.
Proof.
  apply (clearAllData_full_storage (fullWorldWithDocuments [exercise])).
  intros n. reflexivity.
Defined.

(** X12.  Exporting, clearing and importing the export again brings the
    store back: the documents, chats and files read as before, with the
    empty list where a collection was never initialised, and the
    settings read as before, with the defaults where there were none.
    All three calls go through, and the lib mirror is as it was. *)
Theorem export_clear_import (w : World) :
  storageAvailable w ->
  exists x w1 w2 w3,
    StorageManager.exportData w = Returns x w1
    /\ StorageManager.clearAllData w1 = Returns true w2
    /\ StorageManager.importData (Text x) w2 = Returns true w3
    /\ storedDocuments w3 = storedDocuments w
    /\ storedChats w3 = storedChats w
    /\ storedFiles w3 = storedFiles w
    /\ storedSettings w3
       = Some (default StorageManager.defaultSettings (storedSettings w))
    /\ libRoot w3 = libRoot w.
Proof.
  intros Hq.
  destruct (clearAllData_run (ticked w) Hq) as (w2 & E2 & He2 & L2).
  assert (Hq2 : storageAvailable w2) by (apply (storageAvailable_env (ticked w)); assumption).
  destruct (saveAll_run (snapshot (localStorage w)) w2 Hq2) as (w3 & E3 & _ & L3).
  eexists _, (ticked w), w2, w3. conjs.
  - apply exportData_run.
  - exact E2.
  - unfold StorageManager.importData, tryCatch.
    unfold bind at 1. unfold bind at 1. cbn [ret x_data].
    rewrite E3. reflexivity.
  - rewrite !storedDocuments_eq, L3, L2. cbn.
    destruct (ai_elearning_documents (localStorage w)); reflexivity.
  - rewrite !storedChats_eq, L3, L2. cbn.
    destruct (ai_elearning_chats (localStorage w)); reflexivity.
  - rewrite !storedFiles_eq, L3, L2. cbn.
    destruct (ai_elearning_files (localStorage w)); reflexivity.
  - rewrite !storedSettings_eq, L3, L2. cbn.
    destruct (ai_elearning_settings (localStorage w)); reflexivity.
  - rewrite !libRoot_eq, L3, L2. cbn.
    destruct (ai_elearning_lib (localStorage w)); reflexivity.
Qed.

Lemma export_clear_import_witness :
  exists x w1 w2 w3,
    StorageManager.exportData (worldWithDocuments [exercise; solution]) = Returns x w1
    /\ StorageManager.clearAllData w1 = Returns true w2
    /\ StorageManager.importData (Text x) w2 = Returns true w3
    /\ storedDocuments w3 = storedDocuments (worldWithDocuments [exercise; solution])
    /\ storedChats w3 = storedChats (worldWithDocuments [exercise; solution])
    /\ storedFiles w3 = storedFiles (worldWithDocuments [exercise; solution])
    /\ storedSettings w3
       = Some (default StorageManager.defaultSettings
                 (storedSettings (worldWithDocuments [exercise; solution])))
    /\ libRoot w3 = libRoot (worldWithDocuments [exercise; solution]).
Proof.
  apply (export_clear_import (worldWithDocuments [exercise; solution])).
  intros n. reflexivity.
Defined.

(** X13.  On a full storage [importData] never throws and leaves the
    storage as it was; it answers false only for text that is no JSON,
    and true for every export, although nothing of it was stored. *)
Theorem importData_full_storage (jsonData : Item ExportData) (w : World) :
  storageFull w ->
  exists w', StorageManager.importData jsonData w
             = Returns (match jsonData with Text _ => true | _ => false end) w'
    /\ localStorage w' = localStorage w.
Proof.
  intros Hf. unfold StorageManager.importData, tryCatch.
  destruct jsonData as [| | |x].
  - exists w. split; reflexivity.
  - exists w. split; reflexivity.
  - exists w. split; reflexivity.
  - destruct (saveAll_full (x_data x) w Hf) as (w' & E & L).
    exists w'. split; [|exact L].
    unfold bind at 1. unfold bind at 1. cbn [ret]. rewrite E. reflexivity.
Qed.

Lemma importData_full_storage_witness :
  exists w', StorageManager.importData
               (Text {| x_data := snapshot (localStorage (worldWithDocuments [solution]));
                        x_exportedAt := 0%Z |})
               (fullWorldWithDocuments [exercise])
             = Returns true w'
    /\ localStorage w' = localStorage (fullWorldWithDocuments [exercise]).
Proof.
  apply (importData_full_storage
           (Text {| x_data := snapshot (localStorage (worldWithDocuments [solution]));
                    x_exportedAt := 0%Z |})
           (fullWorldWithDocuments [exercise])).
  intros n. reflexivity.
Defined.

(** X14.  A backup taken in one state of the store and restored into
    any other overwrites exactly the collections the backup holds: each
    read-all method answers what it answered when the backup was taken,
    and where that was null, what it answered before the restore.  The
    lib mirror is not part of a backup and is left alone. *)
Theorem restoreFromBackup_overwrites (w w' : World) :
  storageAvailable w' ->
  exists b w1 w2,
    StorageManager.createBackup w = Returns b w1
    /\ StorageManager.restoreFromBackup b w' = Returns true w2
    /\ returned (StorageManager.getDocuments w2)
       = Some (restoredRead (readList (ai_elearning_documents (localStorage w)))
                 (readList (ai_elearning_documents (localStorage w'))))
    /\ returned (StorageManager.getChats w2)
       = Some (restoredRead (readList (ai_elearning_chats (localStorage w)))
                 (readList (ai_elearning_chats (localStorage w'))))
    /\ returned (StorageManager.getUploadedFiles w2)
       = Some (restoredRead (readList (ai_elearning_files (localStorage w)))
                 (readList (ai_elearning_files (localStorage w'))))
    /\ returned (StorageManager.getSettings w2)
       = Some (restoredRead (readSettings (ai_elearning_settings (localStorage w)))
                 (readSettings (ai_elearning_settings (localStorage w'))))
    /\ ai_elearning_lib (localStorage w2) = ai_elearning_lib (localStorage w').
Proof.
  intros Hq.
  destruct (saveAll_run (snapshot (localStorage w)) w' Hq) as (w2 & E2 & _ & L2).
  eexists _, (ticked w), w2. conjs.
  - apply createBackup_run.
  - unfold StorageManager.restoreFromBackup, tryCatch.
    unfold bind at 1. cbn [b_version String.eqb Ascii.eqb Bool.eqb ret].
    unfold bind at 1. cbn [b_data ret]. unfold bind at 1. rewrite E2. reflexivity.
  - rewrite getDocuments_run, L2. cbn [returned]. f_equal. apply readList_overwritten.
  - rewrite getChats_run, L2. cbn [returned]. f_equal. apply readList_overwritten.
  - rewrite getUploadedFiles_run, L2. cbn [returned]. f_equal. apply readList_overwritten.
  - rewrite getSettings_run, L2. cbn [returned]. f_equal. apply readSettings_overwritten.
  - rewrite L2. reflexivity.
Qed.

Lemma restoreFromBackup_overwrites_witness :
  exists b w1 w2,
    StorageManager.createBackup (worldWithDocuments [exercise; solution]) = Returns b w1
    /\ StorageManager.restoreFromBackup b (worldWith [S1] None) = Returns true w2
    /\ returned (StorageManager.getDocuments w2)
       = Some (restoredRead
                 (readList (ai_elearning_documents
                              (localStorage (worldWithDocuments [exercise; solution]))))
                 (readList (ai_elearning_documents (localStorage (worldWith [S1] None)))))
    /\ returned (StorageManager.getChats w2)
       = Some (restoredRead
                 (readList (ai_elearning_chats
                              (localStorage (worldWithDocuments [exercise; solution]))))
                 (readList (ai_elearning_chats (localStorage (worldWith [S1] None)))))
    /\ returned (StorageManager.getUploadedFiles w2)
       = Some (restoredRead
                 (readList (ai_elearning_files
                              (localStorage (worldWithDocuments [exercise; solution]))))
                 (readList (ai_elearning_files (localStorage (worldWith [S1] None)))))
    /\ returned (StorageManager.getSettings w2)
       = Some (restoredRead
                 (readSettings (ai_elearning_settings
                                  (localStorage (worldWithDocuments [exercise; solution]))))
                 (readSettings (ai_elearning_settings (localStorage (worldWith [S1] None)))))
    /\ ai_elearning_lib (localStorage w2)
       = ai_elearning_lib (localStorage (worldWith [S1] None)).
Proof.
  apply (restoreFromBackup_overwrites (worldWithDocuments [exercise; solution])
           (worldWith [S1] None)).
  intros n. reflexivity.
Defined.

(** X15.  [restoreFromBackup] answers false, without throwing and
    without touching the store, for a backup of another version than
    1.0 and for a backup that carries no data. *)
Theorem restoreFromBackup_rejects (backup : Backup) (w : World) :
  b_version backup <> "1.0" \/ b_data backup = None ->
  StorageManager.restoreFromBackup backup w = Returns false w.
Proof.
  intros H. unfold StorageManager.restoreFromBackup, tryCatch, bind.
  destruct (String.eqb (b_version backup) "1.0") eqn:Ev.
  - destruct H as [H|H].
    + apply String.eqb_eq in Ev. contradiction.
    + rewrite H. reflexivity.
  - reflexivity.
Qed.

Lemma restoreFromBackup_rejects_witness :
  StorageManager.restoreFromBackup oldBackup (worldWithDocuments [exercise])
  = Returns false (worldWithDocuments [exercise]).
Proof.
  apply (restoreFromBackup_rejects oldBackup (worldWithDocuments [exercise])).
  left. discriminate.
Defined.

(** ** Chat sessions in the store *)

Lemma spreadChat_eq old n : StorageManager.spreadChat old n = n.
Proof. destruct n. reflexivity. Qed.

Lemma normalizedChat_with_id c w :
  s_id c <> "" ->
  StorageManager.normalizedChat c w
  = Returns (stamped c (clock (env w) (ticks w))) (ticked w).
Proof.
  intros Hid. unfold StorageManager.normalizedChat.
  apply String.eqb_neq in Hid. rewrite Hid. reflexivity.
Qed.

Lemma saveChatSession_with_id c projectId w :
  storageAvailable w -> usable (mirrorProject projectId c) w -> s_id c <> "" ->
  exists w',
    StorageManager.saveChatSession c projectId w = Returns true w'
    /\ env w' = env w /\ currentDocument w' = currentDocument w
    /\ localStorage w'
       = StorageManager.setChats
           (Text (upsertChat (storedChats w) (s_id c)
                    (stamped c (clock (env w) (ticks w)))))
           (StorageManager.setLib
              (libAfterChat (mirrorProject projectId c)
                 (stamped c (clock (env w) (ticks w))) w)
              (localStorage w)).
Proof.
  intros Hq Hu Hid.
  destruct (saveChatSession_run c projectId w Hq Hu)
    as (n & w1 & w' & En & Es & He & Hc & Hl).
  rewrite (normalizedChat_with_id c w Hid) in En. injection En as <- <-.
  exists w'. conjs; assumption.
Qed.

Lemma find_upsertChat l n :
  List.find (fun chat => String.eqb (s_id chat) (s_id n)) (upsertChat l (s_id n) n)
  = Some n.
Proof.
  unfold upsertChat. rewrite find_upsert.
  - destruct (List.find _ l); [rewrite spreadChat_eq|]; reflexivity.
  - apply String.eqb_refl.
  - intros x _. rewrite spreadChat_eq. apply String.eqb_refl.
Qed.

Lemma find_upsertChat_other l n id :
  id <> s_id n ->
  List.find (fun chat => String.eqb (s_id chat) id) (upsertChat l (s_id n) n)
  = List.find (fun chat => String.eqb (s_id chat) id) l.
Proof.
  intros Hne. unfold upsertChat. apply find_upsert_other.
  - apply String.eqb_neq. congruence.
  - intros x Hx. apply String.eqb_eq in Hx. rewrite spreadChat_eq.
    split; apply String.eqb_neq; congruence.
Qed.

Lemma getChatSession_run id w :
  is_Some (readList (ai_elearning_chats (localStorage w))) ->
  StorageManager.getChatSession id w = Returns (storedSession id w) w.
Proof.
  intros [l Hl]. unfold StorageManager.getChatSession, storedSession.
  rewrite (bind_Returns _ _ _ _ _ (getChats_run w)).
  rewrite storedChats_eq, Hl. reflexivity.
Qed.

Lemma chatMirrorIn_after_same p n w :
  p <> "" -> notInherited (libRoot w) p -> s_id n <> "__proto__" ->
  chatMirrorIn (libAfterChat (Some p) n w) p (s_id n) = Some (chatEntry n).
Proof.
  intros Hp Hni Hk. unfold libAfterChat, chatMirrorIn. apply String.eqb_neq in Hp. rewrite Hp.
  unfold readLib.
  destruct (ensureProject_lookup (libRoot w) p Hni) as (proj & E & _).
  rewrite lookup_alter_eq, E. cbn. apply lookup_setMember. left. exact Hk.
Qed.

Lemma chatMirrorIn_after_other proj n w q k :
  usable proj w ->
  proj <> Some q \/ k <> s_id n ->
  chatMirrorIn (libAfterChat proj n w) q k = chatMirror q k w.
Proof.
  intros Hu Hne. rewrite chatMirror_In. unfold libAfterChat, chatMirrorIn.
  destruct proj as [p|]; [|reflexivity].
  destruct (String.eqb p "") eqn:Ep; [reflexivity|].
  specialize (Hu p eq_refl (proj1 (String.eqb_neq _ _) Ep)).
  rewrite <- libRoot_eq. unfold readLib.
  destruct (decide (q = p)) as [->|Hq].
  - destruct Hne as [Hne|Hne]; [congruence|].
    rewrite lookup_alter_eq.
    destruct (ensureProject_lookup (libRoot w) p Hu) as (proj & E & Hold).
    rewrite E. cbn. rewrite lookup_setMember_ne by congruence.
    destruct (libRoot w !! p) as [old|] eqn:Eo.
    + rewrite (Hold old eq_refl). reflexivity.
    + rewrite (ensureProject_new _ _ Eo Hu) in E. injection E as <-. reflexivity.
  - rewrite lookup_alter_ne by congruence. rewrite ensureProject_other by exact Hq.
    reflexivity.
Qed.

Lemma docMirrorIn_after_chat proj n w q k :
  usable proj w ->
  docMirrorIn (libAfterChat proj n w) q k = docMirror q k w.
Proof.
  intros Hu. rewrite docMirror_In. unfold libAfterChat, docMirrorIn.
  destruct proj as [p|]; [|reflexivity].
  destruct (String.eqb p "") eqn:Ep; [reflexivity|].
  specialize (Hu p eq_refl (proj1 (String.eqb_neq _ _) Ep)).
  rewrite <- libRoot_eq. unfold readLib.
  destruct (decide (q = p)) as [->|Hq].
  - rewrite lookup_alter_eq.
    destruct (ensureProject_lookup (libRoot w) p Hu) as (proj & E & Hold).
    rewrite E. cbn.
    destruct (libRoot w !! p) as [old|] eqn:Eo.
    + rewrite (Hold old eq_refl). reflexivity.
    + rewrite (ensureProject_new _ _ Eo Hu) in E. injection E as <-. reflexivity.
  - rewrite lookup_alter_ne by congruence. rewrite ensureProject_other by exact Hq.
    reflexivity.
Qed.

Lemma whenTruthy_libDeleteChat_run proj id w :
  storageAvailable w -> usable proj w ->
  exists w', StorageManager.whenTruthy proj (fun p => StorageManager.libDeleteChat p id) w
             = Returns tt w'
    /\ env w' = env w /\ currentDocument w' = currentDocument w
    /\ localStorage w' = StorageManager.setLib (libWithoutChat proj id w) (localStorage w).
Proof.
  intros Hq Hu. unfold StorageManager.whenTruthy, libWithoutChat.
  assert (Hid : localStorage w
                = StorageManager.setLib (ai_elearning_lib (localStorage w)) (localStorage w))
    by (destruct (localStorage w); reflexivity).
  destruct proj as [p|]; [destruct (String.eqb p "") eqn:Ep|];
    try solve [exists w; conjs; auto].
  specialize (Hu p eq_refl (proj1 (String.eqb_neq _ _) Ep)).
  unfold StorageManager.libDeleteChat.
  rewrite (bind_Returns _ _ _ _ _ (getLibRoot_run w)).
  unfold chatMirror. rewrite <- libRoot_eq.
  unfold notInherited in Hu. unfold StorageManager.member at 1.
  unfold StorageManager.member in Hu.
  destruct (libRoot w !! p) as [pr|] eqn:Epr.
  - unfold StorageManager.member.
    destruct (p_chats pr !! id) eqn:Eid.
    + unfold StorageManager.setLibRoot. rewrite (setItem_run _ _ Hq).
      eexists. conjs; reflexivity.
    + destruct (StorageManager.inherited id); [|solve [exists w; conjs; auto]].
      unfold StorageManager.setLibRoot. rewrite (setItem_run _ _ Hq).
      eexists. conjs; try reflexivity. cbn [localStorage wrote]. f_equal.
      rewrite (alter_same _ _ _ _ Epr (dropChat_absent _ _ Eid)).
      symmetry. apply (lib_is_Text w p pr Epr).
  - destruct (StorageManager.inherited p); [congruence|]. exists w; conjs; auto.
Qed.

(** Under a member inherited from [Object.prototype] the delete from the
    mirror throws before anything is written. *)
Lemma libDeleteChat_throws p id w :
  StorageManager.member (libRoot w) p = StorageManager.Inherited ->
  StorageManager.libDeleteChat p id w = Throws TypeError w.
Proof.
  intros Hp. unfold StorageManager.libDeleteChat.
  rewrite (bind_Returns _ _ _ _ _ (getLibRoot_run w)). rewrite <- libRoot_eq, Hp.
  reflexivity.
Qed.

(** With a project id that lands on an inherited member, a delete of a
    chat session throws a TypeError out of [libDeleteChat], after the
    chats key has been written: the lib key is as it was. *)
Lemma deleteChatSession_throws id projectId w :
  storageAvailable w -> unusable projectId w ->
  exists w', StorageManager.deleteChatSession id projectId w = Throws TypeError w'
             /\ env w' = env w
             /\ localStorage w'
                = StorageManager.setChats (Text (withoutChat id (storedChats w)))
                    (localStorage w).
Proof.
  intros Hq Hu. unfold StorageManager.deleteChatSession.
  rewrite (bind_Returns _ _ _ _ _ (getChats_run w)).
  rewrite <- storedChats_eq. fold (withoutChat id (storedChats w)).
  rewrite (bind_Returns _ _ _ _ _ (saveChats_run _ _ Hq)).
  set (w1 := wrote (StorageManager.setChats (Text (withoutChat id (storedChats w)))) w).
  assert (Hlib : ai_elearning_lib (localStorage w1) = ai_elearning_lib (localStorage w))
    by reflexivity.
  destruct (unusable_lib projectId w w1 Hlib Hu) as (p & -> & Hne & Hm).
  exists w1. conjs; try reflexivity.
  unfold StorageManager.whenTruthy. apply String.eqb_neq in Hne. rewrite Hne.
  unfold bind at 1. rewrite (libDeleteChat_throws _ _ _ Hm). reflexivity.
Qed.

Lemma deleteChatSession_in_project id projectId w :
  storageAvailable w -> usable projectId w ->
  exists w',
    StorageManager.deleteChatSession id projectId w = Returns true w'
    /\ env w' = env w /\ currentDocument w' = currentDocument w
    /\ localStorage w'
       = StorageManager.setLib (libWithoutChat projectId id w)
           (StorageManager.setChats (Text (withoutChat id (storedChats w)))
              (localStorage w)).
Proof.
  intros Hq Hu. unfold StorageManager.deleteChatSession.
  rewrite (bind_Returns _ _ _ _ _ (getChats_run w)).
  rewrite <- storedChats_eq. fold (withoutChat id (storedChats w)).
  rewrite (bind_Returns _ _ _ _ _ (saveChats_run _ _ Hq)).
  destruct (whenTruthy_libDeleteChat_run projectId id
              (wrote (StorageManager.setChats (Text (withoutChat id (storedChats w)))) w)
              (storageAvailable_wrote _ _ Hq)
              (usable_lib projectId w
                 (wrote (StorageManager.setChats (Text (withoutChat id (storedChats w)))) w)
                 eq_refl Hu))
    as (w' & E & He & Hc & Hl).
  rewrite (bind_Returns _ _ _ _ _ E). exists w'. conjs; try assumption; try reflexivity.
  rewrite Hl. f_equal.
  unfold libWithoutChat, chatMirror, libRoot. rewrite !getLibRoot_run. reflexivity.
Qed.

Lemma chatMirrorIn_without_same p id w :
  p <> "" -> chatMirrorIn (libWithoutChat (Some p) id w) p id = None.
Proof.
  intros Hp. unfold libWithoutChat. apply String.eqb_neq in Hp. rewrite Hp.
  destruct (chatMirror p id w) eqn:E.
  - unfold chatMirrorIn, readLib. rewrite lookup_alter_eq.
    destruct (libRoot w !! p); [cbn; apply lookup_delete_eq | reflexivity].
  - rewrite <- chatMirror_In. exact E.
Qed.

Lemma chatMirrorIn_without_other proj id w q k :
  proj <> Some q \/ k <> id ->
  chatMirrorIn (libWithoutChat proj id w) q k = chatMirror q k w.
Proof.
  intros Hne. rewrite chatMirror_In. unfold libWithoutChat.
  destruct proj as [p|]; [|reflexivity].
  destruct (String.eqb p ""); [reflexivity|].
  destruct (chatMirror p id w); [|reflexivity].
  unfold chatMirrorIn. rewrite <- libRoot_eq. unfold readLib.
  destruct (decide (q = p)) as [->|Hq].
  - destruct Hne as [Hne|Hne]; [congruence|].
    rewrite lookup_alter_eq. destruct (libRoot w !! p); [|reflexivity].
    cbn. apply lookup_delete_ne. congruence.
  - rewrite lookup_alter_ne by congruence. reflexivity.
Qed.

Lemma find_withoutChat_same id l :
  List.find (fun chat => String.eqb (s_id chat) id) (withoutChat id l) = None.
Proof.
  apply find_absent. intros x Hx. apply filter_In in Hx. destruct Hx as [_ Hx].
  apply negb_true_iff in Hx. exact Hx.
Qed.

Lemma find_withoutChat_other id id' l :
  id' <> id ->
  List.find (fun chat => String.eqb (s_id chat) id') (withoutChat id l)
  = List.find (fun chat => String.eqb (s_id chat) id') l.
Proof.
  intros Hne. apply find_filter_other. intros x Hx. apply String.eqb_eq in Hx.
  apply negb_true_iff, String.eqb_neq. congruence.
Qed.

Lemma storedSession_eq id w :
  storedSession id w
  = List.find (fun chat => String.eqb (s_id chat) id)
      (default [] (readList (ai_elearning_chats (localStorage w)))).
Proof. unfold storedSession. rewrite storedChats_eq. reflexivity. Qed.

(** X16.  A chat session saved under its own (non-empty) id is what
    [getChatSession] finds under that id afterwards: the session as
    given, with only [updatedAt] replaced by the time of the save.  The
    session found under any other id is the one found before.  No
    bootstrap is needed for the save.  (The storage takes the writes, and
    the project the session is mirrored under, if any, is no name
    inherited from [Object.prototype].) *)
Theorem saveChatSession_then_getChatSession (c : ChatSession)
    (projectId : option string) (w : World) :
  storageAvailable w -> plainKey (mirrorProject projectId c) = true -> s_id c <> "" ->
  exists w',
    StorageManager.saveChatSession c projectId w = Returns true w'
    /\ StorageManager.getChatSession (s_id c) w'
       = Returns (Some (stamped c (clock (env w) (ticks w)))) w'
    /\ forall id, id <> s_id c ->
         StorageManager.getChatSession id w' = Returns (storedSession id w) w'.
Proof.
  intros Hq Hplain Hid.
  destruct (saveChatSession_with_id c projectId w Hq (plainKey_usable _ _ Hplain) Hid)
    as (w' & Es & _ & _ & Hl).
  assert (Hsome : is_Some (readList (ai_elearning_chats (localStorage w'))))
    by (rewrite Hl; eexists; reflexivity).
  exists w'. conjs.
  - exact Es.
  - rewrite (getChatSession_run _ _ Hsome). f_equal.
    rewrite storedSession_eq, Hl. cbn.
    apply (find_upsertChat (storedChats w) (stamped c (clock (env w) (ticks w)))).
  - intros id Hne. rewrite (getChatSession_run _ _ Hsome). f_equal.
    rewrite storedSession_eq, Hl. cbn.
    apply (find_upsertChat_other (storedChats w) (stamped c (clock (env w) (ticks w)))).
    exact Hne.
Qed.

Lemma saveChatSession_then_getChatSession_witness :
  exists w',
    StorageManager.saveChatSession S1 None freshWorld = Returns true w'
    /\ StorageManager.getChatSession (s_id S1) w'
       = Returns (Some (stamped S1 (clock (env freshWorld) (ticks freshWorld)))) w'
    /\ forall id, id <> s_id S1 ->
         StorageManager.getChatSession id w' = Returns (storedSession id freshWorld) w'.
Proof.
  apply (saveChatSession_then_getChatSession S1 None freshWorld).
  - intros n. reflexivity.
  - reflexivity.
  - discriminate.
Defined.

(** X17.  On a store whose chats key was never written [getChatSession]
    throws a TypeError ([getChats] answers null, which has no [find]);
    once [initializeStorage] has run, the storage taking the writes, it
    returns undefined. *)
Theorem getChatSession_needs_the_bootstrap (id : string) (w : World) :
  storageAvailable w -> neverWritten Chats w = true ->
  StorageManager.getChatSession id w = Throws TypeError w
  /\ StorageManager.getChatSession id (afterBootstrap w) = Returns None (afterBootstrap w).
Proof.
  intros Hq Hnew. split.
  - unfold StorageManager.getChatSession.
    rewrite (bind_Returns _ _ _ _ _ (getChats_run w)).
    cbn in Hnew. destruct (ai_elearning_chats (localStorage w)); try discriminate.
    reflexivity.
  - unfold afterBootstrap.
    destruct (initializeStorage_run w Hq) as (w' & E & L). rewrite E. cbn [finalState].
    assert (Hl : ai_elearning_chats (localStorage w') = Text []).
    { rewrite L. cbn in Hnew |- *.
      destruct (ai_elearning_chats (localStorage w)); try discriminate. reflexivity. }
    rewrite getChatSession_run by (rewrite Hl; eexists; reflexivity).
    rewrite storedSession_eq, Hl. reflexivity.
Qed.

Lemma getChatSession_needs_the_bootstrap_witness :
  StorageManager.getChatSession "s1" freshWorld = Throws TypeError freshWorld
  /\ StorageManager.getChatSession "s1" (afterBootstrap freshWorld)
     = Returns None (afterBootstrap freshWorld).
Proof.
  apply (getChatSession_needs_the_bootstrap "s1" freshWorld).
  - intros n. reflexivity.
  - reflexivity.
Defined.

(** X18.  A saved chat session is mirrored in the lib under one project:
    the [projectId] of the call when it is non-empty, else the session's
    own [docId] when that is non-empty, else nowhere.  Every other chat
    entry and every document entry of the lib is as before; in
    particular a session saved with a project id is not mirrored under
    its [docId].  (The storage takes the writes, that project is no name
    inherited from [Object.prototype], and the session id is not
    [__proto__].) *)
Theorem saveChatSession_mirror_choice (c : ChatSession) (projectId : option string)
    (w : World) :
  storageAvailable w -> plainKey (mirrorProject projectId c) = true ->
  s_id c <> "" -> s_id c <> "__proto__" ->
  let w' := finalState (StorageManager.saveChatSession c projectId w) in
  (forall p, mirrorProject projectId c = Some p ->
             chatMirror p (s_id c) w'
             = Some (chatEntry (stamped c (clock (env w) (ticks w)))))
  /\ (forall q k, mirrorProject projectId c <> Some q \/ k <> s_id c ->
                  chatMirror q k w' = chatMirror q k w)
  /\ (forall q k, docMirror q k w' = docMirror q k w).
Proof.
  intros Hq Hplain Hid Hproto w'.
  pose proof (plainKey_usable _ w Hplain) as Hu.
  destruct (saveChatSession_with_id c projectId w Hq Hu Hid) as (v & Es & _ & _ & Hl).
  assert (HL : ai_elearning_lib (localStorage w')
               = libAfterChat (mirrorProject projectId c)
                   (stamped c (clock (env w) (ticks w))) w)
    by (unfold w'; rewrite Es; cbn [finalState]; rewrite Hl; reflexivity).
  conjs.
  - intros p Hp. rewrite chatMirror_In, HL, Hp.
    assert (Hne : p <> "").
    { intros ->. unfold mirrorProject, orNull in Hp.
      destruct (truthy (orElse projectId (s_docId c))) eqn:Et; [|discriminate].
      rewrite Hp in Et. discriminate. }
    apply (chatMirrorIn_after_same p (stamped c (clock (env w) (ticks w))) w).
    + exact Hne.
    + exact (Hu p Hp Hne).
    + exact Hproto.
  - intros q k Hne. rewrite chatMirror_In, HL.
    apply (chatMirrorIn_after_other _ (stamped c (clock (env w) (ticks w)))).
    + exact Hu.
    + exact Hne.
  - intros q k. rewrite docMirror_In, HL. apply docMirrorIn_after_chat, Hu.
Qed.

Lemma saveChatSession_mirror_choice_witness :
  let w' := finalState (StorageManager.saveChatSession S1 (Some "biology") freshWorld) in
  (forall p, mirrorProject (Some "biology") S1 = Some p ->
             chatMirror p (s_id S1) w'
             = Some (chatEntry (stamped S1 (clock (env freshWorld) (ticks freshWorld)))))
  /\ (forall q k, mirrorProject (Some "biology") S1 <> Some q \/ k <> s_id S1 ->
                  chatMirror q k w' = chatMirror q k freshWorld)
  /\ (forall q k, docMirror q k w' = docMirror q k freshWorld).
Proof.
  apply (saveChatSession_mirror_choice S1 (Some "biology") freshWorld).
  - intros n. reflexivity.
  - reflexivity.
  - discriminate.
  - discriminate.
Defined.

(** X19.  [deleteChatSession] with a (non-empty) project id takes the
    session out of the chats collection and its entry out of the mirror
    of that project, and of that project only: an entry of the same chat
    under another project, such as the one a save without project id
    left under the session's [docId], stays, as does every document
    entry. *)
Theorem deleteChatSession_in_a_project (id p : string) (w : World) :
  storageAvailable w -> p <> "" ->
  let w' := finalState (StorageManager.deleteChatSession id (Some p) w) in
  storedSession id w' = None
  /\ (forall id', id' <> id -> storedSession id' w' = storedSession id' w)
  /\ chatMirror p id w' = None
  /\ (forall q k, q <> p \/ k <> id -> chatMirror q k w' = chatMirror q k w)
  /\ (forall q k, docMirror q k w' = docMirror q k w).
Proof.
  intros Hq Hp w'.
  assert (H : ai_elearning_chats (localStorage w') = Text (withoutChat id (storedChats w))
              /\ (ai_elearning_lib (localStorage w') = libWithoutChat (Some p) id w
                  \/ ai_elearning_lib (localStorage w') = ai_elearning_lib (localStorage w)
                     /\ libRoot w !! p = None)).
  { destruct (usable_or_not (Some p) w) as [Hu | Hu].
    - destruct (deleteChatSession_in_project id (Some p) w Hq Hu) as (v & Ed & _ & _ & Hl).
      assert (E : w' = v) by (unfold w'; rewrite Ed; reflexivity).
      rewrite E, Hl. split; [reflexivity | left; reflexivity].
    - destruct (deleteChatSession_throws id (Some p) w Hq Hu) as (v & Ed & _ & Hl).
      assert (E : w' = v) by (unfold w'; rewrite Ed; reflexivity).
      rewrite E, Hl. split; [reflexivity | right; split; [reflexivity|]].
      destruct Hu as (p' & [= <-] & _ & Hm). apply member_Inherited in Hm. apply Hm. }
  destruct H as [HC [HL | [HL Hnone]]]; cycle 1.
  { conjs.
    - rewrite storedSession_eq, HC. apply find_withoutChat_same.
    - intros id' Hne. rewrite storedSession_eq, HC. apply find_withoutChat_other, Hne.
    - rewrite chatMirror_In, HL, <- chatMirror_In. unfold chatMirror. rewrite Hnone.
      reflexivity.
    - intros q k _. rewrite !chatMirror_In, HL. reflexivity.
    - intros q k. rewrite !docMirror_In, HL. reflexivity. }
  conjs.
  - rewrite storedSession_eq, HC. apply find_withoutChat_same.
  - intros id' Hne. rewrite storedSession_eq, HC. apply find_withoutChat_other, Hne.
  - rewrite chatMirror_In, HL. apply chatMirrorIn_without_same, Hp.
  - intros q k Hne. rewrite chatMirror_In, HL. apply chatMirrorIn_without_other.
    destruct Hne; [left; congruence | right; assumption].
  - intros q k. rewrite docMirror_In, HL. unfold libWithoutChat.
    apply String.eqb_neq in Hp. rewrite Hp.
    destruct (chatMirror p id w); [|apply eq_sym, docMirror_In].
    rewrite docMirror_In. unfold docMirrorIn. rewrite <- libRoot_eq. unfold readLib.
    destruct (decide (q = p)) as [->|Hne].
    + rewrite lookup_alter_eq. destruct (libRoot w !! p); reflexivity.
    + rewrite lookup_alter_ne by congruence. reflexivity.
Qed.

Lemma deleteChatSession_in_a_project_witness :
  let w := finalState (StorageManager.saveChatSession S1 (Some "biology") freshWorld) in
  let w' := finalState (StorageManager.deleteChatSession "s1" (Some "biology") w) in
  storedSession "s1" w' = None
  /\ (forall id', id' <> "s1" -> storedSession id' w' = storedSession id' w)
  /\ chatMirror "biology" "s1" w' = None
  /\ (forall q k, q <> "biology" \/ k <> "s1" -> chatMirror q k w' = chatMirror q k w)
  /\ (forall q k, docMirror q k w' = docMirror q k w).
Proof.
  apply (deleteChatSession_in_a_project "s1" "biology"
           (finalState (StorageManager.saveChatSession S1 (Some "biology") freshWorld))).
  - intros n. reflexivity.
  - discriminate.
Defined.

(** ** The chat interface and the document on display *)

Lemma find_upsertChat_id l id n :
  s_id n = id ->
  List.find (fun chat => String.eqb (s_id chat) id) (upsertChat l id n) = Some n.
Proof. intros <-. apply find_upsertChat. Qed.

Lemma find_upsertChat_other_id l id n id' :
  s_id n = id -> id' <> id ->
  List.find (fun chat => String.eqb (s_id chat) id') (upsertChat l id n)
  = List.find (fun chat => String.eqb (s_id chat) id') l.
Proof. intros <-. apply find_upsertChat_other. Qed.

Lemma libAfterChat_ticked proj n w :
  libAfterChat proj n (ticked w) = libAfterChat proj n w.
Proof. unfold libAfterChat. rewrite !libRoot_eq. reflexivity. Qed.

Lemma ui_saveChatSession_record ch w s :
  storageAvailable w -> usable (groupingKey ch s) w ->
  currentSession ch = Some s -> s_id s <> "" ->
  exists w',
    ChatInterface.saveChatSession {| chat := ch; world := w |}
    = Returns tt
        {| chat := {| currentSession :=
                        Some (syncedSession ch s (clock (env w) (ticks w)));
                      messages := messages ch;
                      sessions := storedChats w';
                      associatedDocId := associatedDocId ch |};
           world := w' |}
    /\ env w' = env w /\ currentDocument w' = currentDocument w
    /\ storedChats w'
       = upsertChat (storedChats w) (s_id s)
           (stamped (syncedSession ch s (clock (env w) (ticks w)))
              (clock (env w) (S (ticks w))))
    /\ ai_elearning_documents (localStorage w') = ai_elearning_documents (localStorage w)
    /\ ai_elearning_lib (localStorage w')
       = libAfterChat (orNull (orElse (associatedDocId ch) (s_docId s)))
           (stamped (syncedSession ch s (clock (env w) (ticks w)))
              (clock (env w) (S (ticks w)))) w.
Proof.
  intros Hq Hu Hcur Hid.
  set (s' := syncedSession ch s (clock (env w) (ticks w))).
  assert (Hq1 : storageAvailable (ticked w)) by (intros j; apply Hq).
  assert (Hu1 : usable (mirrorProject None s') (ticked w)).
  { apply usable_ticked. unfold mirrorProject, s', syncedSession. cbn [s_docId].
    rewrite orNull_again. exact Hu. }
  destruct (saveChatSession_with_id s' None (ticked w) Hq1 Hu1 Hid)
    as (w' & Es & He & Hc & Hl).
  exists w'. split.
  - unfold ChatInterface.saveChatSession, ChatInterface.this.
    unfold bind at 1. unfold gets at 1. cbn [chat]. rewrite Hcur.
    cbv [bind gets ret ChatInterface.liftW now ChatInterface.setCurrentSession
         ChatInterface.assign modify ChatInterface.setSessions].
    cbn [chat world currentSession messages sessions associatedDocId].
    fold (ticked w). fold s'. fold (syncedSession ch s (clock (env w) (ticks w))).
    fold s'. rewrite Es. rewrite getChats_run. rewrite <- storedChats_eq. reflexivity.
  - conjs; try assumption.
    + rewrite storedChats_eq, Hl. cbn. rewrite !storedChats_eq. reflexivity.
    + rewrite Hl. reflexivity.
    + rewrite Hl. cbn [ai_elearning_lib StorageManager.setChats StorageManager.setLib].
      rewrite libAfterChat_ticked. f_equal. apply orNull_again.
Qed.

Lemma orNull_idem x : orNull (orElse (orNull x) (orNull x)) = orNull x.
Proof. unfold orNull, orElse. destruct (truthy x) eqn:E; cbn; rewrite ?E; reflexivity. Qed.

Lemma orNull_truthy i : i <> "" -> forall y, orNull (orElse (Some i) y) = Some i.
Proof.
  intros Hi y. apply String.eqb_neq in Hi. unfold orNull, orElse. cbn. rewrite Hi. cbn.
  rewrite Hi. reflexivity.
Qed.

(** X20.  The listener of [document:displayed].  With no current
    session, only [associatedDocId] changes.  With a current session, the
    session is bound to the document of the event, in memory and in the
    chats collection, where the messages in memory are saved with it; an
    event that carries no id unbinds the session (its [docId] becomes
    null).  (The storage takes the writes, and the id of the event is no
    name inherited from [Object.prototype].) *)
Theorem onDocumentDisplayed_rebinds (detailId : option string) (ch : ChatState)
    (w : World) :
  storageAvailable w -> plainKey (orNull detailId) = true ->
  (currentSession ch = None ->
   ChatInterface.onDocumentDisplayed detailId {| chat := ch; world := w |}
   = Returns tt {| chat := associatedWith (orNull detailId) ch; world := w |})
  /\ (forall s, currentSession ch = Some s -> s_id s <> "" ->
      exists p' cur saved,
        ChatInterface.onDocumentDisplayed detailId {| chat := ch; world := w |}
        = Returns tt p'
        /\ associatedDocId (chat p') = orNull detailId
        /\ currentSession (chat p') = Some cur
        /\ s_id cur = s_id s /\ s_docId cur = orNull detailId
        /\ storedSession (s_id s) (world p') = Some saved
        /\ s_docId saved = orNull detailId
        /\ s_messages saved = messages ch).
Proof.
  intros Hq Hplain. split.
  - intros Hcur. unfold ChatInterface.onDocumentDisplayed, ChatInterface.setAssociatedDocId,
      ChatInterface.this, ChatInterface.assign.
    cbv [bind gets modify]. cbn [chat world currentSession].
    unfold associatedWith. rewrite Hcur. reflexivity.
  - intros s Hcur Hid.
    assert (Hu : usable (orNull (orElse (orNull detailId) (orNull detailId))) w).
    { rewrite orNull_idem. apply plainKey_usable, Hplain. }
    unfold ChatInterface.onDocumentDisplayed, ChatInterface.setAssociatedDocId,
      ChatInterface.setCurrentSession, ChatInterface.this, ChatInterface.assign.
    cbv [bind gets modify]. cbn [chat world currentSession messages sessions associatedDocId].
    rewrite Hcur.
    cbn [chat world currentSession messages sessions associatedDocId].
    match goal with
    | |- context [ChatInterface.saveChatSession {| chat := ?c; world := ?v |}] =>
        let H := fresh in
        epose proof (fun Hu' => ui_saveChatSession_record c v _ Hq Hu' eq_refl Hid) as H;
        destruct (H Hu) as (w' & Esave & _ & _ & Hstored & _ & _);
        rewrite Esave
    end.
    cbn [s_id s_docId associatedDocId currentSession messages] in Hstored.
    eexists _, _, _. split; [reflexivity|].
    cbn [chat world associatedDocId currentSession].
    conjs; try reflexivity.
    + unfold syncedSession. cbn. apply orNull_idem.
    + unfold storedSession. rewrite Hstored. apply find_upsertChat_id. reflexivity.
    + cbn. apply orNull_idem.
    + reflexivity.
Qed.

Lemma onDocumentDisplayed_rebinds_witness :
  (currentSession (holding S2) = None ->
   ChatInterface.onDocumentDisplayed (Some "D1")
     {| chat := holding S2; world := worldWith [S1; S2] None |}
   = Returns tt {| chat := associatedWith (orNull (Some "D1")) (holding S2);
                   world := worldWith [S1; S2] None |})
  /\ (forall s, currentSession (holding S2) = Some s -> s_id s <> "" ->
      exists p' cur saved,
        ChatInterface.onDocumentDisplayed (Some "D1")
          {| chat := holding S2; world := worldWith [S1; S2] None |}
        = Returns tt p'
        /\ associatedDocId (chat p') = orNull (Some "D1")
        /\ currentSession (chat p') = Some cur
        /\ s_id cur = s_id s /\ s_docId cur = orNull (Some "D1")
        /\ storedSession (s_id s) (world p') = Some saved
        /\ s_docId saved = orNull (Some "D1")
        /\ s_messages saved = messages (holding S2)).
Proof.
  apply (onDocumentDisplayed_rebinds (Some "D1") (holding S2) (worldWith [S1; S2] None)).
  - intros n. reflexivity.
  - reflexivity.
Defined.

(** X21.  The fallback of [loadChatSessions] rebinds the session it
    lands in.  With a document on display that no stored session is
    bound to, the latest session of all becomes current, and the next
    [saveChatSession] stores it under the [docId] of the document on
    display: it is no longer a session of the document it was bound
    to.  (The storage takes the writes, the stored sessions have ids,
    and the id of the document on display is no name inherited from
    [Object.prototype].) *)
Theorem fallback_session_is_rebound (ch : ChatState) (w : World) (d : Document)
    (i : string) :
  storageAvailable w -> storedChats w <> [] ->
  currentDocument w = Some d -> d_id d = Some i -> i <> "" ->
  StorageManager.inherited i = false ->
  (forall s, In s (storedChats w) -> s_id s <> "" /\ s_docId s <> Some i) ->
  exists chosen p1 p2 saved,
    ChatInterface.loadChatSessions {| chat := ch; world := w |} = Returns tt p1
    /\ currentSession (chat p1) = Some chosen
    /\ In chosen (storedChats w)
    /\ (forall s, In s (storedChats w) -> (s_updatedAt s <= s_updatedAt chosen)%Z)
    /\ s_docId chosen <> Some i
    /\ ChatInterface.saveChatSession p1 = Returns tt p2
    /\ storedSession (s_id chosen) (world p2) = Some saved
    /\ s_docId saved = Some i.
Proof.
  intros Hq Hne Hdoc Hid Hi Hplain Hall.
  rewrite (loadChatSessions_run ch w Hne). cbv zeta.
  pose proof (head_sort_byRecency (storedChats w)) as Hhead.
  assert (Hpick : sessionToLoad (currentDocument w)
                    (ChatInterface.sort ChatInterface.byRecency (storedChats w))
                  = head (ChatInterface.sort ChatInterface.byRecency (storedChats w))).
  { unfold sessionToLoad. rewrite Hdoc, Hid.
    assert (E : List.filter (fun s => ChatInterface.sameDoc (s_docId s) (Some i))
                  (ChatInterface.sort ChatInterface.byRecency (storedChats w)) = []).
    { destruct (List.filter _ _) as [|x rest] eqn:Ef; [reflexivity|].
      assert (Hx : In x (x :: rest)) by (left; reflexivity).
      rewrite <- Ef in Hx. apply filter_In in Hx. destruct Hx as [Hx Hp].
      apply sort_In in Hx. apply sameDoc_iff in Hp.
      destruct (Hall x Hx) as [_ Hno]. contradiction. }
    cbv zeta. rewrite E. reflexivity. }
  rewrite Hpick.
  destruct (head (ChatInterface.sort ChatInterface.byRecency (storedChats w))) as [chosen|];
    [|contradiction].
  destruct Hhead as [Hin Hlatest].
  destruct (Hall chosen Hin) as [Hcid Hcdoc].
  rewrite Hdoc, Hid.
  match goal with
  | |- context [Returns tt {| chat := ?c; world := ?v |}] =>
      assert (Hu : usable (groupingKey c chosen) v)
        by (unfold groupingKey; cbn [associatedDocId];
            rewrite (orNull_truthy i Hi);
            apply plainKey_usable, plainKey_Some, Hplain);
      destruct (ui_saveChatSession_record c v chosen Hq Hu eq_refl Hcid)
        as (w' & Esave & _ & _ & Hstored & _ & _)
  end.
  cbn [s_id s_docId associatedDocId currentSession messages] in Hstored.
  eexists chosen, _, _, _. split; [reflexivity|].
  cbn [chat world currentSession].
  conjs; try assumption; try reflexivity.
  - exact Esave.
  - unfold storedSession. cbn [world]. rewrite Hstored.
    apply find_upsertChat_id. reflexivity.
  - cbn. apply orNull_truthy, Hi.
Qed.

Lemma fallback_session_is_rebound_witness :
  exists chosen p1 p2 saved,
    ChatInterface.loadChatSessions {| chat := idle; world := worldWith [S2] (Some D1) |}
    = Returns tt p1
    /\ currentSession (chat p1) = Some chosen
    /\ In chosen (storedChats (worldWith [S2] (Some D1)))
    /\ (forall s, In s (storedChats (worldWith [S2] (Some D1))) ->
          (s_updatedAt s <= s_updatedAt chosen)%Z)
    /\ s_docId chosen <> Some "D1"
    /\ ChatInterface.saveChatSession p1 = Returns tt p2
    /\ storedSession (s_id chosen) (world p2) = Some saved
    /\ s_docId saved = Some "D1".
Proof.
  apply (fallback_session_is_rebound idle (worldWith [S2] (Some D1)) D1 "D1").
  - intros n. reflexivity.
  - discriminate.
  - reflexivity.
  - reflexivity.
  - discriminate.
  - reflexivity.
  - intros s Hs. vm_compute in Hs. destruct Hs as [<- | []]. split; discriminate.
Defined.

(** ** New sessions, cleared and deleted sessions *)

Lemma createNewSession_true_run ch w :
  storageAvailable w -> titled w ->
  usable (boundTo (associatedDocId ch) (currentDocument w)) w ->
  exists title m t t' w',
    ChatInterface.createNewSession true {| chat := ch; world := w |}
    = Returns tt
        {| chat := {| currentSession := Some (createdSession ch w title m t);
                      messages := [m];
                      sessions := storedChats w';
                      associatedDocId := associatedDocId ch |};
           world := w' |}
    /\ m_type m = ai
    /\ env w' = env w /\ currentDocument w' = currentDocument w
    /\ storedChats w'
       = upsertChat (storedChats w) (nextId (ticked w))
           (stamped (createdSession ch w title m t) t')
    /\ ai_elearning_documents (localStorage w') = ai_elearning_documents (localStorage w)
    /\ (forall q k, k <> nextId (ticked w) -> chatMirror q k w' = chatMirror q k w).
Proof.
  intros Hq Htitle Hu.
  assert (Hgen : nextId (ticked w) <> "").
  { apply append_nonempty, toString36_nonempty. }
  unfold createdSession.
  unfold ChatInterface.createNewSession, ChatInterface.this.
  unfold bind at 1. unfold gets at 1. unfold bind at 1. unfold gets at 1.
  cbn [negb andb].
  rewrite (bind_Returns _ _ _ _ _ (liftW_Returns _ ch w _ _ (eq_refl : gets currentDocument w = Returns (currentDocument w) w))).
  rewrite (bind_Returns _ _ _ _ _ (liftW_Returns _ ch w _ _ (eq_refl : now w = Returns (clock (env w) (ticks w)) (ticked w)))).
  rewrite (bind_Returns _ _ _ _ _ (liftW_Returns _ ch (ticked w) _ _ (generateId_run (ticked w)))).
  fold (nextId (ticked w)).
  unfold titled in Htitle.
  destruct (currentDocument w) as [d|] eqn:Ed.
  - destruct (d_title d) as [tt0|] eqn:Et; [|exfalso; exact (Htitle d eq_refl Et)].
    cbv [bind gets ret ChatInterface.this ChatInterface.setCurrentSession
         ChatInterface.setMessages ChatInterface.assign modify
         ChatInterface.liftW ChatInterface.generateMessageId now mathRandom36
         ChatInterface.pushMessage].
    cbn [chat world currentSession messages sessions associatedDocId app
         env ticks draws writes localStorage currentDocument].
    match goal with
    | |- context [ChatInterface.saveChatSession {| chat := ?c; world := ?v |}] =>
        let H := fresh in
        epose proof (fun Hu' => ui_saveChatSession_record c v _
                                  ltac:(intros j; apply Hq) Hu' eq_refl Hgen) as H;
        destruct (H (usable_same _ w v eq_refl Hu))
          as (w' & Esave & He & Hc & Hstored & Hdocs & Hlib);
        rewrite Esave
    end.
    eexists _, _, _, _, w'. split; [reflexivity|].
    conjs; try reflexivity; try assumption.
    + rewrite Hc. exact Ed.
    + rewrite Hstored. rewrite !storedChats_eq. reflexivity.
    + intros q k Hk. rewrite chatMirror_In, Hlib.
      rewrite chatMirrorIn_after_other;
        [rewrite !chatMirror_In; reflexivity
        | apply (usable_same _ w); [reflexivity | exact Hu]
        | right; exact Hk].
  - cbv [bind gets ret ChatInterface.this ChatInterface.setCurrentSession
         ChatInterface.setMessages ChatInterface.assign modify
         ChatInterface.liftW ChatInterface.generateMessageId now mathRandom36
         ChatInterface.pushMessage].
    cbn [chat world currentSession messages sessions associatedDocId app
         env ticks draws writes localStorage currentDocument].
    match goal with
    | |- context [ChatInterface.saveChatSession {| chat := ?c; world := ?v |}] =>
        let H := fresh in
        epose proof (fun Hu' => ui_saveChatSession_record c v _
                                  ltac:(intros j; apply Hq) Hu' eq_refl Hgen) as H;
        destruct (H (usable_same _ w v eq_refl Hu))
          as (w' & Esave & He & Hc & Hstored & Hdocs & Hlib);
        rewrite Esave
    end.
    eexists _, _, _, _, w'. split; [reflexivity|].
    conjs; try reflexivity; try assumption.
    + rewrite Hc. exact Ed.
    + rewrite Hstored. rewrite !storedChats_eq. reflexivity.
    + intros q k Hk. rewrite chatMirror_In, Hlib.
      rewrite chatMirrorIn_after_other;
        [rewrite !chatMirror_In; reflexivity
        | apply (usable_same _ w); [reflexivity | exact Hu]
        | right; exact Hk].
Qed.

Lemma boundTo_eq assoc doc :
  boundTo assoc doc
  = if truthy assoc then assoc
    else match doc with Some d => orNull (d_id d) | None => None end.
Proof.
  unfold boundTo, orNull, orElse.
  destruct (truthy assoc) eqn:Ea.
  - rewrite Ea. reflexivity.
  - destruct doc as [d|]; [reflexivity|]. cbn. reflexivity.
Qed.

(** X22.  The session [createNewSession(true)] makes is bound, in
    memory and in the chats collection, to [associatedDocId] when that
    is non-empty, and only otherwise to the document on display (to no
    document when there is none): the document a previous session was
    associated with wins over the one on display.  (The storage takes
    the writes, the document on display has a title, and the id the
    session is bound to is no name inherited from [Object.prototype].) *)
Theorem createNewSession_binding (ch : ChatState) (w : World) :
  storageAvailable w -> titled w ->
  plainKey (boundTo (associatedDocId ch) (currentDocument w)) = true ->
  exists p' s saved,
    ChatInterface.createNewSession true {| chat := ch; world := w |} = Returns tt p'
    /\ currentSession (chat p') = Some s
    /\ s_docId s
       = (if truthy (associatedDocId ch) then associatedDocId ch
          else match currentDocument w with
               | Some d => orNull (d_id d)
               | None => None
               end)
    /\ storedSession (s_id s) (world p') = Some saved
    /\ s_docId saved = s_docId s
    /\ s_messages saved = messages (chat p')
    /\ associatedDocId (chat p') = associatedDocId ch.
Proof.
  intros Hq Ht Hplain.
  destruct (createNewSession_true_run ch w Hq Ht (plainKey_usable _ _ Hplain))
    as (title & m & t & t' & w' & E & _ & _ & _ & Hstored & _).
  eexists _, _, (stamped (createdSession ch w title m t) t').
  split; [exact E|]. cbn [chat world currentSession associatedDocId messages].
  conjs; try reflexivity.
  - cbn [s_docId createdSession]. apply boundTo_eq.
  - unfold storedSession. rewrite Hstored. apply find_upsertChat_id. reflexivity.
Qed.

Lemma createNewSession_binding_witness :
  exists p' s saved,
    ChatInterface.createNewSession true
      {| chat := holding S2; world := worldWith [S1; S2] (Some D1) |} = Returns tt p'
    /\ currentSession (chat p') = Some s
    /\ s_docId s
       = (if truthy (associatedDocId (holding S2)) then associatedDocId (holding S2)
          else match currentDocument (worldWith [S1; S2] (Some D1)) with
               | Some d => orNull (d_id d)
               | None => None
               end)
    /\ storedSession (s_id s) (world p') = Some saved
    /\ s_docId saved = s_docId s
    /\ s_messages saved = messages (chat p')
    /\ associatedDocId (chat p') = associatedDocId (holding S2).
Proof.
  apply (createNewSession_binding (holding S2) (worldWith [S1; S2] (Some D1))).
  - intros n. reflexivity.
  - intros d Hd. vm_compute in Hd. injection Hd as <-. discriminate.
  - reflexivity.
Defined.

(** With S2 current and the document D1 on display, the new session is
    a session of D2. *)
Example createNewSession_other_document :
  s_docId <$> currentSession (chat (finalState
    (ChatInterface.createNewSession true
       {| chat := holding S2; world := worldWith [S1; S2] (Some D1) |})))
  = Some (Some "D2").
Proof. vm_compute. reflexivity. Qed.

Lemma ui_deleteChatSession_run sessionId victim ch w :
  storageAvailable w -> sessionId <> "" ->
  storedSession sessionId w = Some victim ->
  ChatInterface.deleteChatSession sessionId true {| chat := ch; world := w |}
  = (let* cur := ChatInterface.this currentSession in
     match cur with
     | Some s =>
         if String.eqb (s_id s) sessionId then ChatInterface.createNewSession true
         else ret tt
     | None => ret tt
     end)
      {| chat := ch;
         world := wrote (StorageManager.setChats
                           (Text (withoutChat sessionId (storedChats w)))) w |}.
Proof.
  intros Hq Hid Hfind. unfold ChatInterface.deleteChatSession.
  apply String.eqb_neq in Hid. rewrite Hid.
  rewrite (bind_Returns _ _ _ _ _ (liftW_Returns _ ch w _ _ (getChats_run w))).
  rewrite <- storedChats_eq. unfold storedSession in Hfind. rewrite Hfind.
  rewrite (bind_Returns _ _ _ _ _
             (liftW_Returns _ ch w _ _ (deleteChatSession_run sessionId w Hq))).
  reflexivity.
Qed.

(** X23.  [deleteChatSession] of the chat interface on a stored session
    that is not the current one.  When the confirm dialog is declined
    nothing changes.  When it is accepted the session leaves the chats
    collection, every other stored session is found as before, the lib
    key is not written, and the chat interface keeps its current
    session, messages and association. *)
Theorem deleting_another_session (sessionId : string) (victim : ChatSession)
    (ch : ChatState) (w : World) :
  storageAvailable w -> sessionId <> "" ->
  storedSession sessionId w = Some victim ->
  (forall s, currentSession ch = Some s -> s_id s <> sessionId) ->
  ChatInterface.deleteChatSession sessionId false {| chat := ch; world := w |}
  = Returns tt {| chat := ch; world := w |}
  /\ exists w',
       ChatInterface.deleteChatSession sessionId true {| chat := ch; world := w |}
       = Returns tt {| chat := ch; world := w' |}
       /\ storedSession sessionId w' = None
       /\ (forall id, id <> sessionId -> storedSession id w' = storedSession id w)
       /\ ai_elearning_lib (localStorage w') = ai_elearning_lib (localStorage w).
Proof.
  intros Hq Hid Hfind Hother. split.
  - unfold ChatInterface.deleteChatSession.
    apply String.eqb_neq in Hid. rewrite Hid.
    rewrite (bind_Returns _ _ _ _ _ (liftW_Returns _ ch w _ _ (getChats_run w))).
    rewrite <- storedChats_eq. unfold storedSession in Hfind. rewrite Hfind. reflexivity.
  - eexists. conjs.
    + rewrite (ui_deleteChatSession_run sessionId victim ch w Hq Hid Hfind).
      unfold ChatInterface.this. unfold bind at 1. unfold gets at 1. cbn [chat].
      destruct (currentSession ch) as [s|] eqn:Ecur; [|reflexivity].
      specialize (Hother s eq_refl). apply String.eqb_neq in Hother. rewrite Hother.
      reflexivity.
    + rewrite storedSession_eq. cbn. apply find_withoutChat_same.
    + intros id Hne. rewrite storedSession_eq. cbn. apply find_withoutChat_other, Hne.
    + reflexivity.
Qed.

Lemma deleting_another_session_witness :
  ChatInterface.deleteChatSession "s2" false
    {| chat := holding S1; world := worldWith [S1; S2] None |}
  = Returns tt {| chat := holding S1; world := worldWith [S1; S2] None |}
  /\ exists w',
       ChatInterface.deleteChatSession "s2" true
         {| chat := holding S1; world := worldWith [S1; S2] None |}
       = Returns tt {| chat := holding S1; world := w' |}
       /\ storedSession "s2" w' = None
       /\ (forall id, id <> "s2" ->
                      storedSession id w' = storedSession id (worldWith [S1; S2] None))
       /\ ai_elearning_lib (localStorage w')
          = ai_elearning_lib (localStorage (worldWith [S1; S2] None)).
Proof.
  apply (deleting_another_session "s2" S2 (holding S1) (worldWith [S1; S2] None)).
  - intros n. reflexivity.
  - discriminate.
  - reflexivity.
  - intros s Hs. injection Hs as <-. discriminate.
Defined.

Lemma upsertChat_elements l id n r :
  In r (upsertChat l id n) -> r = n \/ In r l.
Proof.
  unfold upsertChat. induction l as [|x l IH]; intros Hin.
  - destruct Hin as [<- | []]. left. reflexivity.
  - rewrite upsert_cons in Hin. destruct (String.eqb (s_id x) id).
    + destruct Hin as [<- | Hin]; [left; apply spreadChat_eq | right; right; exact Hin].
    + destruct Hin as [<- | Hin]; [right; left; reflexivity|].
      destruct (IH Hin) as [-> | H]; [left; reflexivity | right; right; exact H].
Qed.

Lemma withoutChat_elements id l r :
  In r (withoutChat id l) -> In r l /\ s_id r <> id.
Proof.
  intros Hin. apply filter_In in Hin. destruct Hin as [Hin Hne]. split; [exact Hin|].
  apply negb_true_iff, String.eqb_neq in Hne. exact Hne.
Qed.

(** X24.  [deleteChatSession] of the chat interface on the current
    session, the dialog accepted: the record of the session leaves the
    chats collection and a new session, stored under a newly generated id
    and holding one welcome message, is current when the call returns;
    the chat interface is never left without a current session.  Every
    record stored afterwards is the one of the new session or an old
    record of another id than the deleted one, so that nothing is found
    under the deleted id unless the generated id is that very id.  (The
    storage takes the writes, the document on display has a title, and
    the id the new session is bound to is no name inherited from
    [Object.prototype].) *)
Theorem deleting_the_current_session (s victim : ChatSession) (ch : ChatState)
    (w : World) :
  storageAvailable w -> titled w ->
  plainKey (boundTo (associatedDocId ch) (currentDocument w)) = true ->
  currentSession ch = Some s -> s_id s <> "" ->
  storedSession (s_id s) w = Some victim ->
  exists p' new m saved,
    ChatInterface.deleteChatSession (s_id s) true {| chat := ch; world := w |}
    = Returns tt p'
    /\ currentSession (chat p') = Some new
    /\ s_id new = nextId (ticked w)
    /\ messages (chat p') = [m] /\ m_type m = ai
    /\ storedSession (s_id new) (world p') = Some saved
    /\ s_id saved = s_id new /\ s_messages saved = [m]
    /\ (forall r, In r (storedChats (world p')) ->
          r = saved \/ (In r (storedChats w) /\ s_id r <> s_id s))
    /\ (nextId (ticked w) <> s_id s -> storedSession (s_id s) (world p') = None).
Proof.
  intros Hq Ht Hplain Hcur Hid Hfind.
  set (w1 := wrote (StorageManager.setChats
                      (Text (withoutChat (s_id s) (storedChats w)))) w).
  assert (Hq1 : storageAvailable w1) by (apply storageAvailable_wrote, Hq).
  destruct (createNewSession_true_run ch w1 Hq1 Ht (plainKey_usable _ w1 Hplain))
    as (title & m & t & t' & w' & E & Hai & _ & _ & Hstored & _).
  eexists _, _, m, (stamped (createdSession ch w1 title m t) t'). split.
  - rewrite (ui_deleteChatSession_run (s_id s) victim ch w Hq Hid Hfind).
    unfold ChatInterface.this. unfold bind at 1. unfold gets at 1. cbn [chat].
    rewrite Hcur, String.eqb_refl. fold w1. exact E.
  - cbn [chat world currentSession messages].
    assert (Hw1 : storedChats w1 = withoutChat (s_id s) (storedChats w))
      by (rewrite storedChats_eq; reflexivity).
    conjs; try reflexivity.
    + exact Hai.
    + unfold storedSession. rewrite Hstored.
      rewrite find_upsertChat_id by reflexivity. reflexivity.
    + intros r Hin. rewrite Hstored, Hw1 in Hin.
      apply upsertChat_elements in Hin. destruct Hin as [-> | Hin].
      * left. reflexivity.
      * right. apply withoutChat_elements, Hin.
    + intros Hfresh. unfold storedSession. rewrite Hstored, Hw1.
      rewrite find_upsertChat_other_id.
      * apply find_withoutChat_same.
      * reflexivity.
      * intros Heq. apply Hfresh. symmetry. exact Heq.
Qed.

Lemma deleting_the_current_session_witness :
  exists p' new m saved,
    ChatInterface.deleteChatSession (s_id S1) true
      {| chat := holding S1; world := worldWith [S1; S2] None |}
    = Returns tt p'
    /\ currentSession (chat p') = Some new
    /\ s_id new = nextId (ticked (worldWith [S1; S2] None))
    /\ messages (chat p') = [m] /\ m_type m = ai
    /\ storedSession (s_id new) (world p') = Some saved
    /\ s_id saved = s_id new /\ s_messages saved = [m]
    /\ (forall r, In r (storedChats (world p')) ->
          r = saved \/ (In r (storedChats (worldWith [S1; S2] None)) /\ s_id r <> s_id S1))
    /\ (nextId (ticked (worldWith [S1; S2] None)) <> s_id S1 ->
        storedSession (s_id S1) (world p') = None).
Proof.
  apply (deleting_the_current_session S1 S1 (holding S1) (worldWith [S1; S2] None)).
  - intros n. reflexivity.
  - intros d Hd. discriminate.
  - reflexivity.
  - reflexivity.
  - discriminate.
  - reflexivity.
Defined.

Lemma upsert_keeps {A} (p : A -> bool) merge n (l : list A) x :
  In x l -> p x = false -> In x (upsert p merge n l).
Proof.
  intros Hin Hp. induction l as [|y l IH]; [destruct Hin|].
  rewrite upsert_cons. destruct (p y) eqn:Ey.
  - destruct Hin as [->|Hin]; [congruence | right; exact Hin].
  - destruct Hin as [->|Hin]; [left; reflexivity | right; exact (IH Hin)].
Qed.

(** X25.  [clearChatHistory] deletes nothing from the store: every
    stored session, the one that was current included, is still in the
    chats collection as it was last saved (unless the newly generated id
    is its id), next to the new session that is current afterwards with
    one welcome message in memory.  (The storage takes the writes, the
    document on display has a title, and the id the new session is bound
    to is no name inherited from [Object.prototype].) *)
Theorem clearChatHistory_deletes_nothing (ch : ChatState) (w : World) :
  storageAvailable w -> titled w ->
  plainKey (boundTo (associatedDocId ch) (currentDocument w)) = true ->
  exists p' new m,
    ChatInterface.clearChatHistory {| chat := ch; world := w |} = Returns tt p'
    /\ currentSession (chat p') = Some new
    /\ s_id new = nextId (ticked w)
    /\ messages (chat p') = [m] /\ m_type m = ai
    /\ is_Some (storedSession (s_id new) (world p'))
    /\ forall r, In r (storedChats w) -> s_id r <> nextId (ticked w) ->
                 In r (storedChats (world p')).
Proof.
  intros Hq Ht Hplain.
  destruct (createNewSession_true_run (withoutMessages ch) w Hq Ht
              (plainKey_usable _ w Hplain))
    as (title & m & t & t' & w' & E & Hai & _ & _ & Hstored & _).
  eexists _, _, m. split.
  - unfold ChatInterface.clearChatHistory, ChatInterface.setMessages, ChatInterface.assign.
    unfold bind at 1. unfold modify at 1. cbn [chat world].
    fold (withoutMessages ch). exact E.
  - cbn [chat world currentSession messages].
    conjs; try reflexivity.
    + exact Hai.
    + unfold storedSession. rewrite Hstored.
      rewrite find_upsertChat_id by reflexivity. eexists. reflexivity.
    + intros r Hin Hne. rewrite Hstored. unfold upsertChat.
      apply upsert_keeps; [exact Hin|]. apply String.eqb_neq. exact Hne.
Qed.

Lemma clearChatHistory_deletes_nothing_witness :
  exists p' new m,
    ChatInterface.clearChatHistory
      {| chat := holding S1; world := worldWith [S1; S2] None |} = Returns tt p'
    /\ currentSession (chat p') = Some new
    /\ s_id new = nextId (ticked (worldWith [S1; S2] None))
    /\ messages (chat p') = [m] /\ m_type m = ai
    /\ is_Some (storedSession (s_id new) (world p'))
    /\ forall r, In r (storedChats (worldWith [S1; S2] None)) ->
                 s_id r <> nextId (ticked (worldWith [S1; S2] None)) ->
                 In r (storedChats (world p')).
Proof.
  apply (clearChatHistory_deletes_nothing (holding S1) (worldWith [S1; S2] None)).
  - intros n. reflexivity.
  - intros d Hd. discriminate.
  - reflexivity.
Defined.

(** X26.  [clearCurrentChat].  Without a current session, or with the
    dialog declined, nothing changes.  With the dialog accepted the
    record of the current session is deleted from the chats collection
    and a new session with one welcome message is current.  Every record
    stored afterwards is the one of the new session or an old record of
    another id than the deleted one, and every entry of the lib mirror
    under another id than the new one is as before: unless the generated
    id is the id of the deleted session, nothing is found under that id
    and its entry in the lib mirror stays where the last save put it.
    (The storage takes the writes, the document on display has a title,
    and the id the new session is bound to is no name inherited from
    [Object.prototype].) *)
Theorem clearCurrentChat_deletes_the_session (s : ChatSession) (ch : ChatState)
    (w : World) :
  storageAvailable w -> titled w ->
  plainKey (boundTo (associatedDocId ch) (currentDocument w)) = true ->
  currentSession ch = Some s -> s_id s <> "" ->
  ChatInterface.clearCurrentChat false {| chat := ch; world := w |}
  = Returns tt {| chat := ch; world := w |}
  /\ exists p' new m saved,
       ChatInterface.clearCurrentChat true {| chat := ch; world := w |} = Returns tt p'
       /\ currentSession (chat p') = Some new
       /\ s_id new = nextId (ticked w)
       /\ messages (chat p') = [m] /\ m_type m = ai
       /\ storedSession (s_id new) (world p') = Some saved
       /\ (forall r, In r (storedChats (world p')) ->
             r = saved \/ (In r (storedChats w) /\ s_id r <> s_id s))
       /\ (forall q k, k <> nextId (ticked w) ->
             chatMirror q k (world p') = chatMirror q k w)
       /\ (nextId (ticked w) <> s_id s ->
           storedSession (s_id s) (world p') = None
           /\ forall q, chatMirror q (s_id s) (world p') = chatMirror q (s_id s) w).
Proof.
  intros Hq Ht Hplain Hcur Hid. split.
  - unfold ChatInterface.clearCurrentChat, ChatInterface.this.
    unfold bind at 1. unfold gets at 1. cbn [chat]. rewrite Hcur. reflexivity.
  - set (w1 := wrote (StorageManager.setChats
                        (Text (withoutChat (s_id s) (storedChats w)))) w).
    assert (Hq1 : storageAvailable w1) by (apply storageAvailable_wrote, Hq).
    assert (Hgen : nextId (ticked w) <> "").
    { apply append_nonempty, toString36_nonempty. }
    unfold ChatInterface.clearCurrentChat, ChatInterface.this.
    unfold bind at 1. unfold gets at 1. cbn [chat]. rewrite Hcur.
    rewrite (bind_Returns _ _ _ _ _
               (liftW_Returns _ ch w _ _ (deleteChatSession_run (s_id s) w Hq))).
    fold (withoutChat (s_id s) (storedChats w)). fold w1.
    destruct (createNewSession_true_run ch w1 Hq1 Ht (plainKey_usable _ w1 Hplain))
      as (title & m & t & t' & w' & E & Hai & _ & _ & Hstored & _ & Hmir).
    assert (Hlib : forall q k, k <> nextId (ticked w) ->
                               chatMirror q k w' = chatMirror q k w).
    { intros q k Hk. rewrite (Hmir q k) by exact Hk.
      rewrite !chatMirror_In. reflexivity. }
    eexists _, _, m, (stamped (createdSession ch w1 title m t) t'). split; [exact E|].
    cbn [chat world currentSession messages].
    assert (Hw1 : storedChats w1 = withoutChat (s_id s) (storedChats w))
      by (rewrite storedChats_eq; reflexivity).
    conjs; try reflexivity.
    + exact Hai.
    + unfold storedSession. rewrite Hstored.
      rewrite find_upsertChat_id by reflexivity. reflexivity.
    + intros r Hin. rewrite Hstored, Hw1 in Hin.
      apply upsertChat_elements in Hin. destruct Hin as [-> | Hin].
      * left. reflexivity.
      * right. apply withoutChat_elements, Hin.
    + exact Hlib.
    + intros Hfresh. split.
      * unfold storedSession. rewrite Hstored, Hw1.
        rewrite find_upsertChat_other_id.
        -- apply find_withoutChat_same.
        -- reflexivity.
        -- intros Heq. apply Hfresh. symmetry. exact Heq.
      * intros q. apply Hlib. intros Heq. apply Hfresh. symmetry. exact Heq.
Qed.

Lemma clearCurrentChat_deletes_the_session_witness :
  let w := finalState (StorageManager.saveChatSession S1 None freshWorld) in
  ChatInterface.clearCurrentChat false {| chat := holding S1; world := w |}
  = Returns tt {| chat := holding S1; world := w |}
  /\ exists p' new m saved,
       ChatInterface.clearCurrentChat true {| chat := holding S1; world := w |}
       = Returns tt p'
       /\ currentSession (chat p') = Some new
       /\ s_id new = nextId (ticked w)
       /\ messages (chat p') = [m] /\ m_type m = ai
       /\ storedSession (s_id new) (world p') = Some saved
       /\ (forall r, In r (storedChats (world p')) ->
             r = saved \/ (In r (storedChats w) /\ s_id r <> s_id S1))
       /\ (forall q k, k <> nextId (ticked w) ->
             chatMirror q k (world p') = chatMirror q k w)
       /\ (nextId (ticked w) <> s_id S1 ->
           storedSession (s_id S1) (world p') = None
           /\ forall q, chatMirror q (s_id S1) (world p') = chatMirror q (s_id S1) w).
Proof.
  apply (clearCurrentChat_deletes_the_session S1 (holding S1)
           (finalState (StorageManager.saveChatSession S1 None freshWorld))).
  - intros n. reflexivity.
  - intros d Hd. discriminate.
  - reflexivity.
  - reflexivity.
  - discriminate.
Defined.

(** ** Switching away and back *)

Lemma orNull_own x : orNull (orElse (orNull x) x) = orNull x.
Proof. unfold orNull, orElse. destruct (truthy x) eqn:E; cbn; rewrite ?E; reflexivity. Qed.

Lemma switchSession_run ch w A B sessionId :
  storageAvailable w -> usable (groupingKey ch A) w ->
  currentSession ch = Some A -> s_id A <> "" ->
  sessionId <> "" -> storedSession sessionId w = Some B ->
  exists w',
    ChatInterface.switchSession sessionId {| chat := ch; world := w |}
    = Returns tt
        {| chat := {| currentSession := Some B; messages := s_messages B;
                      sessions := storedChats w';
                      associatedDocId := orNull (s_docId B) |};
           world := w' |}
    /\ env w' = env w
    /\ storedChats w'
       = upsertChat (storedChats w) (s_id A)
           (stamped (syncedSession ch A (clock (env w) (ticks w)))
              (clock (env w) (S (ticks w)))).
Proof.
  intros Hq Hu Hcur HA Hsid Hfind.
  destruct (ui_saveChatSession_record ch w A Hq Hu Hcur HA)
    as (w' & Esave & He & _ & Hstored & _ & _).
  exists w'. conjs; try assumption.
  unfold ChatInterface.switchSession.
  apply String.eqb_neq in Hsid. rewrite Hsid.
  rewrite (bind_Returns _ _ _ _ _ (liftW_Returns _ ch w _ _ (getChats_run w))).
  rewrite <- storedChats_eq. unfold storedSession in Hfind. rewrite Hfind.
  unfold ChatInterface.this. unfold bind at 1. unfold gets at 1.
  cbn [chat currentSession]. rewrite Hcur.
  rewrite (bind_Returns _ _ _ _ _ Esave).
  reflexivity.
Qed.

(** X27.  Switching to another stored session and back brings the
    messages back: with session A current and any messages in memory,
    saved or not, [switchSession] to B followed by [switchSession] to A
    leaves a session of A's id and title current, with exactly the
    messages that were in memory before the first switch.  A need not
    have been stored before; B is stored again on the way back, with the
    messages it was loaded with.  (The storage takes the writes, and
    the document ids the two sessions are saved under, A's grouping key
    and B's [docId], are no names inherited from [Object.prototype].) *)
Theorem switching_back_restores_the_messages (ch : ChatState) (w : World)
    (A B : ChatSession) :
  storageAvailable w ->
  plainKey (groupingKey ch A) = true -> plainKey (s_docId B) = true ->
  currentSession ch = Some A -> s_id A <> "" ->
  s_id B <> "" -> s_id B <> s_id A ->
  storedSession (s_id B) w = Some B ->
  exists p1 p2 back kept,
    ChatInterface.switchSession (s_id B) {| chat := ch; world := w |} = Returns tt p1
    /\ currentSession (chat p1) = Some B
    /\ ChatInterface.switchSession (s_id A) p1 = Returns tt p2
    /\ currentSession (chat p2) = Some back
    /\ s_id back = s_id A /\ s_title back = s_title A
    /\ messages (chat p2) = messages ch
    /\ storedSession (s_id B) (world p2) = Some kept
    /\ s_messages kept = s_messages B.
Proof.
  intros Hq HplainA HplainB Hcur HA HB Hne Hfind.
  destruct (switchSession_run ch w A B (s_id B) Hq (plainKey_usable _ _ HplainA)
              Hcur HA HB Hfind)
    as (w1 & E1 & He1 & Hs1).
  set (n := stamped (syncedSession ch A (clock (env w) (ticks w)))
              (clock (env w) (S (ticks w)))) in *.
  assert (Hq1 : storageAvailable w1) by (apply (storageAvailable_env w); assumption).
  assert (Hfind1 : storedSession (s_id A) w1 = Some n).
  { unfold storedSession. rewrite Hs1. apply find_upsertChat_id. reflexivity. }
  destruct (switchSession_run
              {| currentSession := Some B; messages := s_messages B;
                 sessions := storedChats w1; associatedDocId := orNull (s_docId B) |}
              w1 B n (s_id A) Hq1
              ltac:(unfold groupingKey; cbn [associatedDocId]; rewrite orNull_own;
                    apply plainKey_usable, plainKey_orNull, HplainB)
              eq_refl HB HA Hfind1)
    as (w2 & E2 & _ & Hs2).
  eexists _, _, n, _. split; [exact E1|].
  split; [reflexivity|]. split; [exact E2|].
  split; [reflexivity|]. split; [reflexivity|]. split; [reflexivity|].
  split; [reflexivity|].
  split; [unfold storedSession; cbn [world]; rewrite Hs2;
          apply find_upsertChat_id; reflexivity|].
  reflexivity.
Qed.

Lemma switching_back_restores_the_messages_witness :
  let ch := chat (finalState (ChatInterface.pushMessage (question "m3" 3000)
                                {| chat := holding S1; world := worldWith [S1; S2] None |})) in
  exists p1 p2 back kept,
    ChatInterface.switchSession (s_id S2) {| chat := ch; world := worldWith [S1; S2] None |}
    = Returns tt p1
    /\ currentSession (chat p1) = Some S2
    /\ ChatInterface.switchSession (s_id S1) p1 = Returns tt p2
    /\ currentSession (chat p2) = Some back
    /\ s_id back = s_id S1 /\ s_title back = s_title S1
    /\ messages (chat p2) = messages ch
    /\ storedSession (s_id S2) (world p2) = Some kept
    /\ s_messages kept = s_messages S2.
Proof.
  apply (switching_back_restores_the_messages
           (chat (finalState (ChatInterface.pushMessage (question "m3" 3000)
                                {| chat := holding S1; world := worldWith [S1; S2] None |})))
           (worldWith [S1; S2] None) S1 S2).
  - intros n. reflexivity.
  - reflexivity.
  - reflexivity.
  - reflexivity.
  - discriminate.
  - discriminate.
  - discriminate.
  - reflexivity.
Defined.

(** ** File names *)

Lemma sanitizeChar_safe c :
  lowerSafe (sanitizeChar c) = true /\ sanitizeChar (sanitizeChar c) = sanitizeChar c.
Proof.
  destruct c as [[] [] [] [] [] [] [] []]; vm_compute; split; reflexivity.
Qed.

Lemma sanitizeFileName_cons c s :
  FileSystemManager.sanitizeFileName (String c s)
  = String (sanitizeChar c) (FileSystemManager.sanitizeFileName s).
Proof. reflexivity. Qed.

(** X28.  [sanitizeFileName] keeps the length of the name, answers a
    name made of the characters [a-z0-9-_] only, and changes nothing in
    a name it has already sanitised. *)
Theorem sanitizeFileName_safe (name : string) :
  String.length (FileSystemManager.sanitizeFileName name) = String.length name
  /\ allChars lowerSafe (FileSystemManager.sanitizeFileName name) = true
  /\ FileSystemManager.sanitizeFileName (FileSystemManager.sanitizeFileName name)
     = FileSystemManager.sanitizeFileName name.
Proof.
  induction name as [|c s (IHlen & IHsafe & IHidem)].
  - conjs; reflexivity.
  - rewrite !sanitizeFileName_cons.
    destruct (sanitizeChar_safe c) as [Hsafe Hidem].
    cbn [String.length allChars]. conjs.
    + rewrite IHlen. reflexivity.
    + rewrite Hsafe, IHsafe. reflexivity.
    + rewrite Hidem, IHidem. reflexivity.
Qed.

Lemma replaceRuns_allowed b s :
  allChars StorageManager.inClass (StorageManager.replaceRuns b s) = true.
Proof.
  revert b. induction s as [|c s IH]; intros b; [reflexivity|].
  cbn [StorageManager.replaceRuns]. destruct (StorageManager.inClass c) eqn:Ec.
  - cbn [allChars]. rewrite Ec, IH. reflexivity.
  - destruct b; [apply IH|]. cbn [allChars]. rewrite IH. reflexivity.
Qed.

Lemma replaceRuns_fixed b s :
  allChars StorageManager.inClass s = true -> StorageManager.replaceRuns b s = s.
Proof.
  revert b. induction s as [|c s IH]; intros b Hs; [reflexivity|].
  cbn [allChars] in Hs. apply andb_true_iff in Hs. destruct Hs as [Hc Hs].
  cbn [StorageManager.replaceRuns]. rewrite Hc, (IH false Hs). reflexivity.
Qed.

Lemma replaceRuns_nonempty s :
  s <> "" -> StorageManager.replaceRuns false s <> "".
Proof.
  destruct s as [|c s]; [congruence|]. intros _.
  cbn [StorageManager.replaceRuns]. destruct (StorageManager.inClass c); discriminate.
Qed.

Lemma titleOr_nonempty fallback title :
  fallback <> "" -> StorageManager.titleOr fallback title <> "".
Proof.
  intros Hf. unfold StorageManager.titleOr. destruct title as [t|]; [|exact Hf].
  destruct (String.eqb t "") eqn:E; [exact Hf|]. apply String.eqb_neq, E.
Qed.

(** X29.  The file names of the lib mirror.  The name of a document is
    a base followed by [.md], that of a chat a base followed by
    [.json]; the base is never empty, holds no character outside
    [A-Za-z0-9-_], and is a name the replacement leaves as it is. *)
Theorem mirror_fileNames_are_safe (doc : Document) (chat : ChatSession) :
  (exists base, StorageManager.docFileName doc = base +:+ ".md"
                /\ base <> ""
                /\ allChars StorageManager.inClass base = true
                /\ StorageManager.replaceRuns false base = base)
  /\ (exists base, StorageManager.chatFileName chat = base +:+ ".json"
                   /\ base <> ""
                   /\ allChars StorageManager.inClass base = true
                   /\ StorageManager.replaceRuns false base = base).
Proof.
  split; eexists; (split; [reflexivity|]); conjs.
  - apply replaceRuns_nonempty, titleOr_nonempty. discriminate.
  - apply replaceRuns_allowed.
  - apply replaceRuns_fixed, replaceRuns_allowed.
  - apply replaceRuns_nonempty, titleOr_nonempty. discriminate.
  - apply replaceRuns_allowed.
  - apply replaceRuns_fixed, replaceRuns_allowed.
Qed.

(** ** Projects of the lib *)

Lemma getLibProject_run p w :
  StorageManager.getLibProject p w = Returns (StorageManager.member (libRoot w) p) w.
Proof.
  unfold StorageManager.getLibProject.
  rewrite (bind_Returns _ _ _ _ _ (getLibRoot_run w)). rewrite libRoot_eq. reflexivity.
Qed.

(** X30.  The first save under a project creates it.  [getLibProject]
    answers null for a project nothing was saved under; after the first
    [saveDocument] under it, it answers a project that is named by its
    id and holds the mirror entry of that document, with the file name
    of its title, and nothing else: no chat and no file.  For every
    other project id it answers what it answered before.  (The storage
    takes the writes, the project id is no name inherited from
    [Object.prototype], and the document id is not [__proto__].) *)
Theorem first_save_creates_the_project (document : Document) (i p : string)
    (w : World) :
  storageAvailable w -> d_id document = Some i -> i <> "" -> i <> "__proto__" ->
  p <> "" -> StorageManager.inherited p = false ->
  libRoot w !! p = None ->
  StorageManager.getLibProject p w = Returns StorageManager.NoMember w
  /\ exists w' proj entry,
       StorageManager.saveDocument document (Some p) w = Returns true w'
       /\ StorageManager.getLibProject p w' = Returns (StorageManager.Own proj) w'
       /\ p_name proj = p
       /\ p_docs proj = {[ i := entry ]}
       /\ dm_fileName entry = StorageManager.docFileName document
       /\ p_chats proj = ∅ /\ p_files proj = ∅
       /\ forall q, q <> p ->
            StorageManager.getLibProject q w'
            = Returns (StorageManager.member (libRoot w) q) w'.
Proof.
  intros Hq Hid Hi Hproto Hp Hplain Hnew.
  pose proof (member_plain (libRoot w) p Hplain) as Hni.
  split.
  - rewrite getLibProject_run. unfold StorageManager.member. rewrite Hnew, Hplain.
    reflexivity.
  - destruct (saveDocument_with_id document i (Some p) w Hq
                (plainKey_usable _ _ (plainKey_Some p Hplain)) Hid Hi)
      as (n & w' & Es & _ & _ & Hl & Hn & Ht & _).
    assert (HL : libRoot w'
                 = alter (StorageManager.putDoc i (docEntry n)) p
                     (StorageManager.ensureProject (libRoot w) p)).
    { rewrite libRoot_eq, Hl. cbn [ai_elearning_lib StorageManager.setDocuments
                                   StorageManager.setLib].
      unfold libAfterDoc. apply String.eqb_neq in Hp. rewrite Hp, Hn. reflexivity. }
    exists w'. eexists. exists (docEntry n). split; [exact Es|].
    split.
    { rewrite getLibProject_run, HL. unfold StorageManager.member.
      rewrite lookup_alter_eq, (ensureProject_new _ _ Hnew Hni). reflexivity. }
    cbn [StorageManager.putDoc p_name p_docs p_chats p_files docEntry dm_fileName].
    conjs; try reflexivity.
    + unfold StorageManager.setMember. rewrite lookup_empty.
      apply String.eqb_neq in Hproto. rewrite Hproto. reflexivity.
    + unfold StorageManager.docFileName. rewrite Ht. reflexivity.
    + intros q Hne. rewrite getLibProject_run, HL. unfold StorageManager.member.
      rewrite lookup_alter_ne by congruence.
      rewrite ensureProject_other by exact Hne. reflexivity.
Qed.

Lemma first_save_creates_the_project_witness :
  StorageManager.getLibProject "biology" (afterBootstrap freshWorld)
  = Returns StorageManager.NoMember (afterBootstrap freshWorld)
  /\ exists w' proj entry,
       StorageManager.saveDocument introDoc (Some "biology") (afterBootstrap freshWorld)
       = Returns true w'
       /\ StorageManager.getLibProject "biology" w' = Returns (StorageManager.Own proj) w'
       /\ p_name proj = "biology"
       /\ p_docs proj = {[ "D7" := entry ]}
       /\ dm_fileName entry = StorageManager.docFileName introDoc
       /\ p_chats proj = ∅ /\ p_files proj = ∅
       /\ forall q, q <> "biology" ->
            StorageManager.getLibProject q w'
            = Returns (StorageManager.member (libRoot (afterBootstrap freshWorld)) q) w'.
Proof.
  apply (first_save_creates_the_project introDoc "D7" "biology" (afterBootstrap freshWorld)).
  - intros n. reflexivity.
  - reflexivity.
  - discriminate.
  - discriminate.
  - discriminate.
  - reflexivity.
  - reflexivity.
Defined.

(** ** Names inherited from [Object.prototype], and undefined values *)

(** Asked for the project [constructor], a lib without such a project
    answers the constructor of [Object], not null. *)
Example getLibProject_constructor :
  returned (StorageManager.getLibProject "constructor" (afterBootstrap freshWorld))
  = Some StorageManager.Inherited.
Proof. vm_compute. reflexivity. Qed.

(** A save under the project [constructor] throws, and the document is
    not stored. *)
Example saveDocument_under_constructor :
  let o := StorageManager.saveDocument introDoc (Some "constructor")
             (afterBootstrap freshWorld) in
  returned o = None
  /\ storedDocuments (finalState o) = []
  /\ libRoot (finalState o) = ∅.
Proof. vm_compute. repeat split. Qed.

(** A delete under the project [constructor] throws after the record
    has left the collection. *)
Example deleteDocument_under_constructor :
  let o := StorageManager.deleteDocument "E1" (Some "constructor")
             (worldWithDocuments [exercise; solution]) in
  returned o = None /\ storedDocuments (finalState o) = [solution].
Proof. vm_compute. repeat split. Qed.

(** A document whose id is [__proto__] is stored in the collection and
    leaves no entry in the mirror of its project. *)
Example saveDocument_proto_id :
  let o := StorageManager.saveDocument
             {| d_id := Some "__proto__"; d_title := Some "Intro"; d_createdAt := None;
                d_updatedAt := None; d_rest := ∅; d_undefined := [] |}
             (Some "biology") (afterBootstrap freshWorld) in
  returned o = Some true
  /\ length (storedDocuments (finalState o)) = 1
  /\ docMirror "biology" "__proto__" (finalState o) = None.
Proof. vm_compute. repeat split. Qed.

(** A patch that holds its title as undefined takes the title away. *)
Example saveDocument_undefined_title :
  let w' := finalState (StorageManager.saveDocument untitledPatch None
                          (worldWithDocuments [exercise; solution])) in
  match returned (StorageManager.getDocument "E1" w') with
  | Some (Some r) =>
      d_title r = None /\ d_rest r !! "type" = Some "exercise" /\ d_undefined r = []
  | _ => False
  end.
Proof. vm_compute. repeat split. Qed.

(** ** A clock that stands still *)

(** With the clock standing still and the random source repeating
    itself, [generateId] hands out the same id twice: two saves of an
    object with no id still append two records, under one id. *)
Example generateId_repeats :
  let w1 := finalState (StorageManager.saveDocument draft None frozenWorld) in
  let w2 := finalState (StorageManager.saveDocument draft None w1) in
  nextId frozenWorld = nextId w1
  /\ length (storedDocuments w2) = 2
  /\ map d_id (storedDocuments w2) = [Some (nextId frozenWorld); Some (nextId frozenWorld)].
Proof. vm_compute. repeat split. Qed.
